(** * Spec-MAS: validation gates and adversarial review

    A shallow embedding of [src/validation/gates.py] and
    [src/adversarial/review.py], followed by the properties of the
    specification that are settled against it.

    Layout:
    - [Py]      the Python values a loaded YAML document is made of, with the
                builtins the two files call on them ([str], [lower], [in],
                iteration, [len], truthiness) and the exceptions they raise;
    - [Re]      the fragment of [re] the sources use (a backtracking matcher,
                [findall] and [search]);
    - [Loop]    [for] loops, [enumerate] and insertion-ordered dictionaries;
    - [Gates]   [DefenseInDepthValidator];
    - [Review]  the five adversaries and [AdversarialReviewOrchestrator],
                with [asyncio.gather] as an event loop over schedules;
    - [Policy]  the decision policy in the words of the specification.

    The properties follow, each under the number of its claim.

    Text is modelled as byte strings.  Case folding and the character
    classes of [re] are given on the ASCII range; bytes above 127 are left
    alone by [lower] and belong to no class.  YAML floats and timestamps are
    outside the value type. *)

From Stdlib Require Import String Ascii List Bool Arith ZArith Lia.
From Stdlib Require Import DecimalString.
Import ListNotations.
Open Scope list_scope.
Open Scope string_scope.
Open Scope nat_scope.

Set Implicit Arguments.
Set Warnings "-register-all".

(* ================================================================== *)
(** * Python values and builtins *)
(* ================================================================== *)

Module Py.

(** Exceptions the modelled code can raise. *)
Inductive exn : Type :=
| TypeError
| AttributeError.

(** A computation that returns or raises. *)
Definition M (A : Type) : Type := (exn + A)%type.

Definition ret {A} (a : A) : M A := inr a.
Definition raise {A} (e : exn) : M A := inl e.
Definition bind {A B} (m : M A) (k : A -> M B) : M B :=
  match m with
  | inl e => inl e
  | inr a => k a
  end.

Definition returns {A} (m : M A) : bool :=
  match m with inr _ => true | inl _ => false end.

(** What [yaml.safe_load] builds.  A mapping keeps its insertion order;
    keys are section or field names. *)
Inductive value : Type :=
| VNone
| VBool (b : bool)
| VInt (z : Z)
| VStr (s : string)
| VList (l : list value)
| VDict (d : list (string * value)).

Definition dict : Type := list (string * value).

(** ** Strings *)

Definition is_upper (c : ascii) : bool :=
  let n := nat_of_ascii c in (65 <=? n) && (n <=? 90).
Definition is_lower (c : ascii) : bool :=
  let n := nat_of_ascii c in (97 <=? n) && (n <=? 122).
Definition is_digit (c : ascii) : bool :=
  let n := nat_of_ascii c in (48 <=? n) && (n <=? 57).
Definition is_word (c : ascii) : bool :=
  is_upper c || is_lower c || is_digit c || Ascii.eqb c "_".
Definition is_space (c : ascii) : bool :=
  let n := nat_of_ascii c in
  ((9 <=? n) && (n <=? 13)) || ((28 <=? n) && (n <=? 32)).

Definition lower_ascii (c : ascii) : ascii :=
  if is_upper c then ascii_of_nat (nat_of_ascii c + 32) else c.

(** [s.lower()] *)
Fixpoint lower (s : string) : string :=
  match s with
  | EmptyString => EmptyString
  | String c t => String (lower_ascii c) (lower t)
  end.

(** [s.startswith(p)] *)
Fixpoint startswith (p s : string) : bool :=
  match p, s with
  | EmptyString, _ => true
  | String a p', String b s' => Ascii.eqb a b && startswith p' s'
  | String _ _, EmptyString => false
  end.

(** [needle in hay] on two strings. *)
Fixpoint contains (needle hay : string) : bool :=
  startswith needle hay ||
  match hay with
  | EmptyString => false
  | String _ t => contains needle t
  end.

(** [s[:n]] *)
Fixpoint take (n : nat) (s : string) : string :=
  match n, s with
  | S n', String c t => String c (take n' t)
  | _, _ => EmptyString
  end.

(** [sep.join(l)] *)
Fixpoint join (sep : string) (l : list string) : string :=
  match l with
  | [] => ""
  | [x] => x
  | x :: t => x ++ sep ++ join sep t
  end.

(** The characters of a string, each as a string of length one. *)
Fixpoint chars (s : string) : list string :=
  match s with
  | EmptyString => []
  | String c t => String c EmptyString :: chars t
  end.

Definition str_of_Z (z : Z) : string := NilZero.string_of_int (Z.to_int z).
Definition str_of_nat (n : nat) : string := str_of_Z (Z.of_nat n).

(** ** [repr] and [str] *)

Definition hex_digit (n : nat) : ascii :=
  if n <? 10 then ascii_of_nat (48 + n) else ascii_of_nat (87 + n).

(** One character inside a string literal delimited by [q]. *)
Definition repr_char (q c : ascii) : string :=
  let n := nat_of_ascii c in
  if Ascii.eqb c "\" then "\\"
  else if Ascii.eqb c q then String "\" (String c "")
  else if n =? 9 then "\t"
  else if n =? 10 then "\n"
  else if n =? 13 then "\r"
  else if (n <? 32) || (n =? 127)
       then String "\" (String "x" (String (hex_digit (n / 16))
                                      (String (hex_digit (n mod 16)) "")))
  else String c "".

Fixpoint repr_body (q : ascii) (s : string) : string :=
  match s with
  | EmptyString => ""
  | String c t => repr_char q c ++ repr_body q t
  end.

Fixpoint has_char (c : ascii) (s : string) : bool :=
  match s with
  | EmptyString => false
  | String a t => Ascii.eqb a c || has_char c t
  end.

Definition squote : ascii := "'".
Definition dquote : ascii := ascii_of_nat 34.

(** [repr(s)]: single quotes unless the text has one and no double quote. *)
Definition repr_str (s : string) : string :=
  let q := if has_char squote s && negb (has_char dquote s)
           then dquote else squote in
  String q (repr_body q s ++ String q "").

Fixpoint repr (v : value) : string :=
  match v with
  | VNone => "None"
  | VBool true => "True"
  | VBool false => "False"
  | VInt z => str_of_Z z
  | VStr s => repr_str s
  | VList l => "[" ++ join ", " (map repr l) ++ "]"
  | VDict d =>
      "{" ++ join ", " (map (fun kv => match kv with
                                       | (k, x) => repr_str k ++ ": " ++ repr x
                                       end) d) ++ "}"
  end.

(** [str(v)] *)
Definition str (v : value) : string :=
  match v with
  | VStr s => s
  | _ => repr v
  end.

(** [str(spec)] for the loaded mapping. *)
Definition str_dict (d : dict) : string := repr (VDict d).

(** [x if isinstance(x, str) else str(x)] coincides with [str]. *)
Definition text_of (v : value) : string := str v.

(** ** Mappings *)

(** [k in d] *)
Fixpoint has_key (k : string) (d : dict) : bool :=
  match d with
  | [] => false
  | (k', _) :: t => String.eqb k k' || has_key k t
  end.

(** [d.get(k)] *)
Fixpoint lookup (k : string) (d : dict) : option value :=
  match d with
  | [] => None
  | (k', v) :: t => if String.eqb k k' then Some v else lookup k t
  end.

(** [d.get(k, dflt)] *)
Definition get (k : string) (dflt : value) (d : dict) : value :=
  match lookup k d with
  | Some v => v
  | None => dflt
  end.

(** [v.get(k, dflt)] on a value that may not be a mapping. *)
Definition value_get (k : string) (dflt : value) (v : value) : M value :=
  match v with
  | VDict d => ret (get k dflt d)
  | _ => raise AttributeError
  end.

(** ** Truth, iteration, length, membership *)

(** [bool(v)] *)
Definition truthy (v : value) : bool :=
  match v with
  | VNone => false
  | VBool b => b
  | VInt z => negb (Z.eqb z 0)
  | VStr s => negb (String.eqb s "")
  | VList l => match l with [] => false | _ => true end
  | VDict d => match d with [] => false | _ => true end
  end.

(** [iter(v)] run to the end: the items a [for] loop visits. *)
Definition iter (v : value) : M (list value) :=
  match v with
  | VList l => ret l
  | VStr s => ret (map VStr (chars s))
  | VDict d => ret (map (fun kv => VStr (fst kv)) d)
  | _ => raise TypeError
  end.

Definition iterable (v : value) : bool :=
  match v with
  | VList _ | VStr _ | VDict _ => true
  | _ => false
  end.

(** [len(v)] *)
Definition len (v : value) : M nat :=
  match v with
  | VList l => ret (List.length l)
  | VStr s => ret (String.length s)
  | VDict d => ret (List.length d)
  | _ => raise TypeError
  end.

(** [v[n:]]; a mapping cannot be sliced (the exception, whose class
    depends on the Python version, is modelled as [TypeError]). *)
Definition slice_from (n : nat) (v : value) : M value :=
  match v with
  | VList l => ret (VList (skipn n l))
  | VStr s => ret (VStr (substring n (String.length s - n) s))
  | _ => raise TypeError
  end.

(** [VStr t == x] *)
Definition eq_str (t : string) (x : value) : bool :=
  match x with
  | VStr s => String.eqb t s
  | _ => false
  end.

(** [t in v] for a string [t]. *)
Definition str_in (t : string) (v : value) : M bool :=
  match v with
  | VDict d => ret (has_key t d)
  | VList l => ret (existsb (eq_str t) l)
  | VStr s => ret (contains t s)
  | _ => raise TypeError
  end.

(** [any(k in text for k in ks)] *)
Definition any_in (ks : list string) (text : string) : bool :=
  existsb (fun k => contains k text) ks.

(** ** More string methods *)

Definition newline : ascii := ascii_of_nat 10.

(** [s.split('\n')] *)
Fixpoint split_newline (s : string) : list string :=
  match s with
  | EmptyString => [EmptyString]
  | String c t =>
      if Ascii.eqb c newline then EmptyString :: split_newline t
      else match split_newline t with
           | [] => [String c EmptyString]
           | h :: r => String c h :: r
           end
  end.

(** [s.lstrip()], [s.rstrip()], [s.strip()] *)
Fixpoint lstrip (s : string) : string :=
  match s with
  | EmptyString => EmptyString
  | String c t => if is_space c then lstrip t else s
  end.

Fixpoint rstrip (s : string) : string :=
  match s with
  | EmptyString => EmptyString
  | String c t =>
      match rstrip t with
      | EmptyString => if is_space c then EmptyString else String c EmptyString
      | r => String c r
      end
  end.

Definition strip (s : string) : string := rstrip (lstrip s).

(** [s[1:]] *)
Definition tail (s : string) : string :=
  match s with
  | EmptyString => EmptyString
  | String _ t => t
  end.

(** [s.endswith(suf)] *)
Definition endswith (suf s : string) : bool :=
  (String.length suf <=? String.length s)
  && String.eqb suf (substring (String.length s - String.length suf)
                               (String.length suf) s).

End Py.

Notation "x <- m ;; k" := (Py.bind m (fun x => k))
  (at level 61, m at next level, right associativity).

(* ================================================================== *)
(** * The fragment of [re] used by the sources *)
(* ================================================================== *)

Module Re.

Import Py.

(** Pattern syntax: literals, one-character classes, greedy bounded-below
    repetition of a class ([p+] is [Rep 1 p], [p{2,}] is [Rep 2 p]), the
    word boundary, sequence, ordered alternative and the capturing group.
    No pattern of the sources has more than one group. *)
Inductive re : Type :=
| Lit (s : string)
| Rep (n : nat) (p : ascii -> bool)
| WordB
| Seq (r1 r2 : re)
| Alt (r1 r2 : re)
| Group (r : re).

Definition word_opt (c : option ascii) : bool :=
  match c with
  | Some a => is_word a
  | None => false
  end.

Definition head (s : string) : option ascii :=
  match s with
  | EmptyString => None
  | String c _ => Some c
  end.

(** [\b] between the character before the position and the one after. *)
Definition at_boundary (prev : option ascii) (s : string) : bool :=
  xorb (word_opt prev) (word_opt (head s)).

Definition same_char (ci : bool) (a b : ascii) : bool :=
  if ci then Ascii.eqb (lower_ascii a) (lower_ascii b) else Ascii.eqb a b.

(** Consume the literal [l] at the head of [s]; [ci] is [re.IGNORECASE]. *)
Fixpoint lit (ci : bool) (l : string) (prev : option ascii) (s : string)
  : option (option ascii * string) :=
  match l with
  | EmptyString => Some (prev, s)
  | String a l' =>
      match s with
      | String b s' => if same_char ci a b then lit ci l' (Some b) s' else None
      | EmptyString => None
      end
  end.

Section Matcher.

Variable A : Type.

(** What is still to be matched after the current node: it receives the
    character before the position, the rest of the text and the group. *)
Definition cont : Type := option ascii -> string -> option string -> option A.

(** Greedy [p{n,}]: take one more character first, give it back when the
    rest of the pattern fails. *)
Fixpoint rep (p : ascii -> bool) (n : nat) (prev : option ascii)
         (s : string) (k : option ascii -> string -> option A) : option A :=
  match s with
  | String c t =>
      if p c then
        match rep p (pred n) (Some c) t k with
        | Some a => Some a
        | None => if n =? 0 then k prev s else None
        end
      else if n =? 0 then k prev s else None
  | EmptyString => if n =? 0 then k prev s else None
  end.

Fixpoint run (ci : bool) (r : re) (prev : option ascii) (s : string)
         (cap : option string) (k : cont) : option A :=
  match r with
  | Lit l =>
      match lit ci l prev s with
      | Some (prev', s') => k prev' s' cap
      | None => None
      end
  | Rep n p => rep p n prev s (fun prev' s' => k prev' s' cap)
  | WordB => if at_boundary prev s then k prev s cap else None
  | Seq r1 r2 =>
      run ci r1 prev s cap (fun prev' s' cap' => run ci r2 prev' s' cap' k)
  | Alt r1 r2 =>
      match run ci r1 prev s cap k with
      | Some a => Some a
      | None => run ci r2 prev s cap k
      end
  | Group r1 =>
      run ci r1 prev s cap
          (fun prev' s' _ =>
             k prev' s' (Some (take (String.length s - String.length s') s)))
  end.

End Matcher.

(** A match starting exactly here: its length and its group. *)
Definition match_at (ci : bool) (r : re) (prev : option ascii) (s : string)
  : option (nat * option string) :=
  run ci r prev s None
      (fun _ s' cap => Some (String.length s - String.length s', cap)).

(** Left-to-right scan for non-overlapping matches.  [skip] counts the
    characters of the last match still to be stepped over.  Every pattern
    of the sources consumes at least one character, so an empty match is
    not recorded.  As [re.findall] does, a pattern with a group yields the
    group and a pattern without one yields the whole match. *)
Fixpoint scan (ci : bool) (r : re) (prev : option ascii) (s : string)
         (skip : nat) {struct s} : list string :=
  match s with
  | EmptyString => []
  | String c t =>
      match skip with
      | S k => scan ci r (Some c) t k
      | O =>
          match match_at ci r prev s with
          | Some (S n, cap) =>
              match cap with
              | Some g => g
              | None => take (S n) s
              end :: scan ci r (Some c) t n
          | _ => scan ci r (Some c) t 0
          end
      end
  end.

(** [re.findall(r, s)] *)
Definition findall (r : re) (s : string) : list string :=
  scan false r None s 0.

Fixpoint search_from (ci : bool) (r : re) (prev : option ascii) (s : string)
  : bool :=
  match match_at ci r prev s with
  | Some _ => true
  | None =>
      match s with
      | EmptyString => false
      | String c t => search_from ci r (Some c) t
      end
  end.

(** [re.search(r, s)] and [re.search(r, s, re.IGNORECASE)] as a truth value. *)
Definition search (ci : bool) (r : re) (s : string) : bool :=
  search_from ci r None s.

(** [(a|b|...)] *)
Fixpoint alts (l : list string) : re :=
  match l with
  | [] => Lit ""
  | [x] => Lit x
  | x :: t => Alt (Lit x) (alts t)
  end.

End Re.

(* ================================================================== *)
(** * Loops and insertion-ordered dictionaries *)
(* ================================================================== *)

Module Loop.

Import Py.

(** [for x in l: acc = body(acc, x)] where the body may raise. *)
Fixpoint for_each {A S : Type} (l : list A) (body : S -> A -> M S) (acc : S)
  : M S :=
  match l with
  | [] => ret acc
  | x :: t => acc' <- body acc x ;; for_each t body acc'
  end.

(** [l.append(x)] and [l.extend(l')] *)
Definition push {A : Type} (l : list A) (x : A) : list A := (l ++ [x])%list.
Definition extend {A : Type} (l l' : list A) : list A := (l ++ l')%list.

(** [enumerate(l, n)] *)
Fixpoint enumerate_from {A : Type} (n : nat) (l : list A) : list (nat * A) :=
  match l with
  | [] => []
  | x :: t => (n, x) :: enumerate_from (S n) t
  end.

Definition enumerate {A : Type} (l : list A) : list (nat * A) :=
  enumerate_from 0 l.

(** [list(set(l))].  Python leaves the iteration order of a set open; the
    model lists the members in order of first occurrence. *)
Definition list_set (l : list string) : list string :=
  nodup string_dec l.

Section OrderedDict.

Variables K V : Type.
Variable eqb : K -> K -> bool.

(** [d[k] = v]: an existing key keeps its place, a new one goes last. *)
Fixpoint dict_set (k : K) (v : V) (d : list (K * V)) : list (K * V) :=
  match d with
  | [] => [(k, v)]
  | (k', v') :: t =>
      if eqb k k' then (k, v) :: t else (k', v') :: dict_set k v t
  end.

Definition keys (d : list (K * V)) : list K := map fst d.
Definition values (d : list (K * V)) : list V := map snd d.

End OrderedDict.

End Loop.

(* ================================================================== *)
(** * [validation/gates.py] *)
(* ================================================================== *)

Module Gates.

Import Py Re Loop.

Inductive ValidationLevel : Type :=
| SYNTAX
| SEMANTIC
| COVERAGE
| CROSS_REFERENCE.

Definition level_value (l : ValidationLevel) : nat :=
  match l with
  | SYNTAX => 1
  | SEMANTIC => 2
  | COVERAGE => 3
  | CROSS_REFERENCE => 4
  end.

Definition level_eqb (a b : ValidationLevel) : bool :=
  level_value a =? level_value b.

Record ValidationResult : Type := mkResult {
  passed : bool;
  level : ValidationLevel;
  errors : list string;
  warnings : list string;
  suggestions : list string;
  ready_for_adversarial : bool
}.

(** The validator object: the file name of [spec_path], the loaded
    document, the mutable [current_level] and the sibling documents on
    disk. *)
Record Validator : Type := mkValidator {
  spec_path_name : string;
  spec : dict;
  current_level : ValidationLevel;
  (** what [_load_existing_specs] reads from the directory of [spec_path] *)
  existing_specs : list dict
}.

(** [DefenseInDepthValidator(path)] once the document is loaded. *)
Definition new_validator (name : string) (d : dict) (others : list dict)
  : Validator :=
  mkValidator name d SYNTAX others.

Definition set_current_level (v : Validator) (l : ValidationLevel)
  : Validator :=
  mkValidator (spec_path_name v) (spec v) l (existing_specs v).

(** The last dotted suffix found in [s], the dot included. *)
Fixpoint last_dot (s : string) : option string :=
  match s with
  | EmptyString => None
  | String c t =>
      match last_dot t with
      | Some x => Some x
      | None => if Ascii.eqb c "." then Some s else None
      end
  end.

(** [Path.suffix]: empty when the only dot leads or ends the name. *)
Definition suffix (name : string) : string :=
  match name with
  | EmptyString => ""
  | String _ t =>
      match last_dot t with
      | Some x => if String.length x =? 1 then "" else x
      | None => ""
      end
  end.

Definition is_yaml (v : Validator) : bool :=
  String.eqb (suffix (spec_path_name v)) ".yaml".

(** [self.spec[k]] behind a successful [k in self.spec]. *)
Definition item (k : string) (d : dict) : value := get k VNone d.

(** [str(self.spec).lower()] *)
Definition spec_text (d : dict) : string := lower (str_dict d).

(** ** Level 1 *)

Definition required_sections : list string :=
  ["user_stories"; "functional_requirements"; "acceptance_criteria"].

Definition validate_level_1_syntax (v : Validator) : M ValidationResult :=
  let d := spec v in
  (* required sections *)
  let errors :=
    fold_left
      (fun errors section =>
         if negb (has_key section d) || negb (truthy (item section d))
         then push errors ("Missing required section: " ++ section)
         else errors)
      required_sections [] in
  let warnings : list string := [] in
  (* requirement IDs *)
  warnings <-
    (if has_key "functional_requirements" d then
       reqs <- iter (item "functional_requirements" d) ;;
       ret (fold_left
              (fun warnings ir =>
                 match ir with
                 | (i, VStr req) =>
                     if negb (startswith "FR-" req)
                     then push warnings ("Requirement " ++ str_of_nat (i + 1)
                                        ++ " should have ID format 'FR-X'")
                     else warnings
                 | _ => warnings
                 end)
              (enumerate reqs) warnings)
     else ret warnings) ;;
  (* empty sections *)
  let warnings :=
    fold_left
      (fun warnings kv =>
         match kv with
         | (key, VList []) => push warnings ("Empty section: " ++ key)
         | _ => warnings
         end)
      d warnings in
  (* YAML structure *)
  let warnings :=
    if is_yaml v then
      let warnings :=
        if negb (has_key "apiVersion" d)
        then push warnings "Missing apiVersion field" else warnings in
      if negb (has_key "metadata" d)
      then push warnings "Missing metadata section" else warnings
    else warnings in
  let passed := List.length errors =? 0 in
  ret (mkResult passed SYNTAX errors warnings
         (match warnings with
          | [] => []
          | _ => ["Consider using the formal YAML template for better structure"]
          end)
         false).

(** ** Helper methods *)

(** [\b[a-z]+\b] *)
Definition word_re : re := Seq WordB (Seq (Rep 1 is_lower) WordB).

Definition _extract_keywords (stories : value) : M (list string) :=
  items <- iter stories ;;
  ret (list_set
         (fold_left
            (fun keywords story =>
               let story_text := text_of story in
               let words := findall word_re (lower story_text) in
               extend keywords (filter (fun w => 3 <? String.length w) words))
            items [])).

Definition contradictions : list (string * string) :=
  [("must", "must not"); ("always", "never"); ("required", "optional");
   ("synchronous", "asynchronous")].

Definition _requirements_conflict (req1 req2 : value) : bool :=
  let req1_text := text_of req1 in
  let req2_text := text_of req2 in
  existsb
    (fun ww =>
       match ww with
       | (word1, word2) =>
           contains word1 (lower req1_text)
           && contains word2 (lower req2_text)
           && existsb (fun term => contains term (lower req1_text)
                                   && contains term (lower req2_text))
                      ["same"; "identical"; "equal"]
       end)
    contradictions.

(** [[A-Z]{2,}], [\w+API], [\w+Protocol] *)
Definition technical_patterns : list re :=
  [Rep 2 is_upper;
   Seq (Rep 1 is_word) (Lit "API");
   Seq (Rep 1 is_word) (Lit "Protocol")].

Definition _find_technical_terms (d : dict) : list string :=
  let spec_text := str_dict d in
  list_set
    (fold_left (fun terms pattern => extend terms (findall pattern spec_text))
               technical_patterns []).

(** [sum(flags)] over truth values. *)
Definition sum_bools (l : list bool) : nat :=
  fold_left (fun n (b : bool) => if b then n + 1 else n) l 0.

Definition _is_complex_spec (d : dict) : M bool :=
  n <- len (get "functional_requirements" (VList []) d) ;;
  let complexity_indicators :=
    [contains "database" (spec_text d);
     contains "migration" (spec_text d);
     contains "payment" (spec_text d);
     10 <? n;
     contains "distributed" (spec_text d)] in
  ret (2 <=? sum_bools complexity_indicators).

(** [(GET|POST|PUT|DELETE|PATCH)\s+/[\w/]+] *)
Definition endpoint_pattern : re :=
  Seq (Group (alts ["GET"; "POST"; "PUT"; "DELETE"; "PATCH"]))
      (Seq (Rep 1 is_space)
           (Seq (Lit "/") (Rep 1 (fun c => is_word c || Ascii.eqb c "/")))).

Definition _extract_apis (d : dict) : list string :=
  let apis : list string := [] in
  let spec_text := str_dict d in
  let matches := findall endpoint_pattern spec_text in
  extend apis matches.

(** One entry of the list [_check_spec_conflicts] returns. *)
Record Conflict : Type := mkConflict {
  conflict_spec : value;
  conflict_issue : string
}.

Definition _check_spec_conflicts (d : dict) (others : list dict)
  : M (list Conflict) :=
  let current_apis := _extract_apis d in
  for_each others
    (fun conflicts other_spec =>
       let other_apis := _extract_apis other_spec in
       for_each current_apis
         (fun conflicts api =>
            if existsb (String.eqb api) other_apis then
              name <- value_get "name" (VStr "unknown")
                        (get "metadata" (VDict []) other_spec) ;;
              ret (push conflicts
                     (mkConflict name ("Duplicate API endpoint: " ++ api)))
            else ret conflicts)
         conflicts)
    [].

Definition _is_update_to_existing (v : Validator) : bool :=
  let update_indicators :=
    [contains "update" (lower (spec_path_name v));
     contains "v2" (lower (spec_path_name v));
     contains "migration" (spec_text (spec v));
     contains "deprecate" (spec_text (spec v))] in
  existsb (fun b => b) update_indicators.

(** ** Level 2 *)

Definition sensitive_keywords : list string :=
  ["payment"; "password"; "auth"; "credit"; "personal"; "private"].

Definition validate_level_2_semantic (v : Validator) : M ValidationResult :=
  let d := spec v in
  let errors : list string := [] in
  let warnings : list string := [] in
  let suggestions : list string := [] in
  (* traceability to user stories *)
  warnings <-
    (if has_key "user_stories" d && has_key "functional_requirements" d then
       story_keywords <- _extract_keywords (item "user_stories" d) ;;
       reqs <- iter (item "functional_requirements" d) ;;
       ret (fold_left
              (fun warnings req =>
                 let req_text := text_of req in
                 if negb (existsb (fun keyword =>
                                     contains keyword (lower req_text))
                                  story_keywords)
                 then push warnings ("Requirement '" ++ take 50 req_text
                                       ++ "...' may not trace to user stories")
                 else warnings)
              reqs warnings)
     else ret warnings) ;;
  (* conflicting requirements *)
  let requirements := get "functional_requirements" (VList []) d in
  reqs <- iter requirements ;;
  errors <-
    for_each (enumerate reqs)
      (fun errors ir =>
         match ir with
         | (i, req1) =>
             rest <- slice_from (i + 1) requirements ;;
             rest_items <- iter rest ;;
             ret (fold_left
                    (fun errors jr =>
                       match jr with
                       | (j, req2) =>
                           if _requirements_conflict req1 req2
                           then push errors
                                  ("Potential conflict between requirements "
                                     ++ str_of_nat (i + 1) ++ " and "
                                     ++ str_of_nat (j + 1))
                           else errors
                       end)
                    (enumerate_from (i + 1) rest_items) errors)
         end)
      errors ;;
  (* undefined terms *)
  let technical_terms := _find_technical_terms d in
  let defined_terms := get "definitions" (VDict []) d in
  ws <-
    for_each technical_terms
      (fun ws term =>
         match ws with
         | (warnings, suggestions) =>
             known <- str_in term defined_terms ;;
             if negb known
             then ret (push warnings
                         ("Technical term '" ++ term ++ "' is not defined"),
                       push suggestions
                         ("Add definition for '" ++ term
                            ++ "' in definitions section"))
             else ret (warnings, suggestions)
         end)
      (warnings, suggestions) ;;
  let warnings := fst ws in
  let suggestions := snd ws in
  (* security requirements for sensitive operations *)
  let has_sensitive := any_in sensitive_keywords (spec_text d) in
  let es :=
    if has_sensitive && negb (has_key "security_requirements" d)
    then (push errors
            "Spec involves sensitive operations but lacks security requirements",
          push suggestions
            "Add security_requirements section with authentication, authorization, and encryption details")
    else (errors, suggestions) in
  let errors := fst es in
  let suggestions := snd es in
  let passed := List.length errors =? 0 in
  ret (mkResult passed SEMANTIC errors warnings suggestions false).

(** ** Level 3 *)

Definition error_keywords : list string :=
  ["error"; "fail"; "invalid"; "exception"; "timeout"].

Definition resource_keywords : list string :=
  ["memory"; "cpu"; "disk"; "bandwidth"; "connection"].

Definition validate_level_3_coverage (v : Validator) : M ValidationResult :=
  let d := spec v in
  let errors : list string := [] in
  let warnings : list string := [] in
  let suggestions : list string := [] in
  (* user paths *)
  let user_stories := get "user_stories" (VList []) d in
  let acceptance_criteria := get "acceptance_criteria" (VList []) d in
  stories <- iter user_stories ;;
  warnings <-
    for_each stories
      (fun warnings story =>
         let story_text := text_of story in
         criteria <- iter acceptance_criteria ;;
         if negb (existsb (fun c => contains (lower story_text) (lower (str c)))
                          criteria)
         then ret (push warnings ("User story may lack acceptance criteria: "
                                    ++ take 50 story_text ++ "..."))
         else ret warnings)
      warnings ;;
  (* error conditions *)
  let has_error_handling := any_in error_keywords (spec_text d) in
  let es :=
    if negb has_error_handling
    then (push errors "No error conditions or failure scenarios defined",
          push suggestions
            "Add error handling requirements for each major operation")
    else (errors, suggestions) in
  let errors := fst es in
  let suggestions := snd es in
  (* performance bounds *)
  let ws :=
    if has_key "non_functional_requirements" d then
      let nfrs := lower (str (item "non_functional_requirements" d)) in
      if negb (contains "performance" nfrs)
         && negb (contains "response time" nfrs)
         && negb (contains "latency" nfrs)
      then (push warnings "No performance requirements specified",
            push suggestions
              "Add performance bounds (response time, throughput, etc.)")
      else (warnings, suggestions)
    else (warnings, suggestions) in
  let warnings := fst ws in
  let suggestions := snd ws in
  (* resource limits *)
  let has_resource_limits := any_in resource_keywords (spec_text d) in
  let ws :=
    if negb has_resource_limits
    then (push warnings "No resource limits specified",
          push suggestions "Define resource constraints and limits")
    else (warnings, suggestions) in
  let warnings := fst ws in
  let suggestions := snd ws in
  (* rollback procedures for complex specs *)
  complex <- _is_complex_spec d ;;
  let es :=
    if complex && negb (contains "rollback" (spec_text d))
    then (push errors "Complex spec lacks rollback procedures",
          push suggestions "Add rollback and recovery procedures")
    else (errors, suggestions) in
  let errors := fst es in
  let suggestions := snd es in
  let passed := List.length errors =? 0 in
  ret (mkResult passed COVERAGE errors warnings suggestions false).

(** ** Level 4 *)

Definition validate_level_4_cross_reference (v : Validator)
  : M ValidationResult :=
  let d := spec v in
  let errors : list string := [] in
  let warnings : list string := [] in
  let suggestions : list string := [] in
  (* conflicts with existing specs *)
  let existing := existing_specs v in
  conflicts <- _check_spec_conflicts d existing ;;
  let errors :=
    fold_left
      (fun errors conflict =>
         push errors ("Conflict with " ++ str (conflict_spec conflict) ++ ": "
                        ++ conflict_issue conflict))
      conflicts errors in
  (* interfaces *)
  let es :=
    if has_key "interfaces" d || contains "api" (spec_text d) then
      if negb (has_key "api_contracts" d)
         && negb (has_key "interface_definitions" d)
      then (push errors
              "Spec mentions interfaces/APIs but lacks proper definitions",
            push suggestions
              "Add api_contracts or interface_definitions section")
      else (errors, suggestions)
    else (errors, suggestions) in
  let errors := fst es in
  let suggestions := snd es in
  (* dependencies *)
  let ws :=
    if negb (has_key "dependencies" d)
    then (push warnings "No explicit dependencies stated",
          push suggestions
            "Add dependencies section listing all external systems and libraries")
    else (warnings, suggestions) in
  let warnings := fst ws in
  let suggestions := snd ws in
  (* backwards compatibility *)
  let es :=
    if _is_update_to_existing v then
      if negb (has_key "backwards_compatibility" d)
         && negb (has_key "breaking_changes" d)
      then (push errors
              "Update to existing system lacks backwards compatibility analysis",
            push suggestions
              "Add backwards_compatibility section or explicitly list breaking_changes")
      else (errors, suggestions)
    else (errors, suggestions) in
  let errors := fst es in
  let suggestions := snd es in
  let passed := List.length errors =? 0 in
  ret (mkResult passed CROSS_REFERENCE errors warnings suggestions passed).

(** ** The runner *)

Definition Results : Type := list (ValidationLevel * ValidationResult).

Definition validators
  : list (ValidationLevel * (Validator -> M ValidationResult)) :=
  [(SYNTAX, validate_level_1_syntax);
   (SEMANTIC, validate_level_2_semantic);
   (COVERAGE, validate_level_3_coverage);
   (CROSS_REFERENCE, validate_level_4_cross_reference)].

(** The [for level, validator in validators] loop: [break] leaves with the
    results so far, a passed level is recorded in [current_level]. *)
Fixpoint run_validators
         (vs : list (ValidationLevel * (Validator -> M ValidationResult)))
         (self : Validator) (results : Results) : M (Results * Validator) :=
  match vs with
  | [] => ret (results, self)
  | (lvl, validator) :: rest =>
      result <- validator self ;;
      let results := dict_set level_eqb lvl result results in
      if negb (passed result) then ret (results, self)
      else run_validators rest (set_current_level self lvl) results
  end.

Definition run_progressive_validation (self : Validator)
  : M (Results * Validator) :=
  run_validators validators self [].

(** ** Loading *)

(** The mapping [_parse_markdown] starts from. *)
Definition empty_outline : dict :=
  [("user_stories", VList []);
   ("functional_requirements", VList []);
   ("non_functional_requirements", VList []);
   ("acceptance_criteria", VList [])].

(** [spec[k].append(x)] *)
Fixpoint append_item (k : string) (x : value) (d : dict) : dict :=
  match d with
  | [] => []
  | (k', v) :: t =>
      if String.eqb k k'
      then (k', match v with
                | VList l => VList (push l x)
                | _ => v
                end) :: t
      else (k', v) :: append_item k x t
  end.

(** One line of the outline: a heading switches the section, a bullet
    under a section is appended without its dash, anything else is
    skipped. *)
Definition outline_line (st : option string * dict) (line : string)
  : option string * dict :=
  match st with
  | (current_section, spec) =>
      if startswith "## User Stories" line
      then (Some "user_stories", spec)
      else if startswith "## Functional Requirements" line
      then (Some "functional_requirements", spec)
      else if startswith "## Non-Functional Requirements" line
      then (Some "non_functional_requirements", spec)
      else if startswith "## Acceptance Criteria" line
      then (Some "acceptance_criteria", spec)
      else match current_section with
           | Some section =>
               if startswith "-" (strip line)
               then (current_section,
                     append_item section
                                 (VStr (strip (tail (strip line)))) spec)
               else st
           | None => st
           end
  end.

Definition _parse_markdown (content : string) : dict :=
  snd (fold_left outline_line (split_newline content) (None, empty_outline)).

(** [_load_spec]: [parsed] is what [yaml.safe_load] gives for the file,
    [content] is what [f.read()] gives. *)
Definition _load_spec (name : string) (parsed : dict) (content : string)
  : dict :=
  if String.eqb (suffix name) ".yaml" then parsed
  else _parse_markdown content.

(** [DefenseInDepthValidator(spec_path)] *)
Definition load_validator (name : string) (parsed : dict) (content : string)
           (others : list dict) : Validator :=
  new_validator name (_load_spec name parsed content) others.

(** The loop of [validate_spec] over [results.items()], without what it
    prints: the first result that did not pass ends it with [False]. *)
Fixpoint all_passed_loop (items : Results) (all_passed : bool) : bool :=
  match items with
  | [] => all_passed
  | (_, result) :: rest =>
      if negb (passed result) then false
      else all_passed_loop rest all_passed
  end.

(** What [validate_spec] returns. *)
Definition validate_spec (self : Validator) : M bool :=
  results <- run_progressive_validation self ;;
  ret (all_passed_loop (fst results) true).

End Gates.

(* ================================================================== *)
(** * [adversarial/review.py]: findings and the five adversaries *)
(* ================================================================== *)

Module Review.

Import Py Re Loop.

Inductive Severity : Type :=
| CRITICAL
| HIGH
| MEDIUM
| LOW
| INFO.

(** [severity.value] *)
Definition severity_value (s : Severity) : string :=
  match s with
  | CRITICAL => "CRITICAL"
  | HIGH => "HIGH"
  | MEDIUM => "MEDIUM"
  | LOW => "LOW"
  | INFO => "INFO"
  end.

Definition severity_eqb (a b : Severity) : bool :=
  String.eqb (severity_value a) (severity_value b).

Record AdversarialFinding : Type := mkFinding {
  adversary : string;
  severity : Severity;
  issue : string;
  details : string;
  attack_vector : option string;
  misinterpretation : option string;
  suggested_defense : option string;
  location : option string
}.

Definition Findings : Type := list AdversarialFinding.

(** One awaited [_check_*] coroutine: it reads the document and appends to
    [self.findings]. *)
Definition check : Type := dict -> Findings -> M Findings.

(** A check that cannot raise. *)
Definition total_check (f : dict -> Findings -> Findings) : check :=
  fun d fs => ret (f d fs).

(** [if cond: self.findings.append(x)] *)
Definition append_if (cond : bool) (x : AdversarialFinding) (fs : Findings)
  : Findings :=
  if cond then push fs x else fs.

(** [str(spec).lower()] *)
Definition spec_text (d : dict) : string := lower (str_dict d).

(** ** SecurityAdversary *)

Module Security.

Definition name : string := "Security Adversary".

Definition _check_authentication (d : dict) (fs : Findings) : Findings :=
  let spec_text := spec_text d in
  let user_actions :=
    ["create"; "update"; "delete"; "modify"; "submit"; "approve"] in
  let has_user_actions := any_in user_actions spec_text in
  let auth_keywords :=
    ["authenticate"; "authentication"; "login"; "jwt"; "oauth"; "token"] in
  let has_auth := any_in auth_keywords spec_text in
  let fs :=
    append_if (has_user_actions && negb has_auth)
      (mkFinding name CRITICAL
         "Missing authentication requirements"
         "Spec defines user actions but doesn't specify authentication"
         (Some "Unauthenticated access to user functions")
         None
         (Some "Add explicit authentication requirements for all user actions")
         None) fs in
  append_if (has_auth && negb (contains "session" spec_text)
             && negb (contains "token" spec_text))
    (mkFinding name HIGH
       "No session management specified"
       "Authentication mentioned but no session/token management"
       (Some "Session hijacking, token replay attacks")
       None
       (Some "Specify session timeout, token refresh, and revocation mechanisms")
       None) fs.

Definition _check_authorization (d : dict) (fs : Findings) : Findings :=
  let spec_text := spec_text d in
  let role_keywords := ["admin"; "user"; "manager"; "owner"; "member"] in
  let has_roles := any_in role_keywords spec_text in
  let authz_keywords :=
    ["authorization"; "permission"; "access control"; "rbac"; "acl"] in
  let has_authz := any_in authz_keywords spec_text in
  append_if (has_roles && negb has_authz)
    (mkFinding name HIGH
       "Missing authorization requirements"
       "Spec mentions roles but no authorization checks"
       (Some "Privilege escalation, unauthorized access")
       None
       (Some "Add explicit authorization checks for all role-based operations")
       None) fs.

Definition _check_data_protection (d : dict) (fs : Findings) : Findings :=
  let spec_text := spec_text d in
  let pii_keywords :=
    ["email"; "phone"; "address"; "ssn"; "social security";
     "credit card"; "payment"; "password"; "date of birth"] in
  let has_pii := any_in pii_keywords spec_text in
  let encryption_keywords :=
    ["encrypt"; "encryption"; "hashed"; "bcrypt"; "aes"] in
  let has_encryption := any_in encryption_keywords spec_text in
  let fs :=
    append_if (has_pii && negb has_encryption)
      (mkFinding name CRITICAL
         "Unprotected sensitive data"
         "Spec handles PII but doesn't specify encryption"
         (Some "Data breach, compliance violations")
         None
         (Some "Require encryption at rest and in transit for all PII")
         None) fs in
  if contains "log" spec_text && has_pii then
    append_if (negb (contains "redact" spec_text)
               && negb (contains "mask" spec_text))
      (mkFinding name HIGH
         "Potential sensitive data in logs"
         "Logging mentioned with PII but no redaction specified"
         (Some "Information disclosure through logs")
         None
         (Some "Specify PII redaction/masking in all logs")
         None) fs
  else fs.

Definition cmd_keywords : list string :=
  ["execute"; "shell"; "command"; "system"; "exec"].

Definition command_injection : AdversarialFinding :=
  mkFinding name CRITICAL
    "Command injection risk"
    "Spec involves command execution"
    (Some "Remote code execution")
    None
    (Some "Avoid shell commands; if required, specify strict input validation")
    None.

Definition _check_injection_risks (d : dict) (fs : Findings) : Findings :=
  let spec_text := spec_text d in
  let db_keywords :=
    ["database"; "sql"; "query"; "select"; "insert"; "update"; "delete"] in
  let has_db := any_in db_keywords spec_text in
  let protection_keywords :=
    ["parameterized"; "prepared statement"; "sanitize"; "escape"] in
  let has_protection := any_in protection_keywords spec_text in
  let fs :=
    append_if (has_db && negb has_protection)
      (mkFinding name HIGH
         "SQL injection risk"
         "Database operations without parameterization requirements"
         (Some "SQL injection attacks")
         None
         (Some "Require parameterized queries for all database operations")
         None) fs in
  append_if (any_in cmd_keywords spec_text) command_injection fs.

Definition _check_validation (d : dict) (fs : Findings) : Findings :=
  let spec_text := spec_text d in
  let input_keywords := ["input"; "form"; "upload"; "parameter"; "request"] in
  let has_input := any_in input_keywords spec_text in
  let validation_keywords :=
    ["validate"; "validation"; "sanitize"; "whitelist"; "regex"] in
  let has_validation := any_in validation_keywords spec_text in
  append_if (has_input && negb has_validation)
    (mkFinding name HIGH
       "Missing input validation"
       "User input accepted without validation requirements"
       (Some "XSS, injection attacks, buffer overflow")
       None
       (Some "Specify validation rules for all user inputs")
       None) fs.

(** The awaited checks of [attack_spec], in program order. *)
Definition checks : list check :=
  [total_check _check_authentication;
   total_check _check_authorization;
   total_check _check_data_protection;
   total_check _check_injection_risks;
   total_check _check_validation].

End Security.

(** ** AmbiguityAdversary *)

Module Ambiguity.

Definition name : string := "Ambiguity Adversary".

(** [self.vague_terms], in insertion order. *)
Definition vague_terms : list (string * string) :=
  [("should", "Use 'MUST' for requirements");
   ("may", "Use 'MUST' or 'MUST NOT' for clarity");
   ("might", "Be explicit about optionality");
   ("could", "Use 'MUST' or 'MAY' per RFC 2119");
   ("consider", "Specify exact requirements");
   ("appropriate", "Define what is appropriate");
   ("reasonable", "Specify exact bounds");
   ("timely", "Specify exact time limits");
   ("efficient", "Define performance metrics");
   ("secure", "Specify security requirements");
   ("user-friendly", "Define specific UX requirements");
   ("scalable", "Specify scalability metrics");
   ("robust", "Define failure scenarios");
   ("flexible", "Specify variation points")].

Definition misinterpretations : list (string * string) :=
  [("should", "Interpreted as optional - skipping this requirement");
   ("may", "Interpreted as 'will not' - opposite of intended");
   ("appropriate", "Interpreted as 'minimal' - lowest effort implementation");
   ("reasonable", "Interpreted as 'unlimited' - no bounds applied");
   ("secure", "Interpreted as 'basic auth only' - minimal security")].

Fixpoint table_get (k : string) (dflt : string) (t : list (string * string))
  : string :=
  match t with
  | [] => dflt
  | (k', v) :: rest => if String.eqb k k' then v else table_get k dflt rest
  end.

Definition _generate_misinterpretation (requirement vague_term : string)
  : string :=
  table_get vague_term
    ("Interpreted '" ++ vague_term ++ "' in the most permissive way possible")
    misinterpretations.

(** The finding appended for [term] matched in the requirement [req_text]. *)
Definition vague_finding (req_text term suggestion : string)
  : AdversarialFinding :=
  mkFinding name MEDIUM
    ("Ambiguous term '" ++ term ++ "' in requirement")
    ("Requirement: " ++ take 100 req_text ++ "...")
    None
    (Some (_generate_misinterpretation req_text term))
    (Some suggestion)
    (Some ("requirement: " ++ take 50 req_text)).

Definition _check_requirements (d : dict) (fs : Findings) : M Findings :=
  let requirements : list value := [] in
  requirements <-
    (if has_key "functional_requirements" d then
       items <- iter (get "functional_requirements" VNone d) ;;
       ret (extend requirements items)
     else ret requirements) ;;
  requirements <-
    (if has_key "non_functional_requirements" d then
       items <- iter (get "non_functional_requirements" VNone d) ;;
       ret (extend requirements items)
     else ret requirements) ;;
  ret (fold_left
         (fun fs req =>
            let req_text := text_of req in
            let req_lower := lower req_text in
            fold_left
              (fun fs ts =>
                 match ts with
                 | (term, suggestion) =>
                     append_if (contains term req_lower)
                       (vague_finding req_text term suggestion) fs
                 end)
              vague_terms fs)
         requirements fs).

(** [\b(number|count|size|length|amount|quantity)\b] *)
Definition numeric_pattern : re :=
  Seq WordB
      (Seq (Group (alts ["number"; "count"; "size"; "length"; "amount";
                         "quantity"]))
           WordB).

(** [(min|max|between|less than|greater than|\d+)] *)
Definition bound_pattern : re :=
  Group (Alt (Lit "min")
        (Alt (Lit "max")
        (Alt (Lit "between")
        (Alt (Lit "less than")
        (Alt (Lit "greater than")
             (Rep 1 is_digit)))))).

Definition time_terms : list string :=
  ["soon"; "quickly"; "eventually"; "periodically"; "regularly"].

Definition _check_boundaries (d : dict) (fs : Findings) : Findings :=
  let spec_text := str_dict d in
  let fs :=
    if search true numeric_pattern spec_text then
      append_if (negb (search false bound_pattern spec_text))
        (mkFinding name HIGH
           "Unbounded numeric values"
           "Numeric values mentioned without limits"
           None
           (Some "Could accept 0, negative, or extremely large values")
           (Some "Specify min/max bounds for all numeric inputs")
           None) fs
    else fs in
  fold_left
    (fun fs term =>
       append_if (contains term (lower spec_text))
         (mkFinding name MEDIUM
            ("Vague time reference: '" ++ term ++ "'")
            "Time constraint is not specific"
            None
            (Some "Could mean milliseconds or days")
            (Some "Specify exact time limits (e.g., 'within 5 seconds')")
            None) fs)
    time_terms fs.

Definition error_terms : list string :=
  ["handle appropriately"; "deal with errors"; "manage exceptions"].

Definition _check_error_handling (d : dict) (fs : Findings) : Findings :=
  let spec_text := spec_text d in
  if contains "error" spec_text || contains "exception" spec_text then
    fold_left
      (fun fs term =>
         append_if (contains term spec_text)
           (mkFinding name MEDIUM
              "Vague error handling"
              ("Error handling specified as '" ++ term ++ "'")
              None
              (Some "Could ignore errors or crash application")
              (Some "Specify exact error handling: log, retry, fallback, etc.")
              None) fs)
      error_terms fs
  else fs.

Definition checks : list check :=
  [_check_requirements;
   total_check _check_boundaries;
   total_check _check_error_handling].

End Ambiguity.

(** ** ImplementationAdversary *)

Module Implementation.

Definition name : string := "Implementation Adversary".

Definition _check_edge_cases (d : dict) (fs : Findings) : Findings :=
  let spec_text := spec_text d in
  let fs :=
    if contains "create" spec_text || contains "add" spec_text then
      append_if (negb (contains "duplicate" spec_text))
        (mkFinding name MEDIUM
           "Unspecified duplicate handling"
           "Creation operation without duplicate policy"
           None
           (Some "Allow duplicate creation, causing data inconsistency")
           (Some "Specify behavior for duplicate creation attempts")
           None) fs
    else fs in
  let fs :=
    if contains "delete" spec_text || contains "remove" spec_text then
      append_if (negb (contains "not found" spec_text)
                 && negb (contains "not exist" spec_text))
        (mkFinding name MEDIUM
           "Unspecified missing resource handling"
           "Delete operation without 'not found' behavior"
           None
           (Some "Silent failure or crash on missing resource")
           (Some "Specify behavior when deleting non-existent items")
           None) fs
    else fs in
  if contains "list" spec_text || contains "query" spec_text then
    append_if (negb (contains "empty" spec_text)
               && negb (contains "no results" spec_text))
      (mkFinding name LOW
         "Unspecified empty result handling"
         "Query operation without empty result specification"
         None
         (Some "Return null instead of empty array")
         (Some "Specify response format for empty results")
         None) fs
  else fs.

Definition _check_race_conditions (d : dict) (fs : Findings) : Findings :=
  let spec_text := spec_text d in
  let concurrent_keywords :=
    ["concurrent"; "parallel"; "simultaneous"; "multiple users"] in
  let has_concurrency := any_in concurrent_keywords spec_text in
  let sync_keywords :=
    ["lock"; "mutex"; "synchronize"; "atomic"; "transaction"] in
  let has_sync := any_in sync_keywords spec_text in
  let fs :=
    append_if (has_concurrency && negb has_sync)
      (mkFinding name HIGH
         "Race condition risk"
         "Concurrent operations without synchronization"
         None
         (Some "Implement without thread safety")
         (Some "Specify locking/transaction requirements")
         None) fs in
  if contains "update" spec_text
     && (contains "based on" spec_text || contains "if" spec_text) then
    append_if (negb (contains "atomic" spec_text)
               && negb (contains "transaction" spec_text))
      (mkFinding name HIGH
         "Non-atomic read-modify-write"
         "Conditional update without atomicity requirement"
         None
         (Some "Implement with separate read and write operations")
         (Some "Require atomic compare-and-swap or transactions")
         None) fs
  else fs.

Definition _check_state_management (d : dict) (fs : Findings) : Findings :=
  let spec_text := spec_text d in
  let state_keywords := ["status"; "state"; "workflow"; "lifecycle"] in
  let has_state := any_in state_keywords spec_text in
  if has_state then
    let transition_keywords :=
      ["transition"; "valid states"; "state machine"; "allowed"] in
    let has_transitions := any_in transition_keywords spec_text in
    append_if (negb has_transitions)
      (mkFinding name MEDIUM
         "Undefined state transitions"
         "Stateful system without transition rules"
         None
         (Some "Allow any state transition")
         (Some "Define valid states and allowed transitions")
         None) fs
  else fs.

Definition _check_error_recovery (d : dict) (fs : Findings) : Findings :=
  let spec_text := spec_text d in
  if contains "error" spec_text || contains "fail" spec_text then
    let recovery_keywords :=
      ["retry"; "rollback"; "recover"; "fallback"; "compensate"] in
    let has_recovery := any_in recovery_keywords spec_text in
    append_if (negb has_recovery)
      (mkFinding name HIGH
         "No error recovery specified"
         "Error conditions without recovery strategy"
         None
         (Some "Crash or leave system in inconsistent state")
         (Some "Specify recovery actions for each error scenario")
         None) fs
  else fs.

Definition checks : list check :=
  [total_check _check_edge_cases;
   total_check _check_race_conditions;
   total_check _check_state_management;
   total_check _check_error_recovery].

End Implementation.

(** ** PerformanceAdversary *)

Module Performance.

Definition name : string := "Performance Adversary".

Definition _check_unbounded_operations (d : dict) (fs : Findings)
  : Findings :=
  let spec_text := spec_text d in
  let fs :=
    if contains "list" spec_text || contains "search" spec_text
       || contains "query" spec_text then
      append_if (negb (contains "limit" spec_text)
                 && negb (contains "page" spec_text)
                 && negb (contains "pagination" spec_text))
        (mkFinding name HIGH
           "Unbounded query results"
           "List/search operation without result limits"
           (Some "Memory exhaustion with large result sets")
           None
           (Some "Add pagination or result limit requirements")
           None) fs
    else fs in
  if contains "for each" spec_text || contains "iterate" spec_text
     || contains "process all" spec_text then
    append_if (negb (contains "timeout" spec_text)
               && negb (contains "limit" spec_text))
      (mkFinding name MEDIUM
         "Unbounded iteration"
         "Iteration without limits or timeout"
         (Some "CPU exhaustion with large datasets")
         None
         (Some "Add iteration limits or processing timeouts")
         None) fs
  else fs.

Definition _check_resource_limits (d : dict) (fs : Findings) : Findings :=
  let spec_text := spec_text d in
  let fs :=
    if contains "upload" spec_text || contains "file" spec_text then
      append_if (negb (contains "size limit" spec_text)
                 && negb (contains "max size" spec_text))
        (mkFinding name HIGH
           "Unlimited file uploads"
           "File handling without size restrictions"
           (Some "Disk space exhaustion")
           None
           (Some "Specify maximum file size and total storage limits")
           None) fs
    else fs in
  if contains "api" spec_text || contains "endpoint" spec_text then
    append_if (negb (contains "rate limit" spec_text)
               && negb (contains "throttle" spec_text))
      (mkFinding name MEDIUM
         "No rate limiting specified"
         "API endpoints without rate limits"
         (Some "DoS through request flooding")
         None
         (Some "Add rate limiting requirements per user/IP")
         None) fs
  else fs.

Definition _check_caching_needs (d : dict) (fs : Findings) : Findings :=
  let spec_text := spec_text d in
  let expensive_keywords :=
    ["calculate"; "compute"; "aggregate"; "report"; "analytics"] in
  let has_expensive := any_in expensive_keywords spec_text in
  append_if (has_expensive && negb (contains "cache" spec_text))
    (mkFinding name MEDIUM
       "Expensive operations without caching"
       "Computational operations without cache strategy"
       (Some "Performance degradation under load")
       None
       (Some "Specify caching requirements for expensive operations")
       None) fs.

Definition _check_pagination (d : dict) (fs : Findings) : Findings :=
  let spec_text := spec_text d in
  if contains "pagination" spec_text || contains "page" spec_text then
    append_if (contains "offset" spec_text && contains "large" spec_text)
      (mkFinding name LOW
         "Offset pagination for large datasets"
         "Offset-based pagination becomes slow with large offsets"
         (Some "Performance degradation on deep pages")
         None
         (Some "Consider cursor-based pagination for large datasets")
         None) fs
  else fs.

Definition checks : list check :=
  [total_check _check_unbounded_operations;
   total_check _check_resource_limits;
   total_check _check_caching_needs;
   total_check _check_pagination].

End Performance.

(** ** ComplianceAdversary *)

Module Compliance.

Definition name : string := "Compliance Adversary".

(** [self.regulations] *)
Definition regulations : list (string * list string) :=
  [("GDPR", ["personal data"; "eu"; "europe"; "privacy"; "consent";
             "right to be forgotten"]);
   ("PCI-DSS", ["credit card"; "payment card"; "card number"; "cvv";
                "payment"]);
   ("HIPAA", ["health"; "medical"; "patient"; "diagnosis"; "prescription"]);
   ("SOC2", ["security"; "availability"; "confidentiality"; "privacy"]);
   ("CCPA", ["california"; "personal information"; "consumer privacy"])].

Definition _check_data_retention (d : dict) (fs : Findings) : Findings :=
  let spec_text := spec_text d in
  if existsb (fun terms => existsb (fun term => contains term spec_text) terms)
             (values regulations) then
    append_if (negb (contains "retention" spec_text)
               && negb (contains "delete" spec_text))
      (mkFinding name HIGH
         "Missing data retention policy"
         "Personal data handled without retention/deletion policy"
         (Some "Compliance violations, legal liability")
         None
         (Some "Specify data retention periods and deletion procedures")
         None) fs
  else fs.

Definition _check_audit_requirements (d : dict) (fs : Findings) : Findings :=
  let spec_text := spec_text d in
  let audit_operations := ["delete"; "modify"; "access"; "view"; "export"] in
  let has_operations := any_in audit_operations spec_text in
  append_if (has_operations && negb (contains "audit" spec_text)
             && negb (contains "log" spec_text))
    (mkFinding name MEDIUM
       "Missing audit trail requirements"
       "Sensitive operations without audit logging"
       (Some "Unable to detect or investigate breaches")
       None
       (Some "Add audit logging for all data operations")
       None) fs.

Definition _check_consent_management (d : dict) (fs : Findings) : Findings :=
  let spec_text := spec_text d in
  if contains "personal" spec_text || contains "user data" spec_text then
    append_if (negb (contains "consent" spec_text))
      (mkFinding name HIGH
         "No consent management"
         "Personal data collection without consent mechanism"
         (Some "GDPR violations, fines")
         None
         (Some "Add explicit consent collection and management")
         None) fs
  else fs.

Definition _check_data_portability (d : dict) (fs : Findings) : Findings :=
  let spec_text := spec_text d in
  if contains "user" spec_text && contains "data" spec_text then
    append_if (negb (contains "export" spec_text)
               && negb (contains "download" spec_text))
      (mkFinding name MEDIUM
         "No data portability mechanism"
         "User data without export functionality"
         (Some "GDPR Article 20 violation")
         None
         (Some "Add data export functionality in machine-readable format")
         None) fs
  else fs.

Definition checks : list check :=
  [total_check _check_data_retention;
   total_check _check_audit_requirements;
   total_check _check_consent_management;
   total_check _check_data_portability].

End Compliance.

(** ** AdversarialReviewOrchestrator *)

(** An agent: its name and the checks its [attack_spec] awaits in turn. *)
Record AdversaryAgent : Type := mkAgent {
  name : string;
  checks : list check
}.

(** [attack_spec] run on its own: [self.findings = []], every check in
    program order, [return self.findings]. *)
Definition attack_spec (a : AdversaryAgent) (d : dict) : M Findings :=
  for_each (checks a) (fun fs c => c d fs) [].

Definition SecurityAdversary : AdversaryAgent :=
  mkAgent Security.name Security.checks.
Definition AmbiguityAdversary : AdversaryAgent :=
  mkAgent Ambiguity.name Ambiguity.checks.
Definition ImplementationAdversary : AdversaryAgent :=
  mkAgent Implementation.name Implementation.checks.
Definition PerformanceAdversary : AdversaryAgent :=
  mkAgent Performance.name Performance.checks.
Definition ComplianceAdversary : AdversaryAgent :=
  mkAgent Compliance.name Compliance.checks.

(** [self.adversaries] as [__init__] registers them. *)
Definition adversaries : list AdversaryAgent :=
  [SecurityAdversary; AmbiguityAdversary; ImplementationAdversary;
   PerformanceAdversary; ComplianceAdversary].

(** *** [asyncio.gather]

    Each [attack_spec] coroutine becomes a task.  A task can be suspended
    at an [await]; when it is resumed it runs its next check.  A schedule
    is the sequence of task indices the event loop resumes.  The model
    admits every interleaving of the awaited checks, which covers what the
    event loop can do. *)

Inductive Task : Type :=
| Live (todo : list check) (fs : Findings)
| Dead (e : exn).

Definition task_done (t : Task) : bool :=
  match t with
  | Live [] _ => true
  | Live (_ :: _) _ => false
  | Dead _ => true
  end.

Definition task_findings (t : Task) : Findings :=
  match t with
  | Live _ fs => fs
  | Dead _ => []
  end.

(** Resume a task for one check. *)
Definition resume (d : dict) (t : Task) : Task :=
  match t with
  | Live (c :: todo) fs =>
      match c d fs with
      | inr fs' => Live todo fs'
      | inl e => Dead e
      end
  | _ => t
  end.

Fixpoint set_nth {A : Type} (i : nat) (x : A) (l : list A) : list A :=
  match l, i with
  | [], _ => []
  | _ :: t, O => x :: t
  | y :: t, S j => y :: set_nth j x t
  end.

(** The tasks in registration order and the exception [gather] has
    propagated, if any: the first one raised. *)
Record EventLoop : Type := mkLoop {
  tasks : list Task;
  raised : option exn
}.

Definition start (advs : list AdversaryAgent) : EventLoop :=
  mkLoop (map (fun a => Live (checks a) []) advs) None.

Definition step (d : dict) (st : EventLoop) (i : nat) : EventLoop :=
  match nth_error (tasks st) i with
  | None => st
  | Some t =>
      let t' := resume d t in
      mkLoop (set_nth i t' (tasks st))
             (match raised st with
              | Some e => Some e
              | None => match t' with
                        | Dead e => Some e
                        | Live _ _ => None
                        end
              end)
  end.

Definition run_schedule (d : dict) (sched : list nat) (st : EventLoop)
  : EventLoop :=
  fold_left (step d) sched st.

(** [await asyncio.gather(...)]: the first exception raised, else the
    results in the order the coroutines were passed once every task is
    done.  [None] when the schedule stops before that. *)
Definition gather (d : dict) (advs : list AdversaryAgent) (sched : list nat)
  : option (M (list Findings)) :=
  let st := run_schedule d sched (start advs) in
  match raised st with
  | Some e => Some (raise e)
  | None =>
      if forallb task_done (tasks st)
      then Some (ret (map task_findings (tasks st)))
      else None
  end.

(** *** The report *)

(** One entry of [defended_spec_changes]. *)
Record Defense : Type := mkDefense {
  defense_issue : string;
  defense_change : string;
  defense_severity : string
}.

Record AdversarialReport : Type := mkReport {
  spec_name : value;
  total_findings : nat;
  critical_findings : nat;
  findings_by_adversary : list (string * Findings);
  defended_spec_changes : list Defense;
  approval_status : string;
  human_review_required : bool
}.

Definition is_critical (f : AdversarialFinding) : bool :=
  severity_eqb (severity f) CRITICAL.

(** [sum(1 for f in findings if f.severity == Severity.CRITICAL)] *)
Definition count_critical (fs : Findings) : nat :=
  list_sum (map (fun _ => 1) (filter is_critical fs)).

Definition _generate_defenses (findings : Findings) : list Defense :=
  fold_left
    (fun defenses finding =>
       match suggested_defense finding with
       | Some change =>
           if negb (String.eqb change "")
           then push defenses
                  (mkDefense (issue finding) change
                             (severity_value (severity finding)))
           else defenses
       | None => defenses
       end)
    findings [].

(** The accumulators of the merge loop. *)
Record Merge : Type := mkMerge {
  m_by_adversary : list (string * Findings);
  m_all : Findings;
  m_critical : nat
}.

(** [for adversary, findings in zip(self.adversaries, findings_lists)] *)
Definition merge (advs : list AdversaryAgent) (findings_lists : list Findings)
  : Merge :=
  fold_left
    (fun acc af =>
       match af with
       | (adv, findings) =>
           mkMerge (dict_set String.eqb (name adv) findings
                             (m_by_adversary acc))
                   (extend (m_all acc) findings)
                   (m_critical acc + count_critical findings)
       end)
    (combine advs findings_lists)
    (mkMerge [] [] 0).

Definition decide_status (critical_count : nat) (all_findings : Findings)
  : string :=
  if 0 <? critical_count
  then "BLOCKED - Critical findings must be addressed"
  else if 10 <? List.length all_findings
  then "NEEDS_REVIEW - Too many findings"
  else if 0 <? List.length all_findings
  then "CONDITIONAL - Address findings before implementation"
  else "APPROVED - No significant issues found".

(** [run_review] after the [gather]. *)
Definition build_report (advs : list AdversaryAgent) (d : dict)
           (findings_lists : list Findings) : M AdversarialReport :=
  let mg := merge advs findings_lists in
  let findings_by_adversary := m_by_adversary mg in
  let all_findings := m_all mg in
  let critical_count := m_critical mg in
  let approval_status := decide_status critical_count all_findings in
  spec_name <- value_get "name" (VStr "unknown")
                 (get "metadata" (VDict []) d) ;;
  ret (mkReport spec_name
                (List.length all_findings)
                critical_count
                findings_by_adversary
                (_generate_defenses all_findings)
                approval_status
                ((0 <? critical_count) || (5 <? List.length all_findings))).

(** [run_review] on the loaded document under a schedule of the tasks. *)
Definition run_review_with (advs : list AdversaryAgent) (sched : list nat)
           (d : dict) : option (M AdversarialReport) :=
  match gather d advs sched with
  | None => None
  | Some (inl e) => Some (raise e)
  | Some (inr findings_lists) => Some (build_report advs d findings_lists)
  end.

Definition run_review (sched : list nat) (d : dict)
  : option (M AdversarialReport) :=
  run_review_with adversaries sched d.

(** The schedule in which every task runs to its end before the next one
    starts, in registration order. *)
Definition in_turn (advs : list AdversaryAgent) : list nat :=
  flat_map (fun ia => repeat (fst ia) (List.length (checks (snd ia))))
           (enumerate advs).

(** The document [run_review] builds from the file: [parsed] is what
    [yaml.safe_load] gives, [content] what [f.read()] gives. *)
Definition load_spec (spec_path : string) (parsed : dict) (content : string)
  : dict :=
  if endswith ".yaml" spec_path then parsed
  else [("content", VStr content)].

(** [run_review(spec_path)] *)
Definition run_review_file (sched : list nat) (spec_path : string)
           (parsed : dict) (content : string)
  : option (M AdversarialReport) :=
  run_review sched (load_spec spec_path parsed content).

(** The test ['APPROVED' in report.approval_status] by which [main] picks
    the mark of its last line. *)
Definition shown_approved (rep : AdversarialReport) : bool :=
  contains "APPROVED" (approval_status rep).

End Review.

(* ================================================================== *)
(** * The decision policy in the words of the specification *)
(* ================================================================== *)

Module Policy.

Import Py Review.

Inductive ApprovalStatus : Type :=
| APPROVED
| CONDITIONAL
| NEEDS_REVIEW
| BLOCKED.

(** [decide(findings) -> (status, human_review_required)] *)
Definition decide (findings : Findings) : ApprovalStatus * bool :=
  let critical := List.length (filter is_critical findings) in
  let total := List.length findings in
  (if 0 <? critical then BLOCKED
   else if 10 <? total then NEEDS_REVIEW
   else if 0 <? total then CONDITIONAL
   else APPROVED,
   (0 <? critical) || (5 <? total)).

(** The status a status line of the report announces: the word in front
    of its [" - "]. *)
Definition announced (line : string) : option ApprovalStatus :=
  if startswith "BLOCKED - " line then Some BLOCKED
  else if startswith "NEEDS_REVIEW - " line then Some NEEDS_REVIEW
  else if startswith "CONDITIONAL - " line then Some CONDITIONAL
  else if startswith "APPROVED - " line then Some APPROVED
  else None.

End Policy.

(* ================================================================== *)
(** * Vocabulary of the properties *)
(* ================================================================== *)

(** Notions the statements below are phrased in, and the documents they
    are tried on. *)

Section ReviewVocabulary.

Import Py Re Loop Review.

(** What the findings handed to the merge loop flatten to. *)
Definition flattened (advs : list AdversaryAgent) (fls : list Findings)
  : Findings :=
  concat (map snd (combine advs fls)).

(** One turn of the merge loop. *)
Definition merge_step (acc : Merge) (af : AdversaryAgent * Findings) : Merge :=
  mkMerge (dict_set String.eqb (name (fst af)) (snd af) (m_by_adversary acc))
          (extend (m_all acc) (snd af))
          (m_critical acc + count_critical (snd af)).

(** A LOW finding. *)
Definition low_finding : AdversarialFinding :=
  mkFinding "Performance Adversary" LOW
    "Offset pagination for large datasets"
    "Offset-based pagination becomes slow with large offsets"
    (Some "Performance degradation on deep pages") None
    (Some "Consider cursor-based pagination for large datasets") None.

(** What a task ends in when it is resumed until it is done. *)
Definition finish (d : dict) (t : Task) : M Findings :=
  match t with
  | Live todo fs => for_each todo (fun fs c => c d fs) fs
  | Dead e => raise e
  end.

(** The state of the loop agrees with the agents: every task still ends
    in what its [attack_spec] gives, and [raised] tells whether a task has
    raised. *)
Definition sound (d : dict) (advs : list AdversaryAgent) (st : EventLoop)
  : Prop :=
  Forall2 (fun t a => finish d t = attack_spec a d) (tasks st) advs
  /\ match raised st with
     | None => Forall (fun t => forall e, t <> Dead e) (tasks st)
     | Some e => In (Dead e) (tasks st)
     end.

(** The items [_check_requirements] collects from one section. *)
Definition section_items (k : string) (d : dict) : M (list value) :=
  if has_key k d then iter (get k VNone d) else ret [].

(** A section that is absent or that a [for] loop can walk. *)
Definition walkable (k : string) (d : dict) : bool :=
  negb (has_key k d) || iterable (get k VNone d).

(** The findings one requirement gives: one per vague term it contains,
    in table order. *)
Definition scan_requirement (req : value) : Findings :=
  flat_map
    (fun ts =>
       if contains (fst ts) (lower (text_of req))
       then [Ambiguity.vague_finding (text_of req) (fst ts) (snd ts)]
       else [])
    Ambiguity.vague_terms.

(** The names of the five agents in the order [__init__] registers them. *)
Definition registration_order : list string :=
  ["Security Adversary"; "Ambiguity Adversary"; "Implementation Adversary";
   "Performance Adversary"; "Compliance Adversary"].

(** The recommended change a finding gives, if it suggests a defence. *)
Definition defense_of (f : AdversarialFinding) : list Defense :=
  match suggested_defense f with
  | Some change =>
      if String.eqb change "" then []
      else [mkDefense (issue f) change (severity_value (severity f))]
  | None => []
  end.

(** The findings a report lists, adversary after adversary. *)
Definition listed (rep : AdversarialReport) : Findings :=
  concat (values (findings_by_adversary rep)).

(** The schedule that resumes the five tasks in rotation. *)
Definition round_robin : list nat :=
  [0; 1; 2; 3; 4; 0; 1; 2; 3; 4; 0; 1; 2; 3; 4; 0; 2; 3; 4; 0].

(** A document with one vaguely worded requirement. *)
Definition vague_doc : dict :=
  [("functional_requirements",
    VList [VStr "FR-1: The system should validate input in a reasonable time"])].

(** A document that asks to execute a job and names its mitigations. *)
Definition execute_doc : dict :=
  [("functional_requirements",
    VList [VStr "FR-1: MUST execute the nightly job with validated, sanitized input"])].

(** The requirement of the specification's example. *)
Definition fr1 : string :=
  "FR-1: The system should validate input in a reasonable time".


(** The finding suggests a defence that [_generate_defenses] keeps. *)
Definition has_defense (f : AdversarialFinding) : bool :=
  match suggested_defense f with
  | Some change => negb (String.eqb change "")
  | None => false
  end.

(** The issues of the findings that are CRITICAL. *)
Definition blocking_issues : list string :=
  ["Missing authentication requirements";
   "Unprotected sensitive data";
   "Command injection risk"].

(** What every finding of the agent called [n] looks like: it carries the
    agent's name and a defence, and when it is CRITICAL the agent is the
    Security adversary and the issue one of the three blocking ones. *)
Definition regular (n : string) (f : AdversarialFinding) : bool :=
  String.eqb (adversary f) n
  && has_defense f
  && (negb (is_critical f)
      || (String.eqb n "Security Adversary"
          && existsb (String.eqb (issue f)) blocking_issues)).

(** The status line of an approved report. *)
Definition approved_line : string := "APPROVED - No significant issues found".

(** The status line of a blocked report. *)
Definition blocked_line : string :=
  "BLOCKED - Critical findings must be addressed".


End ReviewVocabulary.

Section GateVocabulary.

Import Py Re Loop Gates.

(** The validator the runner pairs with a level. *)
Definition validator_of (l : ValidationLevel)
  : Validator -> M ValidationResult :=
  match l with
  | SYNTAX => validate_level_1_syntax
  | SEMANTIC => validate_level_2_semantic
  | COVERAGE => validate_level_3_coverage
  | CROSS_REFERENCE => validate_level_4_cross_reference
  end.

(** What every result record satisfies by construction. *)
Definition well_formed (l : ValidationLevel) (r : ValidationResult) : Prop :=
  level r = l
  /\ passed r = (List.length (errors r) =? 0)
  /\ ready_for_adversarial r
     = match l with
       | CROSS_REFERENCE => passed r
       | _ => false
       end.

(** The order in which the runner lists the levels. *)
Definition level_order : list ValidationLevel :=
  [SYNTAX; SEMANTIC; COVERAGE; CROSS_REFERENCE].

(** The ways the runner can return: the results of the first [n] levels,
    each but the last one passed, the last one failed unless it is the
    fourth. *)
Inductive attempt (v : Validator)
  : list ValidationResult -> Validator -> Prop :=
| stop_1 r1 :
    validate_level_1_syntax v = inr r1 -> passed r1 = false ->
    attempt v [r1] v
| stop_2 r1 r2 :
    validate_level_1_syntax v = inr r1 -> passed r1 = true ->
    validate_level_2_semantic v = inr r2 -> passed r2 = false ->
    attempt v [r1; r2] (set_current_level v SYNTAX)
| stop_3 r1 r2 r3 :
    validate_level_1_syntax v = inr r1 -> passed r1 = true ->
    validate_level_2_semantic v = inr r2 -> passed r2 = true ->
    validate_level_3_coverage v = inr r3 -> passed r3 = false ->
    attempt v [r1; r2; r3] (set_current_level v SEMANTIC)
| stop_4 r1 r2 r3 r4 :
    validate_level_1_syntax v = inr r1 -> passed r1 = true ->
    validate_level_2_semantic v = inr r2 -> passed r2 = true ->
    validate_level_3_coverage v = inr r3 -> passed r3 = true ->
    validate_level_4_cross_reference v = inr r4 ->
    attempt v [r1; r2; r3; r4]
            (if passed r4 then set_current_level v CROSS_REFERENCE
             else set_current_level v COVERAGE).

(** A document with user stories only. *)
Definition stories_doc : dict :=
  [("user_stories", VList [VStr "As a user I want to log in"])].

(** A document that passes the four gates. *)
Definition login_doc : dict :=
  [("user_stories", VList [VStr "As a user I want to log in"]);
   ("functional_requirements",
    VList [VStr "FR-1: user can log in, invalid input is rejected"]);
   ("acceptance_criteria", VList [VStr "login works"])].

(** The document under review offers [GET /users]. *)
Definition users_doc : dict :=
  [("api_contracts", VList [VStr "GET /users"]);
   ("dependencies", VList [])].

(** Its sibling offers [GET /orders]. *)
Definition orders_doc : dict :=
  [("metadata", VDict [("name", VStr "orders")]);
   ("api_contracts", VList [VStr "GET /orders"])].

Fixpoint group_free (r : re) : bool :=
  match r with
  | Group _ => false
  | Seq r1 r2 | Alt r1 r2 => group_free r1 && group_free r2
  | _ => true
  end.

Definition methods : list string :=
  ["GET"; "POST"; "PUT"; "DELETE"; "PATCH"].

(** What the endpoint pattern asks for behind the method. *)
Definition endpoint_tail : re :=
  Seq (Rep 1 is_space)
      (Seq (Lit "/") (Rep 1 (fun c => is_word c || Ascii.eqb c "/"))).

(** The five complexity indicators of a document with [n] functional
    requirements. *)
Definition indicators (d : dict) (n : nat) : list bool :=
  [contains "database" (spec_text d);
   contains "migration" (spec_text d);
   contains "payment" (spec_text d);
   10 <? n;
   contains "distributed" (spec_text d)].

Fixpoint count_true (l : list bool) : nat :=
  match l with
  | [] => 0
  | true :: t => S (count_true t)
  | false :: t => count_true t
  end.

(** A payment service on a database, with no word on rollback. *)
Definition payment_doc : dict :=
  [("user_stories", VList [VStr "As a customer I want to pay an invoice"]);
   ("functional_requirements",
    VList [VStr "FR-1: store each payment in the database, reject on error"]);
   ("acceptance_criteria", VList [VStr "payment is stored"])].

(** The section [k] is absent or a list. *)
Definition list_section (k : string) (d : dict) : bool :=
  match lookup k d with
  | None | Some (VList _) => true
  | Some _ => false
  end.

(** The section [k] is absent or a mapping. *)
Definition dict_section (k : string) (d : dict) : bool :=
  match lookup k d with
  | None | Some (VDict _) => true
  | Some _ => false
  end.

(** The shape the specification gives a document and its siblings: the
    three story and requirement sections are lists, [definitions] and the
    siblings' [metadata] are mappings, each where present. *)
Definition well_shaped (v : Validator) : bool :=
  list_section "user_stories" (spec v)
  && list_section "functional_requirements" (spec v)
  && list_section "acceptance_criteria" (spec v)
  && dict_section "definitions" (spec v)
  && forallb (dict_section "metadata") (existing_specs v).

(** A mapping with the four outline sections, each a list of strings. *)
Definition is_outline (d : dict) : Prop :=
  exists us fr nfr ac : list string,
    d = [("user_stories", VList (map VStr us));
         ("functional_requirements", VList (map VStr fr));
         ("non_functional_requirements", VList (map VStr nfr));
         ("acceptance_criteria", VList (map VStr ac))].

(** No line of the text opens one of the four outline sections. *)
Definition no_heading (content : string) : Prop :=
  forall line,
    In line (split_newline content) ->
    startswith "## User Stories" line = false
    /\ startswith "## Functional Requirements" line = false
    /\ startswith "## Non-Functional Requirements" line = false
    /\ startswith "## Acceptance Criteria" line = false.

(** The three errors of the syntax gate on an empty outline. *)
Definition all_sections_missing : list string :=
  ["Missing required section: user_stories";
   "Missing required section: functional_requirements";
   "Missing required section: acceptance_criteria"].

(** The section [k] is present and not empty. *)
Definition filled (k : string) (d : dict) : bool :=
  has_key k d && truthy (item k d).

(** The requirement holds one of the words without which
    [_requirements_conflict] reports nothing. *)
Definition qualified (req : value) : bool :=
  any_in ["same"; "identical"; "equal"] (lower (text_of req)).

(** The document is about sensitive operations and has no
    [security_requirements]. *)
Definition unsecured (d : dict) : bool :=
  any_in sensitive_keywords (spec_text d)
  && negb (has_key "security_requirements" d).

(** The document mentions interfaces or APIs and defines none. *)
Definition undefined_interfaces (d : dict) : bool :=
  (has_key "interfaces" d || contains "api" (spec_text d))
  && negb (has_key "api_contracts" d)
  && negb (has_key "interface_definitions" d).

(** The document updates an existing system and says nothing on
    compatibility. *)
Definition unanalysed_update (v : Validator) : bool :=
  _is_update_to_existing v
  && negb (has_key "backwards_compatibility" (spec v))
  && negb (has_key "breaking_changes" (spec v)).

(** An outline with one requirement on passwords. *)
Definition password_outline : string :=
  "## Functional Requirements"
    ++ String newline "- FR-1: store the password".


(** The message of the SEMANTIC gate on the requirements at the positions
    [i] and [j], counted from 0. *)
Definition conflict_message (i j : nat) : string :=
  "Potential conflict between requirements " ++ str_of_nat (i + 1)
    ++ " and " ++ str_of_nat (j + 1).

Definition security_error : string :=
  "Spec involves sensitive operations but lacks security requirements".

(** What the inner loop of the SEMANTIC gate appends for the requirement
    [req1] at position [i] and the numbered requirements behind it. *)
Definition conflicts_with (i : nat) (req1 : value)
           (rest : list (nat * value)) : list string :=
  flat_map (fun jr : nat * value =>
              if _requirements_conflict req1 (snd jr)
              then [conflict_message i (fst jr)] else [])
           rest.

(** What its two loops append over the requirements [reqs]. *)
Definition conflict_messages (reqs : list value) : list string :=
  flat_map (fun ir : nat * value =>
              conflicts_with (fst ir) (snd ir)
                (enumerate_from (fst ir + 1) (skipn (fst ir + 1) reqs)))
           (enumerate reqs).

(** Three requirements, the last two at odds; the first holds none of the
    words "same", "identical", "equal". *)
Definition token_doc : dict :=
  [("functional_requirements",
    VList [VStr "FR-1: the user must log in";
           VStr "FR-2: the same token must be reused";
           VStr "FR-3: the same token must not be reused"])].


End GateVocabulary.

(* ================================================================== *)
(** * Lists, loops and the error monad *)
(* ================================================================== *)

Section ListFacts.

Import Py Loop.

Context {A B : Type}.

Lemma push_app (l : list A) (x : A) : push l x = (l ++ [x])%list.
Proof. reflexivity. Qed.

Lemma in_push (l : list A) (x y : A) : In y l -> In y (push l x).
Proof. intro H. unfold push. apply in_or_app. now left. Qed.

Lemma in_push_last (l : list A) (x : A) : In x (push l x).
Proof. unfold push. apply in_or_app. right. now left. Qed.

(** A loop whose body only appends is a [flat_map] behind the start. *)
Lemma fold_left_appends (g : B -> list A) (body : list A -> B -> list A) :
  (forall acc x, body acc x = (acc ++ g x)%list) ->
  forall l acc, fold_left body l acc = (acc ++ flat_map g l)%list.
Proof.
  intros Hbody l.
  induction l as [|x l IH]; intro acc; simpl.
  - now rewrite app_nil_r.
  - rewrite IH, Hbody, <- app_assoc. reflexivity.
Qed.

Lemma fold_left_agree (f g : B -> A -> B) :
  (forall acc x, f acc x = g acc x) ->
  forall l acc, fold_left f l acc = fold_left g l acc.
Proof.
  intros Hfg l. induction l as [|x l IH]; intro acc; simpl; [reflexivity|].
  now rewrite Hfg, IH.
Qed.

Lemma list_sum_ones (l : list A) :
  list_sum (map (fun _ => 1) l) = List.length l.
Proof. induction l as [|x l IH]; simpl; [reflexivity | now rewrite IH]. Qed.

Lemma for_each_total (body : B -> A -> B) (l : list A) (acc : B) :
  for_each l (fun s x => ret (body s x)) acc = ret (fold_left body l acc).
Proof.
  revert acc. induction l as [|x l IH]; intro acc; simpl; [reflexivity|].
  apply IH.
Qed.

End ListFacts.

(* ================================================================== *)
(** * The merge loop and the report *)
(* ================================================================== *)

Section MergeFacts.

Import Py Loop Review.

Lemma count_critical_length (fs : Findings) :
  count_critical fs = List.length (filter is_critical fs).
Proof. unfold count_critical. apply list_sum_ones. Qed.

Lemma count_critical_app (fs gs : Findings) :
  count_critical (fs ++ gs)%list = count_critical fs + count_critical gs.
Proof.
  rewrite !count_critical_length, filter_app, length_app. reflexivity.
Qed.

Lemma merge_unfold (advs : list AdversaryAgent) (fls : list Findings) :
  merge advs fls = fold_left merge_step (combine advs fls) (mkMerge [] [] 0).
Proof.
  unfold merge. apply fold_left_agree. intros acc [a fs]. reflexivity.
Qed.

Lemma merge_loop_all (l : list (AdversaryAgent * Findings)) (acc : Merge) :
  m_all (fold_left merge_step l acc)
  = (m_all acc ++ concat (map snd l))%list
  /\ m_critical (fold_left merge_step l acc)
     = m_critical acc + count_critical (concat (map snd l)).
Proof.
  revert acc. induction l as [|[a fs] l IH]; intro acc; simpl.
  - rewrite app_nil_r. split; [reflexivity | unfold count_critical; simpl; lia].
  - destruct (IH (merge_step acc (a, fs))) as [Hall Hcrit].
    rewrite Hall, Hcrit. simpl. unfold extend.
    rewrite <- app_assoc, count_critical_app. split; [reflexivity | lia].
Qed.

Lemma merge_all (advs : list AdversaryAgent) (fls : list Findings) :
  m_all (merge advs fls) = flattened advs fls.
Proof.
  rewrite merge_unfold. destruct (merge_loop_all (combine advs fls)
                                    (mkMerge [] [] 0)) as [H _].
  exact H.
Qed.

Lemma merge_critical (advs : list AdversaryAgent) (fls : list Findings) :
  m_critical (merge advs fls)
  = List.length (filter is_critical (flattened advs fls)).
Proof.
  rewrite merge_unfold. destruct (merge_loop_all (combine advs fls)
                                    (mkMerge [] [] 0)) as [_ H].
  rewrite H. simpl. apply count_critical_length.
Qed.

Lemma build_report_fields (advs : list AdversaryAgent) (d : dict)
      (fls : list Findings) (rep : AdversarialReport) :
  build_report advs d fls = inr rep ->
  total_findings rep = List.length (flattened advs fls)
  /\ critical_findings rep
     = List.length (filter is_critical (flattened advs fls))
  /\ findings_by_adversary rep = m_by_adversary (merge advs fls)
  /\ defended_spec_changes rep = _generate_defenses (flattened advs fls)
  /\ approval_status rep
     = decide_status (List.length (filter is_critical (flattened advs fls)))
                     (flattened advs fls)
  /\ human_review_required rep
     = (0 <? List.length (filter is_critical (flattened advs fls)))
       || (5 <? List.length (flattened advs fls)).
Proof.
  unfold build_report.
  destruct (value_get "name" (VStr "unknown") (get "metadata" (VDict []) d))
    as [e|nm]; simpl; [discriminate|].
  intro H. injection H as <-. simpl.
  rewrite merge_all, merge_critical. repeat split; reflexivity.
Qed.

End MergeFacts.

(* ================================================================== *)
(** * C1: the decision policy *)
(* ================================================================== *)

Section DecisionPolicy.

Import Py Loop Review.

Lemma decide_status_announced (c : nat) (fs : Findings) :
  Policy.announced (decide_status c fs)
  = Some (if 0 <? c then Policy.BLOCKED
          else if 10 <? List.length fs then Policy.NEEDS_REVIEW
          else if 0 <? List.length fs then Policy.CONDITIONAL
          else Policy.APPROVED).
Proof.
  unfold decide_status.
  destruct (0 <? c); [reflexivity|].
  destruct (10 <? List.length fs); [reflexivity|].
  destruct (0 <? List.length fs); reflexivity.
Qed.

Lemma critical_present (fs : Findings) :
  Exists (fun f => severity f = CRITICAL) fs ->
  (0 <? List.length (filter is_critical fs)) = true.
Proof.
  intro H. apply Nat.ltb_lt.
  apply Exists_exists in H. destruct H as [f [Hin Hsev]].
  assert (Hf : In f (filter is_critical fs)).
  { apply filter_In. split; [exact Hin|].
    unfold is_critical. rewrite Hsev. reflexivity. }
  destruct (filter is_critical fs); [destruct Hf | simpl; lia].
Qed.

Lemma critical_absent (s : Severity) (fs : Findings) :
  s <> CRITICAL ->
  Forall (fun f => severity f = s) fs ->
  List.length (filter is_critical fs) = 0.
Proof.
  intros Hs Hall. induction Hall as [|f fs Hf _ IH]; [reflexivity|].
  simpl. unfold is_critical at 1. rewrite Hf.
  destruct s; try (exfalso; now apply Hs); exact IH.
Qed.

(** C1.  The status and the review flag of a report are the function
    [decide] of the merged finding list: BLOCKED when it holds a CRITICAL
    finding, else NEEDS_REVIEW above ten findings, else CONDITIONAL above
    none, else APPROVED; human review exactly for a CRITICAL finding or more
    than five findings.  So no finding gives (APPROVED, false), eleven LOW
    findings (NEEDS_REVIEW, true), three MEDIUM findings
    (CONDITIONAL, false), and any list with a CRITICAL finding
    (BLOCKED, true). *)
Theorem decision_policy
        (advs : list AdversaryAgent) (d : dict) (fls : list Findings)
        (rep : AdversarialReport) :
  build_report advs d fls = inr rep ->
  let merged := flattened advs fls in
  Policy.announced (approval_status rep) = Some (fst (Policy.decide merged))
  /\ human_review_required rep = snd (Policy.decide merged)
  /\ (merged = [] ->
      approval_status rep = "APPROVED - No significant issues found"
      /\ human_review_required rep = false)
  /\ (List.length merged = 11 ->
      Forall (fun f => severity f = LOW) merged ->
      approval_status rep = "NEEDS_REVIEW - Too many findings"
      /\ human_review_required rep = true)
  /\ (List.length merged = 3 ->
      Forall (fun f => severity f = MEDIUM) merged ->
      approval_status rep
      = "CONDITIONAL - Address findings before implementation"
      /\ human_review_required rep = false)
  /\ (Exists (fun f => severity f = CRITICAL) merged ->
      approval_status rep = "BLOCKED - Critical findings must be addressed"
      /\ human_review_required rep = true).
Proof.
  intros Hrep merged.
  destruct (build_report_fields _ _ _ Hrep)
    as (_ & _ & _ & _ & Hstatus & Hhuman).
  fold merged in Hstatus, Hhuman.
  rewrite Hstatus, Hhuman. clear Hstatus Hhuman Hrep.
  split; [apply decide_status_announced|].
  split; [reflexivity|].
  split; [intros ->; split; reflexivity|].
  split.
  { intros Hlen Hlow.
    unfold decide_status.
    rewrite (critical_absent (s := LOW)) by (discriminate || assumption).
    rewrite Hlen. split; reflexivity. }
  split.
  { intros Hlen Hmed.
    unfold decide_status.
    rewrite (critical_absent (s := MEDIUM)) by (discriminate || assumption).
    rewrite Hlen. split; reflexivity. }
  intro Hcrit. apply critical_present in Hcrit.
  unfold decide_status. rewrite Hcrit. split; reflexivity.
Qed.

Lemma decision_policy_witness :
  exists rep,
    build_report adversaries [] [repeat low_finding 11] = inr rep
    /\ approval_status rep = "NEEDS_REVIEW - Too many findings"
    /\ human_review_required rep = true.
Proof.
  eexists. split; [reflexivity|].
  refine (let H := decision_policy adversaries [] [repeat low_finding 11]
                     eq_refl in _).
  destruct H as (_ & _ & _ & Hlow & _).
  apply Hlow; [reflexivity|].
  repeat constructor.
Defined.

End DecisionPolicy.

(* ================================================================== *)
(** * The event loop: every schedule ends in the same results *)
(* ================================================================== *)

Section SetNth.

Import Review.

Context {A : Type}.

Lemma nth_error_set_nth_eq (l : list A) (i : nat) (x y : A) :
  nth_error l i = Some x -> nth_error (set_nth i y l) i = Some y.
Proof.
  revert i. induction l as [|z l IH]; intros [|i] H; simpl in *;
    try discriminate; [reflexivity | now apply IH].
Qed.

Lemma nth_error_set_nth_neq (l : list A) (i j : nat) (y : A) :
  i <> j -> nth_error (set_nth i y l) j = nth_error l j.
Proof.
  revert i j. induction l as [|z l IH]; intros [|i] [|j] H; simpl;
    try reflexivity; [now elim H | apply IH; lia].
Qed.

Lemma Forall_set_nth (P : A -> Prop) (l : list A) (i : nat) (y : A) :
  Forall P l -> P y -> Forall P (set_nth i y l).
Proof.
  intros Hl Hy. revert i.
  induction Hl as [|z l Hz Hl IH]; intros [|i]; simpl; constructor; auto.
Qed.

Lemma Forall2_set_nth {B : Type} (R : A -> B -> Prop) (l : list A)
      (l' : list B) (i : nat) (x y : A) :
  Forall2 R l l' ->
  nth_error l i = Some x ->
  (forall b, R x b -> R y b) ->
  Forall2 R (set_nth i y l) l'.
Proof.
  intros H. revert i.
  induction H as [|z b l l' Hzb Hl IH]; intros [|i] Hi Hxy; simpl in *;
    try discriminate.
  - injection Hi as ->. constructor; auto.
  - constructor; [exact Hzb | now apply IH].
Qed.

Lemma In_set_nth_kept (l : list A) (i : nat) (x y z : A) :
  nth_error l i = Some x ->
  (z = x -> y = z) ->
  In z l -> In z (set_nth i y l).
Proof.
  revert i. induction l as [|w l IH]; intros [|i] Hi Hxy Hin; simpl in *;
    try discriminate.
  - injection Hi as ->. destruct Hin as [->|Hin]; [left; now apply Hxy|].
    now right.
  - destruct Hin as [->|Hin]; [now left | right; now apply IH].
Qed.

Lemma In_set_nth_new (l : list A) (i : nat) (x y : A) :
  nth_error l i = Some x -> In y (set_nth i y l).
Proof.
  intro H. eapply nth_error_In. eapply nth_error_set_nth_eq. exact H.
Qed.

Lemma Forall2_In_l {B : Type} (R : A -> B -> Prop) (l : list A) (l' : list B)
      (x : A) :
  Forall2 R l l' -> In x l -> exists b, In b l' /\ R x b.
Proof.
  induction 1 as [|z b l l' Hzb Hl IH]; intros Hin; [destruct Hin|].
  destruct Hin as [->|Hin].
  - exists b. split; [now left | exact Hzb].
  - destruct (IH Hin) as [b' [Hb' HR]]. exists b'. split; [now right|exact HR].
Qed.

End SetNth.

Section Scheduling.

Import Py Loop Review.

Variable d : dict.

Lemma finish_resume (t : Task) : finish d (resume d t) = finish d t.
Proof.
  destruct t as [[|c todo] fs|e]; simpl; try reflexivity.
  unfold bind. destruct (c d fs); reflexivity.
Qed.

Lemma sound_start (advs : list AdversaryAgent) : sound d advs (start advs).
Proof.
  split; simpl.
  - induction advs as [|a advs IH]; simpl; constructor; auto.
  - induction advs as [|a advs IH]; simpl; constructor; auto.
    intros e. discriminate.
Qed.

Lemma sound_step (advs : list AdversaryAgent) (st : EventLoop) (i : nat) :
  sound d advs st -> sound d advs (step d st i).
Proof.
  intros [Hfin Hraised]. unfold step.
  destruct (nth_error (tasks st) i) as [t|] eqn:Hi; [|split; assumption].
  split; simpl.
  - eapply Forall2_set_nth; eauto.
    intros b Hb. now rewrite finish_resume.
  - destruct (raised st) as [e|].
    + eapply In_set_nth_kept; eauto. intros <-. reflexivity.
    + destruct (resume d t) as [todo fs|e] eqn:Hres.
      * apply Forall_set_nth; [exact Hraised|]. intros e. discriminate.
      * rewrite <- Hres. eapply In_set_nth_new; eauto.
Qed.

Lemma sound_run (advs : list AdversaryAgent) (sched : list nat)
      (st : EventLoop) :
  sound d advs st -> sound d advs (run_schedule d sched st).
Proof.
  unfold run_schedule. revert st.
  induction sched as [|i sched IH]; intros st H; simpl; [exact H|].
  apply IH. now apply sound_step.
Qed.

Lemma done_tasks_results (ts : list Task) (advs : list AdversaryAgent) :
  Forall2 (fun t a => finish d t = attack_spec a d) ts advs ->
  Forall (fun t => forall e, t <> Dead e) ts ->
  forallb task_done ts = true ->
  Forall2 (fun a fs => attack_spec a d = inr fs) advs (map task_findings ts).
Proof.
  induction 1 as [|t a ts advs Hta Hrest IH]; intros Hlive Hdone; simpl;
    [constructor|].
  inversion Hlive as [|? ? Ht Hts]; subst.
  simpl in Hdone. apply andb_true_iff in Hdone. destruct Hdone as [Hd Hds].
  constructor; [|now apply IH].
  destruct t as [[|c todo] fs|e]; simpl in *; try discriminate.
  - now rewrite <- Hta.
  - now elim (Ht e).
Qed.

(** What [gather] hands back is what the agents give on their own: an
    exception is the one some agent raises, a result list holds each
    agent's findings in registration order. *)
Lemma gather_outcome (advs : list AdversaryAgent) (sched : list nat)
      (r : M (list Findings)) :
  gather d advs sched = Some r ->
  match r with
  | inl e => exists a, In a advs /\ attack_spec a d = inl e
  | inr fls => Forall2 (fun a fs => attack_spec a d = inr fs) advs fls
  end.
Proof.
  unfold gather.
  pose proof (sound_run sched (sound_start advs)) as [Hfin Hraised].
  destruct (raised (run_schedule d sched (start advs))) as [e|].
  - intro H. injection H as <-.
    destruct (@Forall2_In_l _ _ _ _ _ (Dead e) Hfin Hraised) as [a [Ha Hfa]].
    exists a. split; [exact Ha|]. now rewrite <- Hfa.
  - destruct (forallb task_done (tasks (run_schedule d sched (start advs))))
      eqn:Hdone; [|discriminate].
    intro H. injection H as <-.
    now apply done_tasks_results.
Qed.

Lemma results_unique (advs : list AdversaryAgent) (fls gls : list Findings) :
  Forall2 (fun a fs => attack_spec a d = inr fs) advs fls ->
  Forall2 (fun a fs => attack_spec a d = inr fs) advs gls ->
  fls = gls.
Proof.
  intro H. revert gls.
  induction H as [|a fs advs fls Ha Hrest IH]; intros gls Hg;
    inversion Hg as [|? gs ? gls' Hag Hrest']; subst; [reflexivity|].
  f_equal; [congruence | now apply IH].
Qed.

End Scheduling.

(* ================================================================== *)
(** * The registered adversaries *)
(* ================================================================== *)

Section Agents.

Import Py Loop Review.

Lemma append_if_app (c : bool) (x : AdversarialFinding) (fs : Findings) :
  append_if c x fs = (fs ++ (if c then [x] else []))%list.
Proof. destruct c; simpl; [reflexivity | now rewrite app_nil_r]. Qed.

Lemma in_append_if (c : bool) (x y : AdversarialFinding) (fs : Findings) :
  In y fs -> In y (append_if c x fs).
Proof. destruct c; simpl; [apply in_push | trivial]. Qed.

Lemma in_fold_append_if {T : Type} (c : T -> bool)
      (x : T -> AdversarialFinding) (y : AdversarialFinding) (l : list T) :
  forall fs, In y fs ->
             In y (fold_left (fun fs t => append_if (c t) (x t) fs) l fs).
Proof.
  induction l as [|t l IH]; intros fs H; simpl; [exact H|].
  apply IH. now apply in_append_if.
Qed.

Lemma section_items_walkable (k : string) (d : dict) :
  returns (section_items k d) = walkable k d.
Proof.
  unfold section_items, walkable.
  destruct (has_key k d); simpl; [|reflexivity].
  destruct (get k VNone d); reflexivity.
Qed.

Lemma section_items_error (k : string) (d : dict) (e : exn) :
  section_items k d = inl e -> e = TypeError.
Proof.
  unfold section_items.
  destruct (has_key k d); simpl; [|discriminate].
  destruct (get k VNone d); simpl; unfold ret, raise; intro H; congruence.
Qed.

Lemma check_requirements_eq (d : dict) (fs : Findings) :
  Ambiguity._check_requirements d fs
  = (frs <- section_items "functional_requirements" d ;;
     nfrs <- section_items "non_functional_requirements" d ;;
     ret (fs ++ flat_map scan_requirement (frs ++ nfrs))%list).
Proof.
  unfold Ambiguity._check_requirements, section_items.
  assert (Hloop : forall reqs fs0,
             fold_left
               (fun fs req =>
                  fold_left
                    (fun fs ts =>
                       match ts with
                       | (term, suggestion) =>
                           append_if (contains term (lower (text_of req)))
                             (Ambiguity.vague_finding (text_of req) term
                                                      suggestion) fs
                       end)
                    Ambiguity.vague_terms fs)
               reqs fs0
             = (fs0 ++ flat_map scan_requirement reqs)%list).
  { intros reqs. apply fold_left_appends. intros acc req.
    unfold scan_requirement. apply fold_left_appends.
    intros acc' [term suggestion]. apply append_if_app. }
  destruct (has_key "functional_requirements" d);
    destruct (has_key "non_functional_requirements" d); simpl;
    repeat match goal with
           | |- context [iter ?v] => destruct (iter v); simpl
           end;
    unfold extend; simpl; rewrite ?Hloop, ?app_nil_r; reflexivity.
Qed.

Lemma check_requirements_error (d : dict) (fs : Findings) (e : exn) :
  Ambiguity._check_requirements d fs = inl e -> e = TypeError.
Proof.
  rewrite check_requirements_eq. unfold bind.
  destruct (section_items "functional_requirements" d) eqn:Hf.
  - intro H. injection H as <-. eapply section_items_error; eauto.
  - destruct (section_items "non_functional_requirements" d) eqn:Hn.
    + intro H. injection H as <-. eapply section_items_error; eauto.
    + discriminate.
Qed.

Lemma attack_security (d : dict) :
  attack_spec SecurityAdversary d
  = inr (Security._check_validation d
           (Security._check_injection_risks d
              (Security._check_data_protection d
                 (Security._check_authorization d
                    (Security._check_authentication d []))))).
Proof. reflexivity. Qed.

Lemma attack_ambiguity (d : dict) :
  attack_spec AmbiguityAdversary d
  = (fs <- Ambiguity._check_requirements d [] ;;
     ret (Ambiguity._check_error_handling d
            (Ambiguity._check_boundaries d fs))).
Proof.
  unfold attack_spec. simpl. unfold bind.
  destruct (Ambiguity._check_requirements d []); reflexivity.
Qed.

Lemma attack_implementation (d : dict) :
  attack_spec ImplementationAdversary d
  = inr (Implementation._check_error_recovery d
           (Implementation._check_state_management d
              (Implementation._check_race_conditions d
                 (Implementation._check_edge_cases d [])))).
Proof. reflexivity. Qed.

Lemma attack_performance (d : dict) :
  attack_spec PerformanceAdversary d
  = inr (Performance._check_pagination d
           (Performance._check_caching_needs d
              (Performance._check_resource_limits d
                 (Performance._check_unbounded_operations d [])))).
Proof. reflexivity. Qed.

Lemma attack_compliance (d : dict) :
  attack_spec ComplianceAdversary d
  = inr (Compliance._check_data_portability d
           (Compliance._check_consent_management d
              (Compliance._check_audit_requirements d
                 (Compliance._check_data_retention d [])))).
Proof. reflexivity. Qed.

(** Only the ambiguity scan can raise, and then a [TypeError]. *)
Lemma only_type_errors (d : dict) (a : AdversaryAgent) (e : exn) :
  In a adversaries -> attack_spec a d = inl e -> e = TypeError.
Proof.
  unfold adversaries. simpl.
  intros [<-|[<-|[<-|[<-|[<-|[]]]]]].
  - rewrite attack_security. discriminate.
  - rewrite attack_ambiguity. unfold bind.
    destruct (Ambiguity._check_requirements d []) eqn:H; [|discriminate].
    intro H'. injection H' as <-. eapply check_requirements_error; eauto.
  - rewrite attack_implementation. discriminate.
  - rewrite attack_performance. discriminate.
  - rewrite attack_compliance. discriminate.
Qed.

End Agents.

(* ================================================================== *)
(** * C3: the merged report does not depend on the schedule *)
(* ================================================================== *)

Section DeterministicMerge.

Import Py Loop Review.

(** Running the agents one after the other is a complete schedule. *)
Lemma gather_in_turn (d : dict) :
  gather d adversaries (in_turn adversaries)
  = Some (fs1 <- attack_spec SecurityAdversary d ;;
          fs2 <- attack_spec AmbiguityAdversary d ;;
          fs3 <- attack_spec ImplementationAdversary d ;;
          fs4 <- attack_spec PerformanceAdversary d ;;
          fs5 <- attack_spec ComplianceAdversary d ;;
          ret [fs1; fs2; fs3; fs4; fs5]).
Proof.
  rewrite attack_security, attack_ambiguity, attack_implementation,
    attack_performance, attack_compliance.
  unfold gather.
  change (in_turn adversaries)
    with ([0; 0; 0; 0; 0; 1]
            ++ [1; 1; 2; 2; 2; 2; 3; 3; 3; 3; 4; 4; 4; 4])%list.
  unfold run_schedule. rewrite fold_left_app.
  set (st := fold_left (step d) [0; 0; 0; 0; 0; 1] (start adversaries)).
  unfold start, adversaries, SecurityAdversary,
    AmbiguityAdversary, ImplementationAdversary, PerformanceAdversary,
    ComplianceAdversary, Security.checks, Ambiguity.checks,
    Implementation.checks, Performance.checks, Compliance.checks in st.
  cbn [map checks fold_left step tasks raised nth_error resume total_check
       ret set_nth bind] in st.
  subst st.
  destruct (Ambiguity._check_requirements d []) as [e|fs];
    cbn [map checks fold_left step tasks raised nth_error resume total_check
         ret set_nth bind forallb task_done task_findings andb raise];
    reflexivity.
Qed.

Lemma gather_deterministic (d : dict) (s1 s2 : list nat)
      (r1 r2 : M (list Findings)) :
  gather d adversaries s1 = Some r1 ->
  gather d adversaries s2 = Some r2 ->
  r1 = r2.
Proof.
  intros H1 H2.
  apply gather_outcome in H1. apply gather_outcome in H2.
  destruct r1 as [e1|fls1], r2 as [e2|fls2].
  - destruct H1 as [a1 [Hin1 Ha1]], H2 as [a2 [Hin2 Ha2]].
    rewrite (only_type_errors _ Hin1 Ha1), (only_type_errors _ Hin2 Ha2).
    reflexivity.
  - destruct H1 as [a [Hin Ha]].
    destruct (@Forall2_In_l _ _ _ _ _ a H2 Hin) as [fs [_ Hfs]]. congruence.
  - destruct H2 as [a [Hin Ha]].
    destruct (@Forall2_In_l _ _ _ _ _ a H1 Hin) as [fs [_ Hfs]]. congruence.
  - f_equal. eapply results_unique; eauto.
Qed.

Lemma run_review_gather (sched : list nat) (d : dict)
      (rep : AdversarialReport) :
  run_review sched d = Some (inr rep) ->
  exists fls, gather d adversaries sched = Some (inr fls)
              /\ build_report adversaries d fls = inr rep.
Proof.
  unfold run_review, run_review_with.
  destruct (gather d adversaries sched) as [[e|fls]|]; try discriminate.
  intro H. injection H as H. exists fls. split; [reflexivity | exact H].
Qed.

Lemma five_results (d : dict) (fls : list Findings) :
  Forall2 (fun a fs => attack_spec a d = inr fs) adversaries fls ->
  exists f1 f2 f3 f4 f5, fls = [f1; f2; f3; f4; f5].
Proof.
  unfold adversaries. intro H.
  repeat match goal with
         | H : Forall2 _ (_ :: _) _ |- _ =>
             inversion H; subst; clear H
         | H : Forall2 _ [] _ |- _ => inversion H; subst; clear H
         end.
  do 5 eexists. reflexivity.
Qed.

Lemma run_review_completes (d : dict) :
  exists r, run_review (in_turn adversaries) d = Some r.
Proof.
  unfold run_review, run_review_with. rewrite gather_in_turn.
  match goal with
  | |- context [match ?m with inl _ => _ | inr _ => _ end] =>
      destruct m as [e|fls]
  end; eexists; reflexivity.
Qed.

Lemma run_review_deterministic (d : dict) (s1 s2 : list nat)
      (r1 r2 : M AdversarialReport) :
  run_review s1 d = Some r1 ->
  run_review s2 d = Some r2 ->
  r1 = r2.
Proof.
  unfold run_review, run_review_with.
  destruct (gather d adversaries s1) as [g1|] eqn:H1; [|discriminate].
  destruct (gather d adversaries s2) as [g2|] eqn:H2; [|discriminate].
  rewrite (gather_deterministic _ _ _ H1 H2).
  intros E1 E2. rewrite E1 in E2. now injection E2.
Qed.

Lemma ambiguity_returns (d : dict) :
  walkable "functional_requirements" d
  && walkable "non_functional_requirements" d = true ->
  exists fs, attack_spec AmbiguityAdversary d = inr fs.
Proof.
  rewrite <- !section_items_walkable. intro H.
  apply andb_true_iff in H. destruct H as [Hf Hn].
  rewrite attack_ambiguity, check_requirements_eq.
  destruct (section_items "functional_requirements" d); [discriminate|].
  destruct (section_items "non_functional_requirements" d); [discriminate|].
  eexists. reflexivity.
Qed.

Lemma review_outcome (s : list nat) (d : dict) (r : M AdversarialReport)
      (f2 : Findings) :
  run_review s d = Some r ->
  attack_spec AmbiguityAdversary d = inr f2 ->
  exists f1 f3 f4 f5,
    r = build_report adversaries d [f1; f2; f3; f4; f5].
Proof.
  intros Hrun Hamb.
  destruct (run_review_completes d) as [r0 Hr0].
  rewrite (run_review_deterministic _ _ _ Hrun Hr0).
  revert Hr0. unfold run_review, run_review_with.
  rewrite gather_in_turn, Hamb.
  rewrite attack_security, attack_implementation, attack_performance,
    attack_compliance.
  cbn [bind ret]. intro H. injection H as <-.
  do 4 eexists. reflexivity.
Qed.

Lemma named_or_error (s : list nat) (d : dict) (r : M AdversarialReport) :
  walkable "functional_requirements" d
  && walkable "non_functional_requirements" d = true ->
  run_review s d = Some r ->
  match get "metadata" (VDict []) d with
  | VDict m =>
      exists rep,
        r = inr rep /\ spec_name rep = get "name" (VStr "unknown") m
  | _ => r = inl AttributeError
  end.
Proof.
  intros Hwalk Hrun.
  destruct (@ambiguity_returns d Hwalk) as [f2 Hamb].
  destruct (@review_outcome s d r f2 Hrun Hamb) as (f1 & f3 & f4 & f5 & ->).
  unfold build_report.
  destruct (get "metadata" (VDict []) d); try reflexivity.
  cbn [value_get bind ret]. eexists. split; reflexivity.
Qed.

(** C3.  For every document the outcome of the review is the same under
    every schedule of the five adversary tasks, and a report lists the
    adversaries in registration order (Security, Ambiguity, Implementation,
    Performance, Compliance): [findings_by_adversary] has its keys in that
    order, each with the findings its own agent gives, and the flattened
    list behind the counts and the recommended changes is their
    concatenation in that order.  The schedule that runs the agents one
    after the other always completes; when the requirement sections can
    be walked and [metadata] is a mapping where present, it ends in a
    report, and that report is the outcome of every schedule. *)
Theorem deterministic_merge (d : dict) :
  (exists r, run_review (in_turn adversaries) d = Some r)
  /\ (forall s1 s2 r1 r2,
         run_review s1 d = Some r1 ->
         run_review s2 d = Some r2 ->
         r1 = r2)
  /\ (forall s rep,
         run_review s d = Some (inr rep) ->
         exists fls,
           Forall2 (fun a fs => attack_spec a d = inr fs) adversaries fls
           /\ keys (findings_by_adversary rep) = registration_order
           /\ findings_by_adversary rep = combine registration_order fls
           /\ total_findings rep = List.length (concat fls)
           /\ defended_spec_changes rep = _generate_defenses (concat fls))
  /\ (walkable "functional_requirements" d
      && walkable "non_functional_requirements" d = true ->
      dict_section "metadata" d = true ->
      exists rep,
        run_review (in_turn adversaries) d = Some (inr rep)
        /\ forall s r, run_review s d = Some r -> r = inr rep).
Proof.
  split; [|split; [|split]].
  - apply run_review_completes.
  - intros s1 s2 r1 r2. apply run_review_deterministic.
  - intros s rep H.
    destruct (run_review_gather _ _ H) as [fls [Hg Hrep]].
    apply gather_outcome in Hg.
    exists fls. split; [exact Hg|].
    destruct (five_results _ Hg) as (f1 & f2 & f3 & f4 & f5 & ->).
    destruct (build_report_fields _ _ _ Hrep)
      as (Htot & _ & Hby & Hdef & _).
    rewrite Htot, Hby, Hdef.
    unfold flattened. simpl. repeat split; reflexivity.
  - intros Hwalk Hmeta.
    destruct (run_review_completes d) as [r0 Hr0].
    pose proof (@named_or_error _ d r0 Hwalk Hr0) as Hname.
    assert (Hrep : exists rep, r0 = inr rep).
    { clear Hr0 Hwalk. revert Hname Hmeta. unfold dict_section, get.
      destruct (lookup "metadata" d) as [[]|]; intros Hname Hmeta;
        try discriminate Hmeta;
        destruct Hname as [rep [-> _]]; now exists rep. }
    destruct Hrep as [rep ->]. exists rep. split; [exact Hr0|].
    intros s r Hr. exact (run_review_deterministic _ _ _ Hr Hr0).
Qed.

(** Two schedules of the five tasks, one after the other and round robin,
    end in the same report, with the adversaries in registration order. *)
Lemma deterministic_merge_witness :
  exists rep,
    run_review (in_turn adversaries) vague_doc = Some (inr rep)
    /\ run_review round_robin vague_doc = Some (inr rep)
    /\ keys (findings_by_adversary rep) = registration_order.
Proof.
  destruct (deterministic_merge vague_doc) as (_ & _ & Horder & Hrep).
  destruct (Hrep eq_refl eq_refl) as [rep [Hturn Hall]].
  exists rep. split; [exact Hturn|]. split.
  - destruct (run_review round_robin vague_doc) as [r'|] eqn:E.
    + f_equal. exact (Hall round_robin r' E).
    + vm_compute in E. discriminate E.
  - destruct (Horder _ _ Hturn) as [fls (_ & Hkeys & _)]. exact Hkeys.
Defined.

End DeterministicMerge.

(* ================================================================== *)
(** * C10: the counts of a report agree with its finding lists *)
(* ================================================================== *)

Section ReportConsistency.

Import Py Loop Review.

Lemma generate_defenses_flat_map (fs : Findings) :
  _generate_defenses fs = flat_map defense_of fs.
Proof.
  unfold _generate_defenses.
  rewrite (fold_left_appends defense_of); [reflexivity|].
  intros acc f. unfold defense_of.
  destruct (suggested_defense f) as [c|]; [|now rewrite app_nil_r].
  destruct (String.eqb c ""); simpl; [now rewrite app_nil_r | reflexivity].
Qed.

Lemma length_concat_sum {A : Type} (l : list (list A)) :
  List.length (concat l) = list_sum (map (@List.length A) l).
Proof.
  induction l as [|x l IH]; simpl; [reflexivity|].
  now rewrite length_app, IH.
Qed.

(** C10.  In every report of the orchestrator [total_findings] is the sum
    of the lengths of the lists in [findings_by_adversary],
    [critical_findings] is the number of CRITICAL findings among them, and
    [defended_spec_changes] has one entry, with the issue, the suggested
    defence and the severity, for each listed finding that suggests a
    defence, in the order of the merged list. *)
Theorem report_consistent (s : list nat) (d : dict)
        (rep : AdversarialReport) :
  run_review s d = Some (inr rep) ->
  total_findings rep
  = list_sum (map (@List.length AdversarialFinding)
                  (values (findings_by_adversary rep)))
  /\ critical_findings rep
     = List.length (filter (fun f => severity_eqb (severity f) CRITICAL)
                           (listed rep))
  /\ defended_spec_changes rep = flat_map defense_of (listed rep).
Proof.
  intro H.
  destruct (run_review_gather _ _ H) as [fls [Hg Hrep]].
  apply gather_outcome in Hg.
  destruct (five_results _ Hg) as (f1 & f2 & f3 & f4 & f5 & ->).
  destruct (build_report_fields _ _ _ Hrep)
    as (Htot & Hcrit & Hby & Hdef & _).
  unfold listed. rewrite Htot, Hcrit, Hby, Hdef.
  rewrite generate_defenses_flat_map.
  assert (Hvals : values (m_by_adversary
                            (merge adversaries [f1; f2; f3; f4; f5]))
                  = [f1; f2; f3; f4; f5]) by reflexivity.
  assert (Hflat : flattened adversaries [f1; f2; f3; f4; f5]
                  = concat [f1; f2; f3; f4; f5]) by reflexivity.
  rewrite Hvals, Hflat, length_concat_sum.
  repeat split; reflexivity.
Qed.

Lemma report_consistent_witness :
  exists rep,
    run_review (in_turn adversaries) vague_doc = Some (inr rep)
    /\ total_findings rep = 3
    /\ total_findings rep
       = list_sum (map (@List.length AdversarialFinding)
                       (values (findings_by_adversary rep))).
Proof.
  eexists. split; [vm_compute; reflexivity|].
  split; [reflexivity|].
  refine (proj1 (report_consistent (in_turn adversaries) vague_doc _)).
  vm_compute. reflexivity.
Defined.

End ReportConsistency.

(* ================================================================== *)
(** * C8: the command-execution trigger *)
(* ================================================================== *)

Section CommandInjection.

Import Py Loop Review.

(** C8.  Whenever the lower-cased text of the document contains
    ["execute"], the findings of the Security adversary hold the CRITICAL
    finding "Command injection risk", whatever else the document says. *)
Theorem command_injection_unconditional (d : dict) :
  contains "execute" (lower (str_dict d)) = true ->
  exists fs,
    attack_spec SecurityAdversary d = inr fs
    /\ In Security.command_injection fs
    /\ severity Security.command_injection = CRITICAL
    /\ issue Security.command_injection = "Command injection risk".
Proof.
  intro Hexec. rewrite attack_security. eexists. split; [reflexivity|].
  split; [|split; reflexivity].
  unfold Security._check_validation. apply in_append_if.
  unfold Security._check_injection_risks.
  assert (Hany : any_in Security.cmd_keywords (spec_text d) = true).
  { unfold any_in, Security.cmd_keywords, spec_text. cbn [existsb].
    rewrite Hexec. reflexivity. }
  rewrite Hany. unfold append_if at 1. apply in_push_last.
Qed.

Lemma command_injection_unconditional_witness :
  exists fs,
    attack_spec SecurityAdversary execute_doc = inr fs
    /\ In Security.command_injection fs
    /\ severity Security.command_injection = CRITICAL
    /\ issue Security.command_injection = "Command injection risk".
Proof.
  apply (command_injection_unconditional execute_doc).
  vm_compute. reflexivity.
Defined.

End CommandInjection.

(* ================================================================== *)
(** * C9: the per-item vague-term scan *)
(* ================================================================== *)

Section VagueTerms.

Import Py Re Loop Review.

Lemma boundaries_keep (d : dict) (fs : Findings) (f : AdversarialFinding) :
  In f fs -> In f (Ambiguity._check_boundaries d fs).
Proof.
  intro H. unfold Ambiguity._check_boundaries.
  apply in_fold_append_if.
  destruct (search true Ambiguity.numeric_pattern (str_dict d));
    [apply in_append_if|]; exact H.
Qed.

Lemma error_handling_keep (d : dict) (fs : Findings)
      (f : AdversarialFinding) :
  In f fs -> In f (Ambiguity._check_error_handling d fs).
Proof.
  intro H. unfold Ambiguity._check_error_handling.
  destruct (contains "error" (spec_text d) || contains "exception" (spec_text d));
    [apply in_fold_append_if|]; exact H.
Qed.

Lemma in_scan_requirement (req : value) (term suggestion : string) :
  In (term, suggestion) Ambiguity.vague_terms ->
  contains term (lower (text_of req)) = true ->
  In (Ambiguity.vague_finding (text_of req) term suggestion)
     (scan_requirement req).
Proof.
  intros Hterm Hin. unfold scan_requirement.
  apply in_flat_map. exists (term, suggestion). split; [exact Hterm|].
  simpl. rewrite Hin. now left.
Qed.

(** C9.  When both requirement sections can be walked, the scan gives, for
    every item of [functional_requirements] followed by
    [non_functional_requirements] and every vague term of the table found
    in the item's lower-cased text, one MEDIUM finding whose
    [suggested_defense] is the guidance of that term, and these findings
    stay in what the Ambiguity adversary returns.  A requirement list with
    "FR-1: The system should validate input in a reasonable time" gives
    the finding for 'should' ("Use 'MUST' for requirements") and the one
    for 'reasonable' ("Specify exact bounds"). *)
Theorem vague_term_scan (d : dict) (frs nfrs : list value) :
  section_items "functional_requirements" d = inr frs ->
  section_items "non_functional_requirements" d = inr nfrs ->
  Ambiguity._check_requirements d []
  = inr (flat_map scan_requirement (frs ++ nfrs)%list)
  /\ exists fs,
      attack_spec AmbiguityAdversary d = inr fs
      /\ (forall req term suggestion,
             In req (frs ++ nfrs)%list ->
             In (term, suggestion) Ambiguity.vague_terms ->
             contains term (lower (text_of req)) = true ->
             let f := Ambiguity.vague_finding (text_of req) term suggestion in
             In f fs
             /\ severity f = MEDIUM
             /\ suggested_defense f = Some suggestion)
      /\ (In (VStr fr1) (frs ++ nfrs)%list ->
          exists f1 f2,
            In f1 fs /\ In f2 fs
            /\ issue f1 = "Ambiguous term 'should' in requirement"
            /\ suggested_defense f1 = Some "Use 'MUST' for requirements"
            /\ issue f2 = "Ambiguous term 'reasonable' in requirement"
            /\ suggested_defense f2 = Some "Specify exact bounds").
Proof.
  intros Hfr Hnfr.
  assert (Hcheck : Ambiguity._check_requirements d []
                   = inr (flat_map scan_requirement (frs ++ nfrs)%list)).
  { rewrite check_requirements_eq, Hfr, Hnfr. reflexivity. }
  split; [exact Hcheck|].
  rewrite attack_ambiguity, Hcheck. simpl bind.
  eexists. split; [reflexivity|].
  assert (Hgen : forall req term suggestion,
             In req (frs ++ nfrs)%list ->
             In (term, suggestion) Ambiguity.vague_terms ->
             contains term (lower (text_of req)) = true ->
             In (Ambiguity.vague_finding (text_of req) term suggestion)
                (Ambiguity._check_error_handling d
                   (Ambiguity._check_boundaries d
                      (flat_map scan_requirement (frs ++ nfrs)%list)))).
  { intros req term suggestion Hreq Hterm Hin.
    apply error_handling_keep, boundaries_keep.
    apply in_flat_map. exists req. split; [exact Hreq|].
    now apply in_scan_requirement. }
  split.
  - intros req term suggestion Hreq Hterm Hin.
    split; [now apply Hgen | split; reflexivity].
  - intro Hfr1.
    exists (Ambiguity.vague_finding fr1 "should" "Use 'MUST' for requirements"),
           (Ambiguity.vague_finding fr1 "reasonable" "Specify exact bounds").
    split; [|split; [|repeat split]].
    + apply (Hgen (VStr fr1)); [exact Hfr1 | | reflexivity].
      simpl. tauto.
    + apply (Hgen (VStr fr1)); [exact Hfr1 | | reflexivity].
      simpl. tauto.
Qed.

Lemma vague_term_scan_witness :
  exists fs,
    attack_spec AmbiguityAdversary vague_doc = inr fs
    /\ In (Ambiguity.vague_finding fr1 "reasonable" "Specify exact bounds") fs.
Proof.
  destruct (@vague_term_scan vague_doc [VStr fr1] [] eq_refl eq_refl)
    as [_ [fs [Hfs [Hall _]]]].
  exists fs. split; [exact Hfs|].
  apply (Hall (VStr fr1) "reasonable" "Specify exact bounds").
  - now left.
  - simpl. tauto.
  - reflexivity.
Defined.

End VagueTerms.

(* ================================================================== *)
(** * C5: a scalar where a list is expected *)
(* ================================================================== *)

Section ScalarSections.

Import Py Re Loop Review.








Lemma level_1_returns (v : Gates.Validator) :
  returns (Gates.validate_level_1_syntax v)
  = walkable "functional_requirements" (Gates.spec v).
Proof.
  unfold Gates.validate_level_1_syntax, walkable, Gates.item, bind.
  destruct (has_key "functional_requirements" (Gates.spec v)); simpl negb;
    [|reflexivity].
  destruct (get "functional_requirements" VNone (Gates.spec v)); reflexivity.
Qed.





End ScalarSections.

(* ================================================================== *)
(** * The results of the four gate levels *)
(* ================================================================== *)

Section GateResults.

Import Py Re Loop Gates.

Ltac open_result :=
  unfold bind;
  repeat match goal with
         | |- context [match ?m with inl _ => _ | inr _ => _ end] =>
             destruct m; try discriminate
         end;
  let H := fresh in
  intro H; injection H as <-; repeat split.

Lemma level_1_result (v : Validator) (r : ValidationResult) :
  validate_level_1_syntax v = inr r -> well_formed SYNTAX r.
Proof. unfold validate_level_1_syntax. open_result. Qed.

Lemma level_2_result (v : Validator) (r : ValidationResult) :
  validate_level_2_semantic v = inr r -> well_formed SEMANTIC r.
Proof. unfold validate_level_2_semantic. open_result. Qed.

Lemma level_3_result (v : Validator) (r : ValidationResult) :
  validate_level_3_coverage v = inr r -> well_formed COVERAGE r.
Proof. unfold validate_level_3_coverage. open_result. Qed.

Lemma level_4_result (v : Validator) (r : ValidationResult) :
  validate_level_4_cross_reference v = inr r -> well_formed CROSS_REFERENCE r.
Proof. unfold validate_level_4_cross_reference. open_result. Qed.

Lemma level_result (l : ValidationLevel) (v : Validator)
      (r : ValidationResult) :
  validator_of l v = inr r -> well_formed l r.
Proof.
  destruct l; simpl;
    [apply level_1_result | apply level_2_result
     | apply level_3_result | apply level_4_result].
Qed.

(** No validator reads [current_level]. *)
Lemma validator_ignores_level (l l' : ValidationLevel) (v : Validator) :
  validator_of l (set_current_level v l') = validator_of l v.
Proof. destruct l; reflexivity. Qed.

End GateResults.

(* ================================================================== *)
(** * The runner returns on documents of the expected shape *)
(* ================================================================== *)

Section RunnerReturns.

Import Py Re Loop Gates.

Lemma has_key_lookup (k : string) (d : dict) :
  has_key k d = match lookup k d with Some _ => true | None => false end.
Proof.
  induction d as [|[k' x] d IH]; simpl; [reflexivity|].
  destruct (String.eqb k k'); [reflexivity | exact IH].
Qed.

Lemma list_section_default (k : string) (d : dict) :
  list_section k d = true -> exists l, get k (VList []) d = VList l.
Proof.
  unfold list_section, get. destruct (lookup k d) as [[]|];
    try discriminate; eauto.
Qed.

Lemma list_section_item (k : string) (d : dict) :
  list_section k d = true -> has_key k d = true ->
  exists l, item k d = VList l.
Proof.
  rewrite has_key_lookup. unfold list_section, item, get.
  destruct (lookup k d) as [[]|]; try discriminate; eauto.
Qed.

Lemma dict_section_default (k : string) (d : dict) :
  dict_section k d = true -> exists m, get k (VDict []) d = VDict m.
Proof.
  unfold dict_section, get. destruct (lookup k d) as [[]|];
    try discriminate; eauto.
Qed.

Lemma returns_bind {A B : Type} (m : M A) (k : A -> M B) :
  returns m = true ->
  (forall a, m = inr a -> returns (k a) = true) ->
  returns (bind m k) = true.
Proof.
  destruct m as [e|a]; simpl; [discriminate|]. intros _ H. now apply H.
Qed.

Lemma returns_for_each {A S : Type} (body : S -> A -> M S) (l : list A) :
  (forall acc x, In x l -> returns (body acc x) = true) ->
  forall acc, returns (for_each l body acc) = true.
Proof.
  induction l as [|x l IH]; intros H acc; simpl; [reflexivity|].
  apply returns_bind; [apply H; now left|].
  intros acc' _. apply IH. intros a y Hy. apply H. now right.
Qed.

(** Walk through a monadic body: every bind, loop and branch in head
    position is opened, what is left are the calls that may raise. *)
Ltac returning :=
  repeat first
    [ reflexivity
    | apply returns_bind; [|intros ? ?]
    | apply returns_for_each; intros ? ? ?
    | match goal with
      | |- returns (if ?c then _ else _) = true => destruct c eqn:?
      | |- returns (match ?p with (_, _) => _ end) = true => destruct p
      end ].

Lemma level_1_returns_shaped (v : Validator) :
  well_shaped v = true -> returns (validate_level_1_syntax v) = true.
Proof.
  unfold well_shaped. rewrite !andb_true_iff.
  intros ((((_ & Hfr) & _) & _) & _).
  rewrite level_1_returns. unfold walkable.
  destruct (has_key "functional_requirements" (spec v)) eqn:Hk;
    [|reflexivity].
  destruct (list_section_item _ _ Hfr Hk) as [l Hl].
  unfold item in Hl. now rewrite Hl.
Qed.

Lemma level_2_returns_shaped (v : Validator) :
  well_shaped v = true -> returns (validate_level_2_semantic v) = true.
Proof.
  unfold well_shaped. rewrite !andb_true_iff.
  intros ((((Hus & Hfr) & _) & Hdef) & _).
  destruct (list_section_default _ _ Hfr) as [reqs Hreqs].
  destruct (dict_section_default _ _ Hdef) as [defs Hdefs].
  unfold validate_level_2_semantic. cbv zeta.
  rewrite Hreqs, Hdefs.
  apply returns_bind.
  { destruct (has_key "user_stories" (spec v)) eqn:Ku;
      destruct (has_key "functional_requirements" (spec v)) eqn:Kf;
      cbn [andb]; try reflexivity.
    destruct (list_section_item _ _ Hus Ku) as [us ->].
    destruct (list_section_item _ _ Hfr Kf) as [fr ->].
    unfold _extract_keywords. reflexivity. }
  intros warnings _. returning.
Qed.

Lemma level_3_returns_shaped (v : Validator) :
  well_shaped v = true -> returns (validate_level_3_coverage v) = true.
Proof.
  unfold well_shaped. rewrite !andb_true_iff.
  intros ((((Hus & Hfr) & Hac) & _) & _).
  destruct (list_section_default _ _ Hus) as [us Hu].
  destruct (list_section_default _ _ Hfr) as [fr Hf].
  destruct (list_section_default _ _ Hac) as [ac Ha].
  unfold validate_level_3_coverage, _is_complex_spec. cbv zeta.
  rewrite Hu, Hf, Ha. returning.
Qed.

Lemma level_4_returns_shaped (v : Validator) :
  well_shaped v = true ->
  returns (validate_level_4_cross_reference v) = true.
Proof.
  unfold well_shaped. rewrite !andb_true_iff.
  intros (_ & Hmeta). rewrite forallb_forall in Hmeta.
  unfold validate_level_4_cross_reference, _check_spec_conflicts.
  cbv zeta.
  apply returns_bind; [|intros; reflexivity].
  apply returns_for_each. intros conflicts other Hother.
  apply returns_for_each. intros conflicts' api _.
  destruct (dict_section_default _ _ (Hmeta _ Hother)) as [m ->].
  destruct (existsb (String.eqb api) (_extract_apis other)); reflexivity.
Qed.

Lemma well_shaped_level (v : Validator) (l : ValidationLevel) :
  well_shaped (set_current_level v l) = well_shaped v.
Proof. reflexivity. Qed.

(** On a document of the expected shape the runner returns a map. *)
Lemma runner_returns (v : Validator) :
  well_shaped v = true -> returns (run_progressive_validation v) = true.
Proof.
  intro Hv. unfold run_progressive_validation, validators.
  cbn [run_validators].
  apply returns_bind; [now apply level_1_returns_shaped|].
  intros r1 _. destruct (passed r1); cbn [negb]; [|reflexivity].
  apply returns_bind; [now apply level_2_returns_shaped|].
  intros r2 _. destruct (passed r2); cbn [negb]; [|reflexivity].
  apply returns_bind; [now apply level_3_returns_shaped|].
  intros r3 _. destruct (passed r3); cbn [negb]; [|reflexivity].
  apply returns_bind; [now apply level_4_returns_shaped|].
  intros r4 _. destruct (passed r4); reflexivity.
Qed.

End RunnerReturns.

(* ================================================================== *)
(** * C2: the runner *)
(* ================================================================== *)

Section Runner.

Import Py Re Loop Gates.

Lemma passed_no_errors (l : ValidationLevel) (r : ValidationResult) :
  well_formed l r -> (passed r = true <-> errors r = []).
Proof.
  intros (_ & Hp & _). rewrite Hp. split.
  - intro H. apply Nat.eqb_eq in H. now apply length_zero_iff_nil.
  - intros ->. reflexivity.
Qed.

Lemma run_attempt (v : Validator) (res : Results) (v' : Validator) :
  run_progressive_validation v = inr (res, v') ->
  exists rs, attempt v rs v' /\ res = combine level_order rs.
Proof.
  unfold run_progressive_validation, validators.
  cbn [run_validators]. unfold bind at 1.
  destruct (validate_level_1_syntax v) as [e|r1] eqn:E1; [discriminate|].
  destruct (passed r1) eqn:P1; cbn [negb].
  2:{ intro H. injection H as <- <-. exists [r1]. split; [|reflexivity].
      now constructor. }
  unfold bind at 1.
  change (validate_level_2_semantic (set_current_level v SYNTAX))
    with (validate_level_2_semantic v).
  destruct (validate_level_2_semantic v) as [e|r2] eqn:E2; [discriminate|].
  destruct (passed r2) eqn:P2; cbn [negb].
  2:{ intro H. injection H as <- <-. exists [r1; r2].
      split; [|reflexivity]. exact (@stop_2 v r1 r2 E1 P1 E2 P2). }
  unfold bind at 1.
  change (validate_level_3_coverage
            (set_current_level (set_current_level v SYNTAX) SEMANTIC))
    with (validate_level_3_coverage v).
  destruct (validate_level_3_coverage v) as [e|r3] eqn:E3; [discriminate|].
  destruct (passed r3) eqn:P3; cbn [negb].
  2:{ intro H. injection H as <- <-. exists [r1; r2; r3].
      split; [|reflexivity]. exact (@stop_3 v r1 r2 r3 E1 P1 E2 P2 E3 P3). }
  unfold bind at 1.
  change (validate_level_4_cross_reference
            (set_current_level
               (set_current_level (set_current_level v SYNTAX) SEMANTIC)
               COVERAGE))
    with (validate_level_4_cross_reference v).
  destruct (validate_level_4_cross_reference v) as [e|r4] eqn:E4;
    [discriminate|].
  pose proof (@stop_4 v r1 r2 r3 r4 E1 P1 E2 P2 E3 P3 E4) as Hatt.
  revert Hatt. destruct (passed r4) eqn:P4; cbn [negb]; intro Hatt;
    intro H; injection H as <- <-; exists [r1; r2; r3; r4];
    (split; [exact Hatt | reflexivity]).
Qed.

Lemma attempt_results (v : Validator) (rs : list ValidationResult)
      (v' : Validator) :
  attempt v rs v' ->
  Forall2 (fun l r => validator_of l v = inr r)
          (firstn (List.length rs) level_order) rs.
Proof. intros []; simpl; repeat constructor; assumption. Qed.

Lemma level_1_missing (name : string) (d : dict) (others : list dict) :
  has_key "functional_requirements" d = false ->
  exists r,
    validate_level_1_syntax (new_validator name d others) = inr r
    /\ In "Missing required section: functional_requirements" (errors r).
Proof.
  intro Hk. unfold validate_level_1_syntax.
  cbn [spec new_validator]. rewrite Hk. cbn [bind ret].
  eexists. split; [reflexivity|]. cbn [errors].
  unfold required_sections. cbn [fold_left]. rewrite Hk.
  cbn [negb orb].
  match goal with
  | |- context [if ?c then push ?l ?x else ?l] =>
      match x with
      | context ["acceptance_criteria"] => destruct c
      end
  end; [apply in_push|]; apply in_push_last.
Qed.

(** C2.  The runner attempts SYNTAX, SEMANTIC, COVERAGE, CROSS_REFERENCE in
    this order and stops behind the first level whose result has an
    error: what it returns maps the first [n] levels, [1 <= n <= 4], each to
    the result of its own validator, every result but the last without
    errors and the last with an error unless it is the fourth.  For a
    document without [functional_requirements] the map has the single entry
    SYNTAX, not passed, with the error that names the section, whatever the
    later validators are: they are not run.  On a document whose sections
    have the expected shape the runner does return a map. *)
Theorem progressive_gates :
  (forall v res v',
      run_progressive_validation v = inr (res, v') ->
      exists rs,
        1 <= List.length rs <= 4
        /\ res = combine level_order rs
        /\ keys res = firstn (List.length rs) level_order
        /\ Forall2 (fun l r => validator_of l v = inr r)
                   (firstn (List.length rs) level_order) rs
        /\ (forall i r, nth_error rs i = Some r ->
                        S i < List.length rs -> errors r = [])
        /\ (forall r, nth_error rs (List.length rs - 1) = Some r ->
                      List.length rs < 4 -> errors r <> []))
  /\ (forall name d others,
         has_key "functional_requirements" d = false ->
         exists r,
           run_progressive_validation (new_validator name d others)
           = inr ([(SYNTAX, r)], new_validator name d others)
           /\ passed r = false
           /\ In "Missing required section: functional_requirements"
                 (errors r)
           /\ forall later,
               run_validators ((SYNTAX, validate_level_1_syntax) :: later)
                              (new_validator name d others) []
               = inr ([(SYNTAX, r)], new_validator name d others))
  /\ (forall v,
         well_shaped v = true ->
         exists res v', run_progressive_validation v = inr (res, v')).
Proof.
  split; [|split].
  3:{ intros v Hv. pose proof (runner_returns v Hv) as H.
      destruct (run_progressive_validation v) as [e|[res v']];
        [discriminate | eauto]. }
  - intros v res v' Hrun.
    destruct (run_attempt _ Hrun) as [rs [Hatt ->]].
    exists rs.
    pose proof (attempt_results Hatt) as Hres.
    assert (Hclean : forall l r, validator_of l v = inr r ->
                                 passed r = true -> errors r = []).
    { intros l r Hr Hp. apply level_result in Hr.
      now apply (passed_no_errors Hr). }
    assert (Hdirty : forall l r, validator_of l v = inr r ->
                                 passed r = false -> errors r <> []).
    { intros l r Hr Hp Hnil. apply level_result in Hr.
      apply (passed_no_errors Hr) in Hnil. congruence. }
    split; [destruct Hatt; simpl; lia|].
    split; [reflexivity|].
    split; [destruct Hatt; reflexivity|].
    split; [exact Hres|].
    split.
    + intros i r Hi Hlt.
      destruct Hatt; simpl in Hlt;
        repeat (destruct i as [|i]; simpl in Hi; try lia;
                try (injection Hi as <-));
        first [ now apply (Hclean SYNTAX)
              | now apply (Hclean SEMANTIC)
              | now apply (Hclean COVERAGE) ].
    + intros r Hlast Hlt.
      destruct Hatt; simpl in Hlast, Hlt; try lia; injection Hlast as <-;
        first [ now apply (Hdirty SYNTAX)
              | now apply (Hdirty SEMANTIC)
              | now apply (Hdirty COVERAGE) ].
  - intros name d others Hk.
    destruct (level_1_missing name d others Hk) as [r [Hr Hin]].
    assert (Hp : passed r = false).
    { apply level_1_result in Hr. destruct Hr as (_ & Hp & _).
      rewrite Hp. destruct (errors r); [destruct Hin | reflexivity]. }
    exists r.
    assert (Hany : forall later,
               run_validators ((SYNTAX, validate_level_1_syntax) :: later)
                              (new_validator name d others) []
               = inr ([(SYNTAX, r)], new_validator name d others)).
    { intro later. cbn [run_validators]. rewrite Hr. cbn [bind].
      rewrite Hp. reflexivity. }
    split; [apply Hany|]. repeat split; assumption.
Qed.

Lemma progressive_gates_witness :
  exists r,
    run_progressive_validation
      (new_validator "stories.yaml" stories_doc [])
    = inr ([(SYNTAX, r)], new_validator "stories.yaml" stories_doc [])
    /\ passed r = false
    /\ In "Missing required section: functional_requirements" (errors r).
Proof.
  destruct (proj1 (proj2 progressive_gates) "stories.yaml" stories_doc []
                  eq_refl) as [r (Hrun & Hp & Hin & _)].
  exists r. repeat split; assumption.
Defined.

End Runner.

(* ================================================================== *)
(** * C4: [ready_for_adversarial] *)
(* ================================================================== *)

Section ReadyFlag.

Import Py Re Loop Gates.

Lemma in_combine_related {A B : Type} (R : A -> B -> Prop) (l : list A)
      (l' : list B) (a : A) (b : B) :
  Forall2 R l l' -> In (a, b) (combine l l') -> R a b.
Proof.
  induction 1 as [|x y l l' Hxy Hl IH]; simpl; [intros []|].
  intros [H|H]; [injection H as <- <-; exact Hxy | now apply IH].
Qed.

Lemma combine_firstn_length {A B : Type} (l : list A) (l' : list B) :
  combine l l' = combine (firstn (List.length l') l) l'.
Proof.
  revert l'. induction l as [|x l IH]; intros [|y l']; simpl;
    try reflexivity.
  now rewrite <- IH.
Qed.

Lemma ready_of_level (l : ValidationLevel) (v : Validator)
      (r : ValidationResult) :
  validator_of l v = inr r ->
  level r = l
  /\ (ready_for_adversarial r = true <->
      l = CROSS_REFERENCE /\ passed r = true)
  /\ (l <> CROSS_REFERENCE -> ready_for_adversarial r = false).
Proof.
  intro H. apply level_result in H. destruct H as (Hl & _ & Hready).
  split; [exact Hl|]. rewrite Hready.
  destruct l; split; try (intros _; reflexivity);
    try (intro H; now elim H);
    split; try discriminate; try (intros [? _]; discriminate).
  - intro H. split; [reflexivity | exact H].
  - intros [_ H]. exact H.
Qed.

(** C4.  Whatever the document, the result of SYNTAX, SEMANTIC or COVERAGE
    has [ready_for_adversarial = false], passed or not, and the result of
    CROSS_REFERENCE has it true exactly when that level passed; so in every
    map the runner returns the flag is true only at CROSS_REFERENCE and
    only when it passed. *)
Theorem ready_only_after_cross_reference (v : Validator) :
  (forall l r,
      validator_of l v = inr r ->
      level r = l
      /\ (ready_for_adversarial r = true <->
          l = CROSS_REFERENCE /\ passed r = true)
      /\ (l <> CROSS_REFERENCE -> ready_for_adversarial r = false))
  /\ (forall res v',
         run_progressive_validation v = inr (res, v') ->
         forall l r,
           In (l, r) res ->
           level r = l
           /\ (ready_for_adversarial r = true <->
               l = CROSS_REFERENCE /\ passed r = true)).
Proof.
  split; [intros l r; apply ready_of_level|].
  intros res v' Hrun l r Hin.
  destruct (run_attempt _ Hrun) as [rs [Hatt ->]].
  rewrite combine_firstn_length in Hin.
  pose proof (in_combine_related _ _ (attempt_results Hatt) Hin) as Hr.
  simpl in Hr. destruct (ready_of_level _ _ Hr) as (Hl & Hiff & _).
  split; assumption.
Qed.

Lemma ready_only_after_cross_reference_witness :
  exists r,
    validate_level_4_cross_reference (new_validator "login.yaml" login_doc [])
    = inr r
    /\ passed r = true
    /\ ready_for_adversarial r = true.
Proof.
  eexists. split; [vm_compute; reflexivity|].
  split; [reflexivity|].
  apply (proj1 (ready_only_after_cross_reference
                  (new_validator "login.yaml" login_doc []))
               CROSS_REFERENCE).
  - vm_compute. reflexivity.
  - split; reflexivity.
Defined.

End ReadyFlag.

(* ================================================================== *)
(** * C7: what the cross-reference gate compares *)
(* ================================================================== *)

Section Endpoints.

Import Py Re Loop Gates.

Lemma rep_reaches {A : Type} (p : ascii -> bool) (s : string) :
  forall n prev (k : option ascii -> string -> option A) a,
    rep p n prev s k = Some a -> exists prev' s', k prev' s' = Some a.
Proof.
  induction s as [|c s IH]; intros n prev k a; simpl.
  - destruct (n =? 0); [eauto | discriminate].
  - destruct (p c).
    + destruct (rep p (pred n) (Some c) s k) eqn:E.
      * intro H. injection H as <-. eapply IH; eauto.
      * destruct (n =? 0); [eauto | discriminate].
    + destruct (n =? 0); [eauto | discriminate].
Qed.

(** A pattern without a group hands the group it was given on. *)
Lemma run_group_free {A : Type} (ci : bool) (r : re) :
  group_free r = true ->
  forall prev s cap (k : cont A) a,
    run ci r prev s cap k = Some a ->
    exists prev' s', k prev' s' cap = Some a.
Proof.
  induction r as [l|n p| |r1 IH1 r2 IH2|r1 IH1 r2 IH2|r1 IH1];
    intros Hfree prev s cap k a; simpl in *.
  - destruct (lit ci l prev s) as [[prev' s']|]; [eauto | discriminate].
  - intro H. apply rep_reaches in H. exact H.
  - destruct (at_boundary prev s); [eauto | discriminate].
  - apply andb_true_iff in Hfree. destruct Hfree as [H1 H2].
    intro H. apply (IH1 H1) in H. destruct H as (prev' & s' & H).
    apply (IH2 H2) in H. exact H.
  - apply andb_true_iff in Hfree. destruct Hfree as [H1 H2].
    destruct (run ci r1 prev s cap k) eqn:E.
    + intro H. injection H as <-. apply (IH1 H1) in E. exact E.
    + intro H. apply (IH2 H2) in H. exact H.
  - discriminate.
Qed.

Lemma lit_exact (l : string) :
  forall prev s prev' s',
    lit false l prev s = Some (prev', s') -> s = l ++ s'.
Proof.
  induction l as [|a l IH]; intros prev s prev' s'; simpl.
  - intro H. now injection H as _ <-.
  - destruct s as [|b s]; [discriminate|].
    destruct (Ascii.eqb a b) eqn:E; [|discriminate].
    apply Ascii.eqb_eq in E. subst b.
    intro H. apply IH in H. now rewrite H.
Qed.

Lemma length_append (l s' : string) :
  String.length (l ++ s') = String.length l + String.length s'.
Proof. induction l as [|a l IH]; simpl; [reflexivity | now rewrite IH]. Qed.

Lemma take_exact (l s' : string) : take (String.length l) (l ++ s') = l.
Proof.
  induction l as [|a l IH]; simpl; [destruct s'; reflexivity|].
  now rewrite IH.
Qed.

Lemma take_consumed (l s' : string) :
  take (String.length (l ++ s') - String.length s') (l ++ s') = l.
Proof.
  rewrite length_append, Nat.add_sub. apply take_exact.
Qed.

(** An alternative of literals consumes one of them. *)
Lemma run_alts {A : Type} (ls : list string) :
  ls <> [] ->
  forall prev s cap (k : cont A) a,
    run false (alts ls) prev s cap k = Some a ->
    exists l prev' s', In l ls /\ s = l ++ s' /\ k prev' s' cap = Some a.
Proof.
  induction ls as [|x [|y ls] IH]; intros Hne prev s cap k a.
  - now elim Hne.
  - simpl. destruct (lit false x prev s) as [[prev' s']|] eqn:E;
      [|discriminate].
    intro H. exists x, prev', s'. apply lit_exact in E.
    repeat split; [now left | exact E | exact H].
  - change (alts (x :: y :: ls)) with (Alt (Lit x) (alts (y :: ls))).
    cbn [run].
    destruct (lit false x prev s) as [[prev' s']|] eqn:E.
    + destruct (k prev' s' cap) eqn:K.
      * intro H. injection H as <-. exists x, prev', s'.
        apply lit_exact in E. repeat split; [now left | exact E | exact K].
      * intro H. apply IH in H; [|discriminate].
        destruct H as (l & p' & t' & Hin & Hs & Hk).
        exists l, p', t'. repeat split; [now right | exact Hs | exact Hk].
    + intro H. apply IH in H; [|discriminate].
      destruct H as (l & p' & t' & Hin & Hs & Hk).
      exists l, p', t'. repeat split; [now right | exact Hs | exact Hk].
Qed.

(** A match of the endpoint pattern reports the method, not the path. *)
Lemma endpoint_match_group (prev : option ascii) (s : string) (n : nat)
      (cap : option string) :
  match_at false endpoint_pattern prev s = Some (n, cap) ->
  exists m, In m methods /\ cap = Some m.
Proof.
  unfold match_at.
  change endpoint_pattern with (Seq (Group (alts methods)) endpoint_tail).
  cbn [run].
  intro H. apply run_alts in H; [|discriminate].
  destruct H as (m & prev' & s' & Hin & Hs & H).
  apply run_group_free in H; [|reflexivity].
  destruct H as (prev'' & s'' & H). injection H as _ <-.
  exists m. split; [exact Hin|]. subst s. now rewrite take_consumed.
Qed.

Lemma scan_endpoint_methods (s : string) :
  forall prev skip api,
    In api (scan false endpoint_pattern prev s skip) -> In api methods.
Proof.
  induction s as [|c s IH]; intros prev skip api; simpl; [intros []|].
  destruct skip as [|k]; [|apply IH].
  destruct (match_at false endpoint_pattern prev (String c s))
    as [[[|n] cap]|] eqn:E; try apply IH.
  apply endpoint_match_group in E. destruct E as (m & Hm & ->).
  intros [<-|H]; [exact Hm | eapply IH; exact H].
Qed.

(** C7, as the code has it: [_extract_apis] keeps the method of every
    endpoint and drops its path, so two documents that share no endpoint
    are reported as conflicting as soon as they use the same method.  Here
    [GET /users] against [GET /orders]. *)
Theorem method_only_conflict :
  (forall d api, In api (_extract_apis d) -> In api methods)
  /\ _extract_apis users_doc = ["GET"]
  /\ _extract_apis orders_doc = ["GET"]
  /\ exists r,
      validate_level_4_cross_reference
        (new_validator "users.yaml" users_doc [orders_doc]) = inr r
      /\ errors r = ["Conflict with orders: Duplicate API endpoint: GET"]
      /\ passed r = false.
Proof.
  split.
  { intros d api. unfold _extract_apis, extend, findall. simpl app.
    apply scan_endpoint_methods. }
  split; [vm_compute; reflexivity|].
  split; [vm_compute; reflexivity|].
  eexists. split; [vm_compute; reflexivity|].
  split; reflexivity.
Qed.

End Endpoints.

(* ================================================================== *)
(** * C6: complex specs and rollback *)
(* ================================================================== *)

Section ComplexSpecs.

Import Py Re Loop Gates.

Lemma sum_bools_count (l : list bool) : sum_bools l = count_true l.
Proof.
  unfold sum_bools.
  assert (H : forall acc,
             fold_left (fun n (b : bool) => if b then n + 1 else n) l acc
             = acc + count_true l).
  { induction l as [|[|] l IH]; intro acc; simpl; [lia | |apply IH].
    rewrite IH. lia. }
  apply H.
Qed.

Lemma count_true_one (l : list bool) :
  1 <= count_true l <-> exists j, nth j l false = true.
Proof.
  induction l as [|[|] l IH]; simpl.
  - split; [lia | intros [[|j] H]; discriminate].
  - split; [intros _; now exists 0 | lia].
  - rewrite IH. split.
    + intros [j H]. now exists (S j).
    + intros [[|j] H]; [discriminate | now exists j].
Qed.

Lemma count_true_two (l : list bool) :
  2 <= count_true l <->
  exists i j, i < j /\ nth i l false = true /\ nth j l false = true.
Proof.
  induction l as [|[|] l IH]; simpl.
  - split; [lia | intros (i & j & _ & H & _); destruct i; discriminate].
  - split.
    + intro H. assert (H1 : 1 <= count_true l) by lia.
      apply count_true_one in H1. destruct H1 as [j Hj].
      exists 0, (S j). repeat split; [lia | exact Hj].
    + intros (i & [|j] & Hlt & Hi & Hj); [lia|].
      assert (H1 : 1 <= count_true l) by (apply count_true_one; eauto).
      lia.
  - rewrite IH. split.
    + intros (i & j & Hlt & Hi & Hj). exists (S i), (S j).
      repeat split; [lia | exact Hi | exact Hj].
    + intros ([|i] & [|j] & Hlt & Hi & Hj); try discriminate; try lia.
      exists i, j. repeat split; [lia | exact Hi | exact Hj].
Qed.

Lemma for_each_returns {A S : Type} (body : S -> A -> M S) (l : list A) :
  (forall acc x, exists acc', body acc x = inr acc') ->
  forall acc, exists acc', for_each l body acc = inr acc'.
Proof.
  intro Hbody. induction l as [|x l IH]; intro acc; simpl; [now exists acc|].
  destruct (Hbody acc x) as [acc' ->]. simpl. apply IH.
Qed.

Lemma iterable_iter (x : value) :
  iterable x = true -> exists items, iter x = inr items.
Proof. destruct x; simpl; try discriminate; eauto. Qed.

Lemma is_complex_unfold (d : dict) :
  _is_complex_spec d
  = (n <- len (get "functional_requirements" (VList []) d) ;;
     ret (2 <=? count_true (indicators d n))).
Proof.
  unfold _is_complex_spec, bind.
  destruct (len (get "functional_requirements" (VList []) d)); [reflexivity|].
  now rewrite sum_bools_count.
Qed.

Lemma push_not_passed (l : list string) (x : string) :
  (List.length (push l x) =? 0) = false.
Proof. unfold push. rewrite length_app. simpl. now rewrite Nat.add_1_r. Qed.

Lemma level_3_complex (v : Validator) :
  _is_complex_spec (spec v) = inr true ->
  contains "rollback" (spec_text (spec v)) = false ->
  iterable (get "user_stories" (VList []) (spec v)) = true ->
  iterable (get "acceptance_criteria" (VList []) (spec v)) = true ->
  exists r,
    validate_level_3_coverage v = inr r
    /\ In "Complex spec lacks rollback procedures" (errors r)
    /\ passed r = false.
Proof.
  intros Hcomplex Hroll Hus Hac.
  destruct (iterable_iter _ Hus) as [stories Hstories].
  destruct (iterable_iter _ Hac) as [criteria Hcriteria].
  unfold validate_level_3_coverage.
  rewrite Hstories. cbn [bind].
  match goal with
  | |- context [for_each stories ?body ?start] =>
      assert (Hloop : exists ws, for_each stories body start = inr ws);
        [apply for_each_returns | destruct Hloop as [ws Hws]]
  end.
  { intros acc x. rewrite Hcriteria. cbn [bind].
    match goal with
    | |- context [if ?c then _ else _] => destruct c
    end; eexists; reflexivity. }
  rewrite Hws, Hcomplex. cbn [bind]. rewrite Hroll. cbn [negb andb].
  eexists. split; [reflexivity|]. cbn [errors passed fst snd].
  split; [apply in_push_last | apply push_not_passed].
Qed.

(** C6.  [_is_complex_spec] answers true exactly when at least two of the
    five indicators hold (the text mentions database, migration, payment or
    distributed; there are more than 10 functional requirements), and
    for a complex document whose text does not mention rollback the
    COVERAGE gate returns a result with the error
    "Complex spec lacks rollback procedures", hence not passed. *)
Theorem complex_spec_rollback (v : Validator) :
  returns (_is_complex_spec (spec v))
  = iterable (get "functional_requirements" (VList []) (spec v))
  /\ (forall b,
         _is_complex_spec (spec v) = inr b ->
         exists n,
           len (get "functional_requirements" (VList []) (spec v)) = inr n
           /\ (b = true <->
               exists i j,
                 i < j
                 /\ nth i (indicators (spec v) n) false = true
                 /\ nth j (indicators (spec v) n) false = true))
  /\ (_is_complex_spec (spec v) = inr true ->
      contains "rollback" (spec_text (spec v)) = false ->
      iterable (get "user_stories" (VList []) (spec v)) = true ->
      iterable (get "acceptance_criteria" (VList []) (spec v)) = true ->
      exists r,
        validate_level_3_coverage v = inr r
        /\ In "Complex spec lacks rollback procedures" (errors r)
        /\ passed r = false).
Proof.
  split; [|split].
  - rewrite is_complex_unfold. unfold bind.
    destruct (get "functional_requirements" (VList []) (spec v));
      reflexivity.
  - intro b. rewrite is_complex_unfold. unfold bind.
    destruct (len (get "functional_requirements" (VList []) (spec v)))
      as [e|n]; [discriminate|].
    intro H. exists n. split; [reflexivity|].
    rewrite <- count_true_two.
    remember (count_true (indicators (spec v) n)) as c eqn:Hc.
    unfold ret in H.
    assert (Hb : b = (2 <=? c)) by congruence.
    rewrite Hb. apply Nat.leb_le.
  - apply level_3_complex.
Qed.

Lemma complex_spec_rollback_witness :
  exists r,
    validate_level_3_coverage (new_validator "pay.yaml" payment_doc []) = inr r
    /\ In "Complex spec lacks rollback procedures" (errors r)
    /\ passed r = false.
Proof.
  apply (proj2 (proj2 (complex_spec_rollback
                         (new_validator "pay.yaml" payment_doc []))));
    vm_compute; reflexivity.
Defined.

End ComplexSpecs.

(* ================================================================== *)
(** * Outline documents *)
(* ================================================================== *)

Section Outline.

Import Py Re Loop Gates.

Lemma push_map_VStr (l : list string) (x : string) :
  push (map VStr l) (VStr x) = map VStr (l ++ [x])%list.
Proof. unfold push. now rewrite map_app. Qed.

Lemma append_item_outline (k x : string) (d : dict) :
  is_outline d -> is_outline (append_item k (VStr x) d).
Proof.
  intros (us & fr & nfr & ac & ->). unfold is_outline. simpl.
  destruct (String.eqb k "user_stories");
    [rewrite push_map_VStr; now eauto 6|].
  destruct (String.eqb k "functional_requirements");
    [rewrite push_map_VStr; now eauto 6|].
  destruct (String.eqb k "non_functional_requirements");
    [rewrite push_map_VStr; now eauto 6|].
  destruct (String.eqb k "acceptance_criteria");
    [rewrite push_map_VStr|]; now eauto 6.
Qed.

Lemma outline_line_outline (st : option string * dict) (line : string) :
  is_outline (snd st) -> is_outline (snd (outline_line st line)).
Proof.
  destruct st as [cur d]. unfold outline_line. cbn [snd]. intro H.
  destruct (startswith "## User Stories" line); [exact H|].
  destruct (startswith "## Functional Requirements" line); [exact H|].
  destruct (startswith "## Non-Functional Requirements" line); [exact H|].
  destruct (startswith "## Acceptance Criteria" line); [exact H|].
  destruct cur as [sec|]; [|exact H].
  destruct (startswith "-" (strip line)); [|exact H].
  now apply append_item_outline.
Qed.

Lemma outline_fold (lines : list string) (st : option string * dict) :
  is_outline (snd st) ->
  is_outline (snd (fold_left outline_line lines st)).
Proof.
  revert st. induction lines as [|line lines IH]; intros st H; simpl;
    [exact H|].
  apply IH. now apply outline_line_outline.
Qed.

Lemma parse_markdown_outline (content : string) :
  is_outline (_parse_markdown content).
Proof.
  unfold _parse_markdown. apply outline_fold. simpl.
  exists [], [], [], []. reflexivity.
Qed.

(** X1.  Whatever the text, [_parse_markdown] returns a mapping with
    exactly the four sections [user_stories], [functional_requirements],
    [non_functional_requirements] and [acceptance_criteria], in this order,
    each a list of strings: no other key, no other shape. *)
Theorem parse_markdown_shape (content : string) :
  is_outline (_parse_markdown content)
  /\ keys (_parse_markdown content)
     = ["user_stories"; "functional_requirements";
        "non_functional_requirements"; "acceptance_criteria"].
Proof.
  pose proof (parse_markdown_outline content) as H.
  split; [exact H|].
  destruct H as (us & fr & nfr & ac & ->). reflexivity.
Qed.

Lemma no_heading_fold (lines : list string) :
  (forall line,
      In line lines ->
      startswith "## User Stories" line = false
      /\ startswith "## Functional Requirements" line = false
      /\ startswith "## Non-Functional Requirements" line = false
      /\ startswith "## Acceptance Criteria" line = false) ->
  forall d, fold_left outline_line lines (None, d) = (None, d).
Proof.
  induction lines as [|line lines IH]; intros H d; cbn [fold_left];
    [reflexivity|].
  destruct (H line (or_introl eq_refl)) as (H1 & H2 & H3 & H4).
  assert (Hstep : outline_line (None, d) line = (None, d)).
  { unfold outline_line. now rewrite H1, H2, H3, H4. }
  rewrite Hstep. apply IH. intros l Hl. apply H. now right.
Qed.

Lemma well_shaped_outline (name : string) (d : dict) (others : list dict) :
  is_outline d ->
  forallb (dict_section "metadata") others = true ->
  well_shaped (new_validator name d others) = true.
Proof.
  intros (us & fr & nfr & ac & ->) H. unfold well_shaped. simpl.
  exact H.
Qed.

(** X2.  A text in which no line starts with one of the four headings is
    parsed to four empty sections, bullets and all; for a file that is not
    [.yaml] the runner then returns the SYNTAX result alone, with the three
    "Missing required section" errors. *)
Theorem outline_without_headings (name : string) (parsed : dict)
        (content : string) (others : list dict) :
  String.eqb (suffix name) ".yaml" = false ->
  no_heading content ->
  _load_spec name parsed content = empty_outline
  /\ exists r,
      run_progressive_validation (load_validator name parsed content others)
      = inr ([(SYNTAX, r)], load_validator name parsed content others)
      /\ errors r = all_sections_missing
      /\ passed r = false.
Proof.
  intros Hsuffix Hnone.
  assert (Hload : _load_spec name parsed content = empty_outline).
  { unfold _load_spec. rewrite Hsuffix. unfold _parse_markdown.
    now rewrite no_heading_fold. }
  split; [exact Hload|].
  unfold load_validator. rewrite Hload.
  unfold run_progressive_validation, validators. cbn [run_validators].
  unfold validate_level_1_syntax at 1. cbn [spec new_validator].
  eexists. split; [reflexivity|]. split; reflexivity.
Qed.

Lemma outline_without_headings_witness :
  _load_spec "notes.md" [] "- FR-1: allow login" = empty_outline.
Proof.
  refine (proj1 (@outline_without_headings "notes.md" []
                                           "- FR-1: allow login" []
                                           eq_refl _)).
  intros line [<-|[]]. repeat split; reflexivity.
Defined.




End Outline.

(* ================================================================== *)
(** * When a gate passes *)
(* ================================================================== *)

Section PassCriteria.

Import Py Re Loop Gates.

Lemma bind_inr {A B : Type} (m : M A) (k : A -> M B) (b : B) :
  bind m k = inr b -> exists a, m = inr a /\ k a = inr b.
Proof. destruct m as [e|a]; simpl; [discriminate | eauto]. Qed.

Lemma ret_inj {A : Type} (a b : A) : @ret A a = inr b -> a = b.
Proof. intro H. now injection H. Qed.

Lemma cond_push_passed (c : bool) (l : list string) (x : string) :
  (List.length (if c then push l x else l) =? 0)
  = (List.length l =? 0) && negb c.
Proof.
  destruct c; [|now rewrite andb_true_r].
  rewrite push_not_passed. now rewrite andb_false_r.
Qed.

(** X4.  The SYNTAX gate passes exactly when [user_stories],
    [functional_requirements] and [acceptance_criteria] are all present
    and not empty; its errors are the "Missing required section" messages
    of the others, in this order. *)
Theorem syntax_pass_criterion (v : Validator) (r : ValidationResult) :
  validate_level_1_syntax v = inr r ->
  passed r = forallb (fun k => filled k (spec v)) required_sections
  /\ errors r
     = flat_map (fun k => if filled k (spec v) then []
                          else ["Missing required section: " ++ k])
                required_sections.
Proof.
  unfold validate_level_1_syntax. intro H.
  apply bind_inr in H. destruct H as (ws & _ & H).
  injection H as <-. cbn [passed errors].
  unfold required_sections, filled. cbn [fold_left forallb flat_map].
  destruct (has_key "user_stories" (spec v));
    destruct (truthy (item "user_stories" (spec v)));
    destruct (has_key "functional_requirements" (spec v));
    destruct (truthy (item "functional_requirements" (spec v)));
    destruct (has_key "acceptance_criteria" (spec v));
    destruct (truthy (item "acceptance_criteria" (spec v)));
    split; reflexivity.
Qed.

Lemma syntax_pass_criterion_witness :
  exists r,
    validate_level_1_syntax (new_validator "stories.yaml" stories_doc [])
    = inr r
    /\ errors r
       = ["Missing required section: functional_requirements";
          "Missing required section: acceptance_criteria"].
Proof.
  eexists. split; [vm_compute; reflexivity|].
  refine (proj2 (syntax_pass_criterion
                   (new_validator "stories.yaml" stories_doc []) _)).
  vm_compute. reflexivity.
Defined.

Lemma conflict_qualified (req1 req2 : value) :
  _requirements_conflict req1 req2 = true ->
  qualified req1 = true /\ qualified req2 = true.
Proof.
  unfold _requirements_conflict, qualified, any_in. intro H.
  apply existsb_exists in H. destruct H as ([w1 w2] & _ & H).
  apply andb_true_iff in H. destruct H as [_ H].
  apply existsb_exists in H. destruct H as (term & Hterm & H).
  apply andb_true_iff in H. destruct H as [H1 H2].
  split; apply existsb_exists; exists term; split; assumption.
Qed.

Lemma substring_all (s : string) : substring 0 (String.length s) s = s.
Proof. induction s as [|c s IH]; simpl; [reflexivity | now rewrite IH]. Qed.

Lemma chars_substring (s : string) :
  forall n, chars (substring n (String.length s - n) s) = skipn n (chars s).
Proof.
  induction s as [|c s IH]; intro n.
  - destruct n; reflexivity.
  - destruct n as [|n].
    + cbn [String.length Nat.sub substring skipn chars].
      now rewrite substring_all.
    + cbn [String.length Nat.sub substring skipn chars]. apply IH.
Qed.

Lemma iter_slice (n : nat) (v rest : value) (reqs items : list value) :
  iter v = inr reqs ->
  slice_from n v = inr rest ->
  iter rest = inr items ->
  items = skipn n reqs.
Proof.
  destruct v; simpl; try discriminate; intros Hv Hs Hi.
  - injection Hv as <-. injection Hs as <-. simpl in Hi. injection Hi as <-.
    rewrite chars_substring. symmetry. apply skipn_map.
  - injection Hv as <-. injection Hs as <-. simpl in Hi. now injection Hi.
Qed.

Lemma for_each_appends {A B : Type} (g : A -> list B)
      (body : list B -> A -> M (list B)) (l : list A) :
  (forall acc x acc', In x l -> body acc x = inr acc' ->
                      acc' = (acc ++ g x)%list) ->
  forall acc acc', for_each l body acc = inr acc' ->
                   acc' = (acc ++ flat_map g l)%list.
Proof.
  induction l as [|x l IH]; intros Hbody acc acc'; simpl.
  - intro H. injection H as <-. now rewrite app_nil_r.
  - intro H. apply bind_inr in H. destruct H as (a & Ha & H).
    apply Hbody in Ha; [|now left]. subst a.
    rewrite app_assoc. eapply IH; eauto.
    intros a y a' Hy. apply Hbody. now right.
Qed.

Lemma in_enumerate_from_nth {A : Type} (l : list A) :
  forall n i x,
    In (i, x) (enumerate_from n l) <-> n <= i /\ nth_error l (i - n) = Some x.
Proof.
  induction l as [|y l IH]; intros n i x; simpl.
  - split; [intros [] | intros [_ H]]. destruct (i - n); discriminate.
  - rewrite IH. split.
    + intros [H|[Hle H]].
      * injection H as <- <-. split; [lia|]. now rewrite Nat.sub_diag.
      * split; [lia|]. replace (i - n) with (S (i - S n)) by lia. exact H.
    + intros [Hle H]. destruct (Nat.eq_dec i n) as [->|Hne].
      * rewrite Nat.sub_diag in H. simpl in H. injection H as ->. now left.
      * right. split; [lia|].
        replace (i - n) with (S (i - S n)) in H by lia. exact H.
Qed.

Lemma in_conflict_messages (reqs : list value) (msg : string) :
  In msg (conflict_messages reqs)
  <-> exists i j req1 req2,
        i < j
        /\ nth_error reqs i = Some req1
        /\ nth_error reqs j = Some req2
        /\ _requirements_conflict req1 req2 = true
        /\ msg = conflict_message i j.
Proof.
  unfold conflict_messages, conflicts_with, enumerate. rewrite in_flat_map.
  split.
  - intros ([i req1] & Hi & Hm). cbn [fst snd] in Hm.
    apply in_flat_map in Hm. destruct Hm as ([j req2] & Hj & Hm).
    cbn [fst snd] in Hm.
    destruct (_requirements_conflict req1 req2) eqn:E; [|contradiction].
    destruct Hm as [<-|[]].
    apply in_enumerate_from_nth in Hi. apply in_enumerate_from_nth in Hj.
    destruct Hi as [_ Hi]. destruct Hj as [Hle Hj].
    rewrite Nat.sub_0_r in Hi. rewrite nth_error_skipn in Hj.
    replace (i + 1 + (j - (i + 1))) with j in Hj by lia.
    exists i, j, req1, req2. repeat split; try assumption. lia.
  - intros (i & j & req1 & req2 & Hij & H1 & H2 & E & ->).
    exists (i, req1). split.
    + apply in_enumerate_from_nth. split; [lia|]. now rewrite Nat.sub_0_r.
    + cbn [fst snd]. apply in_flat_map. exists (j, req2). split.
      * apply in_enumerate_from_nth. split; [lia|].
        rewrite nth_error_skipn.
        now replace (i + 1 + (j - (i + 1))) with j by lia.
      * cbn [fst snd]. rewrite E. now left.
Qed.

Lemma level_2_errors (v : Validator) (r : ValidationResult) :
  validate_level_2_semantic v = inr r ->
  exists reqs,
    iter (get "functional_requirements" (VList []) (spec v)) = inr reqs
    /\ errors r
       = (conflict_messages reqs
            ++ if unsecured (spec v) then [security_error] else [])%list
    /\ passed r = (List.length (errors r) =? 0).
Proof.
  unfold validate_level_2_semantic. intro H.
  apply bind_inr in H. destruct H as (ws & _ & H).
  destruct (iter (get "functional_requirements" (VList []) (spec v)))
    as [e|reqs] eqn:Hreqs; [discriminate|].
  cbn [bind] in H.
  apply bind_inr in H. destruct H as (errs & Herrs & H).
  apply bind_inr in H. destruct H as (wss & _ & H).
  apply ret_inj in H. subst r. cbn [passed errors].
  exists reqs. split; [reflexivity|].
  assert (Hcm : errs = conflict_messages reqs).
  { change (conflict_messages reqs)
      with ([] ++ conflict_messages reqs)%list.
    unfold conflict_messages.
    eapply for_each_appends; [|exact Herrs].
    intros acc [i req1] acc' Hin Hbody. cbn [fst snd].
    apply bind_inr in Hbody. destruct Hbody as (rest & Hrest & Hbody).
    apply bind_inr in Hbody. destruct Hbody as (items & Hitems & Hbody).
    apply ret_inj in Hbody. subst acc'.
    rewrite (@iter_slice _ _ _ _ _ Hreqs Hrest Hitems).
    unfold conflicts_with. apply fold_left_appends.
    intros acc0 [j req2]. cbn [fst snd].
    destruct (_requirements_conflict req1 req2);
      [reflexivity | now rewrite app_nil_r]. }
  subst errs. unfold unsecured, security_error.
  destruct (any_in sensitive_keywords (spec_text (spec v))
            && negb (has_key "security_requirements" (spec v)));
    cbn [fst snd]; unfold push; rewrite ?app_nil_r; split; reflexivity.
Qed.

Lemma no_conflict_messages (reqs : list value) :
  conflict_messages reqs = []
  <-> forall i j req1 req2,
        i < j -> nth_error reqs i = Some req1 ->
        nth_error reqs j = Some req2 ->
        _requirements_conflict req1 req2 = false.
Proof.
  split.
  - intros Hnone i j req1 req2 Hij H1 H2.
    destruct (_requirements_conflict req1 req2) eqn:E; [|reflexivity].
    assert (Hin : In (conflict_message i j) (conflict_messages reqs)).
    { apply in_conflict_messages. exists i, j, req1, req2. auto. }
    rewrite Hnone in Hin. destruct Hin.
  - intro Hall. destruct (conflict_messages reqs) as [|m ms] eqn:E;
      [reflexivity|].
    assert (Hin : In m (conflict_messages reqs)) by (rewrite E; now left).
    apply in_conflict_messages in Hin.
    destruct Hin as (i & j & req1 & req2 & Hij & H1 & H2 & Hc & _).
    rewrite (Hall i j req1 req2 Hij H1 H2) in Hc. discriminate.
Qed.

(** X5.  The errors of the SEMANTIC gate are exactly these: one
    "Potential conflict between requirements i and j" for every pair of
    functional requirements, the first before the second, on which
    [_requirements_conflict] holds, and both requirements of such a pair
    hold one of the words "same", "identical", "equal"; and the error on
    missing security requirements when the document is about sensitive
    operations and has no [security_requirements].  The gate passes exactly
    when there is no such pair and no such lack; when no requirement holds
    one of the three words, the security error is its only possible
    error. *)
Theorem semantic_conflicts_need_qualifier
        (v : Validator) (r : ValidationResult) :
  validate_level_2_semantic v = inr r ->
  exists reqs,
    iter (get "functional_requirements" (VList []) (spec v)) = inr reqs
    /\ (forall msg,
          In msg (errors r)
          <-> (exists i j req1 req2,
                 i < j
                 /\ nth_error reqs i = Some req1
                 /\ nth_error reqs j = Some req2
                 /\ _requirements_conflict req1 req2 = true
                 /\ qualified req1 = true
                 /\ qualified req2 = true
                 /\ msg = conflict_message i j)
              \/ (unsecured (spec v) = true /\ msg = security_error))
    /\ (passed r = true
        <-> unsecured (spec v) = false
            /\ forall i j req1 req2,
                 i < j -> nth_error reqs i = Some req1 ->
                 nth_error reqs j = Some req2 ->
                 _requirements_conflict req1 req2 = false)
    /\ (Forall (fun req => qualified req = false) reqs ->
        passed r = negb (unsecured (spec v))
        /\ errors r = if unsecured (spec v) then [security_error] else []).
Proof.
  intro H. destruct (@level_2_errors v r H) as (reqs & Hreqs & Herr & Hpass).
  exists reqs. split; [exact Hreqs|]. split; [|split].
  - intro msg. rewrite Herr, in_app_iff, in_conflict_messages. split.
    + intros [(i & j & req1 & req2 & Hij & H1 & H2 & Hc & Hm)|Hs].
      * left. destruct (@conflict_qualified req1 req2 Hc) as [Q1 Q2].
        exists i, j, req1, req2. repeat split; assumption.
      * right. destruct (unsecured (spec v)); [|destruct Hs].
        destruct Hs as [<-|[]]. split; reflexivity.
    + intros [(i & j & req1 & req2 & Hij & H1 & H2 & Hc & _ & _ & Hm)
             |[Hu ->]].
      * left. exists i, j, req1, req2. repeat split; assumption.
      * right. rewrite Hu. now left.
  - rewrite Hpass, Herr, Nat.eqb_eq, length_zero_iff_nil.
    rewrite <- no_conflict_messages. split.
    + intro Hnil. apply app_eq_nil in Hnil. destruct Hnil as [Hc Hs].
      split; [|exact Hc].
      destruct (unsecured (spec v)); [discriminate | reflexivity].
    + intros [Hu Hc]. rewrite Hu, Hc. reflexivity.
  - intro Hplain.
    assert (Hnone : conflict_messages reqs = []).
    { apply no_conflict_messages. intros i j req1 req2 _ H1 _.
      destruct (_requirements_conflict req1 req2) eqn:E; [|reflexivity].
      apply conflict_qualified in E. destruct E as [E _].
      rewrite Forall_forall in Hplain.
      rewrite (Hplain req1 (@nth_error_In _ reqs i req1 H1)) in E. discriminate. }
    rewrite Hpass, Herr, Hnone. cbn [app].
    destruct (unsecured (spec v)); split; reflexivity.
Qed.

Lemma semantic_conflicts_need_qualifier_witness :
  exists r,
    validate_level_2_semantic (new_validator "token.yaml" token_doc [])
    = inr r
    /\ In "Potential conflict between requirements 2 and 3" (errors r)
    /\ passed r = false.
Proof.
  eexists. split; [vm_compute; reflexivity|].
  split; [|vm_compute; reflexivity].
  match goal with
  | |- In _ (errors ?r) =>
      assert (Hrun : validate_level_2_semantic
                       (new_validator "token.yaml" token_doc []) = inr r)
        by (vm_compute; reflexivity);
      destruct (@semantic_conflicts_need_qualifier _ r Hrun)
        as (reqs & Hreqs & Hin & _)
  end.
  apply Hin. left.
  assert (E : reqs = [VStr "FR-1: the user must log in";
                      VStr "FR-2: the same token must be reused";
                      VStr "FR-3: the same token must not be reused"]).
  { symmetry. exact (@ret_inj _ _ reqs Hreqs). }
  subst reqs.
  exists 1, 2, (VStr "FR-2: the same token must be reused"),
    (VStr "FR-3: the same token must not be reused").
  repeat split; try reflexivity. lia.
Defined.

(** X6.  For a file that is not [.yaml] the outline never has a
    [security_requirements] section: as soon as its text holds one of the
    sensitive keywords, the SEMANTIC gate returns a failed result with the
    error on missing security requirements. *)
Theorem outline_sensitive_fails (name : string) (parsed : dict)
        (content : string) (others : list dict) :
  String.eqb (suffix name) ".yaml" = false ->
  any_in sensitive_keywords (spec_text (_parse_markdown content)) = true ->
  exists r,
    validate_level_2_semantic (load_validator name parsed content others)
    = inr r
    /\ passed r = false
    /\ In "Spec involves sensitive operations but lacks security requirements"
          (errors r).
Proof.
  intros Hsuffix Hsens.
  unfold load_validator, _load_spec. rewrite Hsuffix.
  pose proof (parse_markdown_outline content) as Hshape.
  assert (Hwell : well_shaped (new_validator name (_parse_markdown content) [])
                  = true) by now apply well_shaped_outline.
  assert (Hret : returns (validate_level_2_semantic
                            (new_validator name (_parse_markdown content)
                                           others)) = true).
  { apply level_2_returns_shaped in Hwell. exact Hwell. }
  destruct (validate_level_2_semantic
              (new_validator name (_parse_markdown content) others))
    as [e|r] eqn:E; [discriminate|].
  exists r. split; [reflexivity|].
  assert (Hkey : has_key "security_requirements" (_parse_markdown content)
                 = false).
  { destruct Hshape as (us & fr & nfr & ac & ->). reflexivity. }
  unfold validate_level_2_semantic in E.
  apply bind_inr in E. destruct E as (ws & _ & E).
  apply bind_inr in E. destruct E as (reqs & _ & E).
  apply bind_inr in E. destruct E as (errs & _ & E).
  apply bind_inr in E. destruct E as (wss & _ & E).
  apply ret_inj in E. subst r. cbn [passed errors spec new_validator].
  rewrite Hsens, Hkey. cbn [negb andb fst].
  split; [apply push_not_passed | apply in_push_last].
Qed.

Lemma outline_sensitive_fails_witness :
  exists r,
    validate_level_2_semantic
      (load_validator "notes.md" [] password_outline []) = inr r
    /\ passed r = false.
Proof.
  destruct (@outline_sensitive_fails "notes.md" [] password_outline []
                                     eq_refl)
    as [r [Hr [Hp _]]].
  - vm_compute. reflexivity.
  - exists r. split; assumption.
Defined.

(** X7.  The COVERAGE gate passes exactly when the text of the document
    holds one of the words error, fail, invalid, exception, timeout and the
    document is not a complex one without the word rollback; missing
    acceptance criteria, performance bounds or resource limits only give
    warnings. *)
Theorem coverage_pass_criterion
        (v : Validator) (r : ValidationResult) (complex : bool) :
  validate_level_3_coverage v = inr r ->
  _is_complex_spec (spec v) = inr complex ->
  passed r
  = any_in error_keywords (spec_text (spec v))
    && negb (complex && negb (contains "rollback" (spec_text (spec v)))).
Proof.
  unfold validate_level_3_coverage. intros H Hcomplex.
  apply bind_inr in H. destruct H as (stories & _ & H).
  apply bind_inr in H. destruct H as (ws & _ & H).
  rewrite Hcomplex in H. cbn [bind] in H.
  apply ret_inj in H. subst r. cbn [passed errors].
  destruct (any_in error_keywords (spec_text (spec v)));
    destruct (complex && negb (contains "rollback" (spec_text (spec v))));
    reflexivity.
Qed.

Lemma coverage_pass_criterion_witness :
  exists r,
    validate_level_3_coverage (new_validator "login.yaml" login_doc [])
    = inr r
    /\ passed r = true.
Proof.
  eexists. split; [vm_compute; reflexivity|].
  refine (@coverage_pass_criterion
            (new_validator "login.yaml" login_doc []) _ false _ _);
    vm_compute; reflexivity.
Defined.

Lemma conflict_errors_length (cs : list Conflict) (acc : list string) :
  List.length
    (fold_left
       (fun errors conflict =>
          push errors ("Conflict with " ++ str (conflict_spec conflict)
                         ++ ": " ++ conflict_issue conflict))
       cs acc)
  = List.length acc + List.length cs.
Proof.
  revert acc. induction cs as [|c cs IH]; intro acc; simpl; [lia|].
  rewrite IH. unfold push. rewrite length_app. simpl. lia.
Qed.

(** X8.  The CROSS_REFERENCE gate passes exactly when
    [_check_spec_conflicts] finds no conflict, the document does not
    mention interfaces or APIs without an [api_contracts] or
    [interface_definitions] section, and it is not an update (by file name
    or by the words migration, deprecate) without a
    [backwards_compatibility] or [breaking_changes] section.  A missing
    [dependencies] section does not fail it. *)
Theorem cross_reference_pass_criterion
        (v : Validator) (r : ValidationResult) (cs : list Conflict) :
  validate_level_4_cross_reference v = inr r ->
  _check_spec_conflicts (spec v) (existing_specs v) = inr cs ->
  passed r
  = (List.length cs =? 0)
    && negb (undefined_interfaces (spec v))
    && negb (unanalysed_update v).
Proof.
  unfold validate_level_4_cross_reference. intros H Hcs.
  rewrite Hcs in H. cbn [bind] in H.
  apply ret_inj in H. subst r. cbn [passed errors].
  unfold undefined_interfaces, unanalysed_update.
  match goal with
  | |- context [fold_left ?f cs []] =>
      pose proof (conflict_errors_length cs []) as Hlen;
      remember (fold_left f cs []) as errs eqn:Herrs
  end.
  clear Herrs. simpl in Hlen. rewrite <- Hlen.
  destruct (has_key "interfaces" (spec v) || contains "api" (spec_text (spec v)));
    destruct (has_key "api_contracts" (spec v));
    destruct (has_key "interface_definitions" (spec v));
    destruct (_is_update_to_existing v);
    destruct (has_key "backwards_compatibility" (spec v));
    destruct (has_key "breaking_changes" (spec v));
    cbn [fst snd andb negb];
    rewrite ?push_not_passed, ?andb_true_r, ?andb_false_r;
    reflexivity.
Qed.

Lemma cross_reference_pass_criterion_witness :
  exists r,
    validate_level_4_cross_reference
      (new_validator "users.yaml" users_doc [orders_doc]) = inr r
    /\ passed r = false.
Proof.
  eexists. split; [vm_compute; reflexivity|].
  refine (@cross_reference_pass_criterion
            (new_validator "users.yaml" users_doc [orders_doc]) _
            [mkConflict (VStr "orders") "Duplicate API endpoint: GET"] _ _);
    vm_compute; reflexivity.
Defined.

(** X9.  After a run on a fresh validator [current_level] is the last
    level that passed, and SYNTAX when none did: it reads SYNTAX both when
    the syntax gate failed and when it passed and the semantic gate
    failed.  The document and the file name are left as they were. *)
Theorem current_level_after_run
        (name : string) (d : dict) (others : list dict)
        (res : Results) (v' : Validator) :
  run_progressive_validation (new_validator name d others) = inr (res, v') ->
  spec v' = d
  /\ spec_path_name v' = name
  /\ current_level v'
     = match res with
       | [_] | [_; _] => SYNTAX
       | [_; _; _] => SEMANTIC
       | [_; _; _; (_, r4)] =>
           if passed r4 then CROSS_REFERENCE else COVERAGE
       | _ => SYNTAX
       end.
Proof.
  intro H. destruct (run_attempt _ H) as [rs [Hatt ->]].
  destruct Hatt; cbn [combine level_order]; repeat split;
    try reflexivity.
  - destruct (passed r4); reflexivity.
  - destruct (passed r4); reflexivity.
  - destruct (passed r4); reflexivity.
Qed.

Lemma current_level_after_run_witness :
  exists res v',
    run_progressive_validation (new_validator "stories.yaml" stories_doc [])
    = inr (res, v')
    /\ current_level v' = SYNTAX.
Proof.
  destruct (run_progressive_validation
              (new_validator "stories.yaml" stories_doc []))
    as [e|[res v']] eqn:E; [vm_compute in E; discriminate E|].
  exists res, v'. split; [reflexivity|].
  destruct (current_level_after_run _ _ _ E) as (_ & _ & Hlevel).
  rewrite Hlevel. vm_compute in E. injection E as <- _. reflexivity.
Defined.

(** X10.  [validate_spec] returns [True] exactly when the runner attempted
    all four levels and the CROSS_REFERENCE result says
    [ready_for_adversarial]; it raises when the runner does. *)
Theorem validate_spec_ready (v : Validator) (b : bool) :
  validate_spec v = inr b ->
  exists res v',
    run_progressive_validation v = inr (res, v')
    /\ (b = true <->
        exists r, In (CROSS_REFERENCE, r) res
                  /\ ready_for_adversarial r = true).
Proof.
  unfold validate_spec. intro H.
  apply bind_inr in H. destruct H as ([res v'] & Hrun & H).
  apply ret_inj in H. subst b. cbn [fst].
  exists res, v'. split; [exact Hrun|].
  destruct (run_attempt _ Hrun) as [rs [Hatt ->]].
  destruct Hatt as [r1 E1 P1|r1 r2 E1 P1 E2 P2|r1 r2 r3 E1 P1 E2 P2 E3 P3
                    |r1 r2 r3 r4 E1 P1 E2 P2 E3 P3 E4];
    cbn [combine level_order all_passed_loop];
    rewrite ?P1, ?P2, ?P3; cbn [negb].
  1-3: split; [discriminate|];
    intros (r & Hin & _); simpl in Hin;
    repeat (destruct Hin as [Hin|Hin]; [discriminate Hin|]);
    destruct Hin.
  apply level_4_result in E4. destruct E4 as (_ & _ & Hready).
  split.
  - intro Hb. exists r4. split; [simpl; tauto|].
    rewrite Hready. destruct (passed r4); [reflexivity | discriminate].
  - intros (r & Hin & Hr). simpl in Hin.
    repeat (destruct Hin as [Hin|Hin]; [try discriminate Hin|]);
      [|destruct Hin].
    injection Hin as <-. rewrite Hready in Hr. now rewrite Hr.
Qed.

Lemma validate_spec_ready_witness :
  validate_spec (new_validator "login.yaml" login_doc []) = inr true.
Proof.
  destruct (validate_spec (new_validator "login.yaml" login_doc []))
    as [e|b] eqn:E; [vm_compute in E; discriminate E|].
  destruct (validate_spec_ready _ E) as (res & v' & Hrun & Hiff).
  f_equal. apply Hiff.
  vm_compute in Hrun. injection Hrun as <- _.
  eexists. split; [do 3 right; left; reflexivity | reflexivity].
Defined.

End PassCriteria.

(* ================================================================== *)
(** * What the adversaries report *)
(* ================================================================== *)

Section Findings.

Import Py Re Loop Review.

Lemma Forall_push {A : Type} (P : A -> Prop) (l : list A) (x : A) :
  Forall P l -> P x -> Forall P (push l x).
Proof.
  intros Hl Hx. unfold push. apply Forall_app. split; [exact Hl|].
  now constructor.
Qed.

Lemma Forall_append_if (P : AdversarialFinding -> Prop) (c : bool)
      (x : AdversarialFinding) (fs : Findings) :
  Forall P fs -> P x -> Forall P (append_if c x fs).
Proof. intros Hfs Hx. destruct c; simpl; [now apply Forall_push | exact Hfs]. Qed.

Lemma Forall_fold_append_if {T : Type} (P : AdversarialFinding -> Prop)
      (c : T -> bool) (x : T -> AdversarialFinding) (l : list T) :
  (forall t, In t l -> P (x t)) ->
  forall fs, Forall P fs ->
             Forall P (fold_left (fun fs t => append_if (c t) (x t) fs) l fs).
Proof.
  induction l as [|t l IH]; intros Hx fs Hfs; simpl; [exact Hfs|].
  apply IH; [intros t' Ht'; apply Hx; now right|].
  apply Forall_append_if; [exact Hfs | apply Hx; now left].
Qed.

(** Walk through the appends of a chain of checks; what is left is the
    property on each finding a check can append. *)
Ltac appended :=
  repeat first
    [ apply Forall_nil
    | assumption
    | apply Forall_append_if
    | apply Forall_fold_append_if; [intros ? ?|]
    | match goal with
      | |- Forall _ (if ?c then _ else _) => destruct c
      end ].

Lemma security_regular (d : dict) (fs : Findings) :
  attack_spec SecurityAdversary d = inr fs ->
  Forall (fun f => regular Security.name f = true) fs.
Proof.
  rewrite attack_security. intro H. apply ret_inj in H. subst fs.
  unfold Security._check_validation, Security._check_injection_risks,
    Security._check_data_protection, Security._check_authorization,
    Security._check_authentication.
  cbv zeta. appended; reflexivity.
Qed.

Lemma implementation_regular (d : dict) (fs : Findings) :
  attack_spec ImplementationAdversary d = inr fs ->
  Forall (fun f => regular Implementation.name f = true) fs.
Proof.
  rewrite attack_implementation. intro H. apply ret_inj in H. subst fs.
  unfold Implementation._check_error_recovery,
    Implementation._check_state_management,
    Implementation._check_race_conditions, Implementation._check_edge_cases.
  cbv zeta. appended; reflexivity.
Qed.

Lemma performance_regular (d : dict) (fs : Findings) :
  attack_spec PerformanceAdversary d = inr fs ->
  Forall (fun f => regular Performance.name f = true) fs.
Proof.
  rewrite attack_performance. intro H. apply ret_inj in H. subst fs.
  unfold Performance._check_pagination, Performance._check_caching_needs,
    Performance._check_resource_limits,
    Performance._check_unbounded_operations.
  cbv zeta. appended; reflexivity.
Qed.

Lemma compliance_regular (d : dict) (fs : Findings) :
  attack_spec ComplianceAdversary d = inr fs ->
  Forall (fun f => regular Compliance.name f = true) fs.
Proof.
  rewrite attack_compliance. intro H. apply ret_inj in H. subst fs.
  unfold Compliance._check_data_portability,
    Compliance._check_consent_management,
    Compliance._check_audit_requirements, Compliance._check_data_retention.
  cbv zeta. appended; reflexivity.
Qed.

Lemma scan_requirement_regular (req : value) :
  Forall (fun f => regular Ambiguity.name f = true) (scan_requirement req).
Proof.
  unfold scan_requirement. apply Forall_flat_map.
  unfold Ambiguity.vague_terms.
  repeat constructor; cbn [fst snd];
    match goal with
    | |- Forall _ (if ?c then _ else _) => destruct c
    end; repeat constructor.
Qed.

Lemma ambiguity_regular (d : dict) (fs : Findings) :
  attack_spec AmbiguityAdversary d = inr fs ->
  Forall (fun f => regular Ambiguity.name f = true) fs.
Proof.
  rewrite attack_ambiguity. intro H.
  apply bind_inr in H. destruct H as (scanned & Hscan & H).
  apply ret_inj in H. subst fs.
  assert (Hscanned : Forall (fun f => regular Ambiguity.name f = true)
                            scanned).
  { rewrite check_requirements_eq in Hscan.
    apply bind_inr in Hscan. destruct Hscan as (frs & _ & Hscan).
    apply bind_inr in Hscan. destruct Hscan as (nfrs & _ & Hscan).
    apply ret_inj in Hscan. subst scanned. simpl.
    apply Forall_flat_map. apply Forall_forall.
    intros req _. apply scan_requirement_regular. }
  unfold Ambiguity._check_error_handling, Ambiguity._check_boundaries.
  cbv zeta. appended; reflexivity.
Qed.

(** Every list of a report is regular for the agent it is filed under. *)
Lemma report_regular (s : list nat) (d : dict) (rep : AdversarialReport) :
  run_review s d = Some (inr rep) ->
  Forall (fun kfs => Forall (fun f => regular (fst kfs) f = true) (snd kfs))
         (findings_by_adversary rep)
  /\ keys (findings_by_adversary rep) = registration_order.
Proof.
  intro H.
  destruct (run_review_gather _ _ H) as [fls [Hg Hrep]].
  apply gather_outcome in Hg.
  destruct (five_results _ Hg) as (f1 & f2 & f3 & f4 & f5 & ->).
  destruct (build_report_fields _ _ _ Hrep) as (_ & _ & Hby & _).
  rewrite Hby.
  unfold adversaries in Hg.
  repeat match goal with
         | H : Forall2 _ (_ :: _) (_ :: _) |- _ =>
             inversion H; subst; clear H
         end.
  split; [|reflexivity].
  change (m_by_adversary (merge adversaries [f1; f2; f3; f4; f5]))
    with [(Security.name, f1); (Ambiguity.name, f2);
          (Implementation.name, f3); (Performance.name, f4);
          (Compliance.name, f5)].
  repeat constructor; cbn [fst snd].
  - now apply security_regular with (d := d).
  - now apply ambiguity_regular with (d := d).
  - now apply implementation_regular with (d := d).
  - now apply performance_regular with (d := d).
  - now apply compliance_regular with (d := d).
Qed.

End Findings.

(* ================================================================== *)
(** * What a report holds *)
(* ================================================================== *)

Section Reports.

Import Py Re Loop Review.

(** A report is built from the five agents' own findings. *)
Lemma report_anatomy (s : list nat) (d : dict) (rep : AdversarialReport) :
  run_review s d = Some (inr rep) ->
  exists f1 f2 f3 f4 f5,
    attack_spec SecurityAdversary d = inr f1
    /\ attack_spec AmbiguityAdversary d = inr f2
    /\ attack_spec ImplementationAdversary d = inr f3
    /\ attack_spec PerformanceAdversary d = inr f4
    /\ attack_spec ComplianceAdversary d = inr f5
    /\ findings_by_adversary rep
       = [(Security.name, f1); (Ambiguity.name, f2);
          (Implementation.name, f3); (Performance.name, f4);
          (Compliance.name, f5)]
    /\ build_report adversaries d [f1; f2; f3; f4; f5] = inr rep.
Proof.
  intro H.
  destruct (run_review_gather _ _ H) as [fls [Hg Hrep]].
  apply gather_outcome in Hg.
  destruct (five_results _ Hg) as (f1 & f2 & f3 & f4 & f5 & ->).
  destruct (build_report_fields _ _ _ Hrep) as (_ & _ & Hby & _).
  exists f1, f2, f3, f4, f5.
  unfold adversaries in Hg.
  repeat match goal with
         | H : Forall2 _ (_ :: _) (_ :: _) |- _ =>
             inversion H; subst; clear H
         end.
  repeat split; assumption.
Qed.

Lemma report_fields (s : list nat) (d : dict) (rep : AdversarialReport) :
  run_review s d = Some (inr rep) ->
  total_findings rep = List.length (listed rep)
  /\ critical_findings rep = List.length (filter is_critical (listed rep))
  /\ defended_spec_changes rep = _generate_defenses (listed rep)
  /\ approval_status rep
     = decide_status (List.length (filter is_critical (listed rep)))
                     (listed rep)
  /\ human_review_required rep
     = (0 <? List.length (filter is_critical (listed rep)))
       || (5 <? List.length (listed rep)).
Proof.
  intro H.
  destruct (report_anatomy _ _ H)
    as (f1 & f2 & f3 & f4 & f5 & _ & _ & _ & _ & _ & Hby & Hrep).
  destruct (build_report_fields _ _ _ Hrep)
    as (Htot & Hcrit & _ & Hdef & Hstatus & Hhuman).
  assert (Hl : listed rep = flattened adversaries [f1; f2; f3; f4; f5]).
  { unfold listed. rewrite Hby. reflexivity. }
  rewrite Hl. repeat split; assumption.
Qed.

Lemma regular_unfold (n : string) (f : AdversarialFinding) :
  regular n f = true ->
  adversary f = n
  /\ has_defense f = true
  /\ (severity f = CRITICAL ->
      n = "Security Adversary" /\ In (issue f) blocking_issues).
Proof.
  unfold regular. rewrite !andb_true_iff.
  intros [[Hn Hd] Hc]. apply String.eqb_eq in Hn.
  split; [exact Hn|]. split; [exact Hd|].
  intro Hsev. unfold is_critical in Hc. rewrite Hsev in Hc.
  change (severity_eqb CRITICAL CRITICAL) with true in Hc.
  cbn [negb orb] in Hc. apply andb_true_iff in Hc. destruct Hc as [Hs Hi].
  apply String.eqb_eq in Hs. split; [exact Hs|].
  apply existsb_exists in Hi. destruct Hi as (x & Hx & Hi).
  apply String.eqb_eq in Hi. now subst x.
Qed.

Lemma filed_regular (s : list nat) (d : dict) (rep : AdversarialReport)
      (k : string) (fs : Findings) (f : AdversarialFinding) :
  run_review s d = Some (inr rep) ->
  In (k, fs) (findings_by_adversary rep) -> In f fs ->
  regular k f = true.
Proof.
  intros H Hk Hf.
  destruct (report_regular _ _ H) as [Hreg _].
  rewrite Forall_forall in Hreg. specialize (Hreg _ Hk). simpl in Hreg.
  rewrite Forall_forall in Hreg. now apply Hreg.
Qed.

Lemma listed_filed (rep : AdversarialReport) (f : AdversarialFinding) :
  In f (listed rep) ->
  exists k fs, In (k, fs) (findings_by_adversary rep) /\ In f fs.
Proof.
  unfold listed, values. intro H. apply in_concat in H.
  destruct H as (fs & Hfs & Hf). apply in_map_iff in Hfs.
  destruct Hfs as ([k fs'] & <- & Hin). exists k, fs'. now split.
Qed.

(** X11.  In every report each finding is filed under the adversary it
    names, and a CRITICAL finding can only come from the Security adversary,
    with one of the three issues "Missing authentication requirements",
    "Unprotected sensitive data", "Command injection risk": no other
    adversary can block a specification. *)
Theorem findings_filed_by_name (s : list nat) (d : dict)
        (rep : AdversarialReport) (k : string) (fs : Findings)
        (f : AdversarialFinding) :
  run_review s d = Some (inr rep) ->
  In (k, fs) (findings_by_adversary rep) ->
  In f fs ->
  adversary f = k
  /\ (severity f = CRITICAL ->
      k = "Security Adversary" /\ In (issue f) blocking_issues).
Proof.
  intros H Hk Hf.
  assert (Hreg : regular k f = true) by (eapply filed_regular; eauto).
  destruct (regular_unfold _ _ Hreg) as (Hn & _ & Hc).
  split; assumption.
Qed.

Lemma findings_filed_by_name_witness :
  exists rep,
    run_review (in_turn adversaries) vague_doc = Some (inr rep)
    /\ forall k fs f,
        In (k, fs) (findings_by_adversary rep) -> In f fs ->
        adversary f = k.
Proof.
  destruct (run_review (in_turn adversaries) vague_doc) as [[e|rep]|] eqn:E;
    try (vm_compute in E; discriminate E).
  exists rep. split; [reflexivity|].
  intros k fs f Hk Hf.
  exact (proj1 (@findings_filed_by_name _ _ rep k fs f E Hk Hf)).
Defined.

Lemma defenses_of_defended (fs : Findings) :
  Forall (fun f => has_defense f = true) fs ->
  List.length (flat_map defense_of fs) = List.length fs
  /\ map defense_issue (flat_map defense_of fs) = map issue fs.
Proof.
  induction 1 as [|f fs Hf _ [IHlen IHmap]]; [split; reflexivity|].
  simpl. unfold defense_of at 1 3. unfold has_defense in Hf.
  destruct (suggested_defense f) as [c|]; [|discriminate].
  destruct (String.eqb c ""); [discriminate|].
  simpl. now rewrite IHlen, IHmap.
Qed.

(** X12.  Every finding of every adversary suggests a defence, so in
    every report [defended_spec_changes] has one entry for each finding:
    as many as [total_findings], with the issues in the order of the merged
    list. *)
Theorem every_finding_defended (s : list nat) (d : dict)
        (rep : AdversarialReport) :
  run_review s d = Some (inr rep) ->
  List.length (defended_spec_changes rep) = total_findings rep
  /\ map defense_issue (defended_spec_changes rep) = map issue (listed rep).
Proof.
  intro H.
  destruct (report_fields _ _ H) as (Htot & _ & Hdef & _).
  rewrite Hdef, Htot, generate_defenses_flat_map.
  apply defenses_of_defended.
  apply Forall_forall. intros f Hf.
  destruct (listed_filed _ _ Hf) as (k & fs & Hk & Hin).
  assert (Hreg : regular k f = true) by (eapply filed_regular; eauto).
  now destruct (regular_unfold _ _ Hreg) as (_ & Hd & _).
Qed.

Lemma every_finding_defended_witness :
  exists rep,
    run_review (in_turn adversaries) vague_doc = Some (inr rep)
    /\ List.length (defended_spec_changes rep) = total_findings rep.
Proof.
  destruct (run_review (in_turn adversaries) vague_doc) as [[e|rep]|] eqn:E;
    try (vm_compute in E; discriminate E).
  exists rep. split; [reflexivity|].
  exact (proj1 (every_finding_defended _ _ E)).
Defined.

Lemma filter_length_le {A : Type} (p : A -> bool) (l : list A) :
  List.length (filter p l) <= List.length l.
Proof.
  induction l as [|x l IH]; simpl; [lia|]. destruct (p x); simpl; lia.
Qed.

Lemma decide_status_cases (c : nat) (fs : Findings) :
  (decide_status c fs = approved_line <-> c = 0 /\ List.length fs = 0)
  /\ (decide_status c fs = blocked_line <-> 0 < c)
  /\ contains "APPROVED" (decide_status c fs)
     = (c =? 0) && (List.length fs =? 0).
Proof.
  unfold decide_status, approved_line, blocked_line.
  destruct c as [|c]; simpl (0 <? _).
  - destruct (List.length fs) as [|[|[|[|[|[|[|[|[|[|[|n]]]]]]]]]]];
      cbn [Nat.ltb Nat.leb Nat.eqb andb];
      repeat split; try discriminate; try reflexivity; try lia;
      intros [_ Hn]; discriminate Hn.
  - repeat split; try discriminate; try reflexivity; try lia;
      intros [Hc _]; discriminate Hc.
Qed.

(** X13.  In every report [critical_findings] is at most
    [total_findings]; the status is the APPROVED line exactly when there
    is no finding and the BLOCKED line exactly when there is a CRITICAL
    one; and when no human review is required there are at most five
    findings, none of them CRITICAL. *)
Theorem report_status_invariants (s : list nat) (d : dict)
        (rep : AdversarialReport) :
  run_review s d = Some (inr rep) ->
  critical_findings rep <= total_findings rep
  /\ (approval_status rep = approved_line <-> total_findings rep = 0)
  /\ (approval_status rep = blocked_line <-> 0 < critical_findings rep)
  /\ (human_review_required rep = false ->
      total_findings rep <= 5 /\ critical_findings rep = 0).
Proof.
  intro H.
  destruct (report_fields _ _ H) as (Htot & Hcrit & _ & Hstatus & Hhuman).
  rewrite Htot, Hcrit, Hstatus, Hhuman.
  pose proof (filter_length_le is_critical (listed rep)) as Hle.
  destruct (decide_status_cases
              (List.length (filter is_critical (listed rep))) (listed rep))
    as (Happ & Hblock & _).
  split; [exact Hle|]. split; [|split; [exact Hblock|]].
  - rewrite Happ. split; [tauto | intro H0; split; lia].
  - intro Hno. apply orb_false_iff in Hno. destruct Hno as [H1 H2].
    apply Nat.ltb_ge in H1. apply Nat.ltb_ge in H2. lia.
Qed.

Lemma report_status_invariants_witness :
  exists rep,
    run_review (in_turn adversaries) vague_doc = Some (inr rep)
    /\ critical_findings rep <= total_findings rep.
Proof.
  destruct (run_review (in_turn adversaries) vague_doc) as [[e|rep]|] eqn:E;
    try (vm_compute in E; discriminate E).
  exists rep. split; [reflexivity|].
  exact (proj1 (report_status_invariants _ _ E)).
Defined.

(** X14.  The test ['APPROVED' in report.approval_status] of [main] holds
    exactly for the reports without any finding: none of the three other
    status lines contains the word. *)
Theorem shown_approved_iff_clean (s : list nat) (d : dict)
        (rep : AdversarialReport) :
  run_review s d = Some (inr rep) ->
  shown_approved rep = (total_findings rep =? 0).
Proof.
  intro H.
  destruct (report_fields _ _ H) as (Htot & _ & _ & Hstatus & _).
  unfold shown_approved. rewrite Htot, Hstatus.
  destruct (decide_status_cases
              (List.length (filter is_critical (listed rep))) (listed rep))
    as (_ & _ & Hshown).
  rewrite Hshown.
  pose proof (filter_length_le is_critical (listed rep)) as Hle.
  destruct (List.length (listed rep)) as [|n].
  - replace (List.length (filter is_critical (listed rep))) with 0 by lia.
    reflexivity.
  - now rewrite andb_false_r.
Qed.

Lemma shown_approved_iff_clean_witness :
  exists rep,
    run_review (in_turn adversaries) vague_doc = Some (inr rep)
    /\ shown_approved rep = false.
Proof.
  destruct (run_review (in_turn adversaries) vague_doc) as [[e|rep]|] eqn:E;
    try (vm_compute in E; discriminate E).
  exists rep. split; [reflexivity|].
  rewrite (shown_approved_iff_clean _ _ E).
  vm_compute in E. injection E as <-. reflexivity.
Defined.

Lemma command_keyword_finding (d : dict) (fs : Findings) :
  any_in Security.cmd_keywords (spec_text d) = true ->
  attack_spec SecurityAdversary d = inr fs ->
  In Security.command_injection fs.
Proof.
  intros Hany H. rewrite attack_security in H. apply ret_inj in H. subst fs.
  unfold Security._check_validation. apply in_append_if.
  unfold Security._check_injection_risks.
  rewrite Hany. unfold append_if at 1. apply in_push_last.
Qed.

(** X15.  A document whose text holds one of the words execute, shell,
    command, system, exec is always blocked: under every schedule the
    report has the BLOCKED status line, at least one CRITICAL finding and
    requires human review. *)
Theorem command_words_block (s : list nat) (d : dict)
        (rep : AdversarialReport) :
  any_in Security.cmd_keywords (spec_text d) = true ->
  run_review s d = Some (inr rep) ->
  approval_status rep = blocked_line
  /\ 1 <= critical_findings rep
  /\ human_review_required rep = true.
Proof.
  intros Hany H.
  destruct (report_anatomy _ _ H)
    as (f1 & f2 & f3 & f4 & f5 & H1 & _ & _ & _ & _ & Hby & _).
  pose proof (@command_keyword_finding d f1 Hany H1) as Hin.
  destruct (report_fields _ _ H) as (_ & Hcrit & _ & Hstatus & Hhuman).
  assert (Hpos : (0 <? List.length (filter is_critical (listed rep)))
                 = true).
  { apply critical_present. apply Exists_exists.
    exists Security.command_injection. split; [|reflexivity].
    unfold listed. rewrite Hby. simpl. apply in_or_app. now left. }
  rewrite Hstatus, Hcrit, Hhuman. unfold decide_status. rewrite Hpos.
  apply Nat.ltb_lt in Hpos. repeat split. lia.
Qed.

Lemma command_words_block_witness :
  exists rep,
    run_review (in_turn adversaries) vague_doc = Some (inr rep)
    /\ approval_status rep = blocked_line.
Proof.
  destruct (run_review (in_turn adversaries) vague_doc) as [[e|rep]|] eqn:E;
    try (vm_compute in E; discriminate E).
  exists rep. split; [reflexivity|].
  refine (proj1 (@command_words_block _ vague_doc rep _ E)).
  vm_compute. reflexivity.
Defined.



(** X17.  For a file whose name does not end in [.yaml] the review is run
    on the single entry [content]: it never raises, the requirement scan
    of the Ambiguity adversary finds nothing, and the report is named
    'unknown'. *)
Theorem text_file_review (s : list nat) (spec_path : string)
        (parsed : dict) (content : string) (r : M AdversarialReport) :
  endswith ".yaml" spec_path = false ->
  run_review_file s spec_path parsed content = Some r ->
  Ambiguity._check_requirements (load_spec spec_path parsed content) []
  = inr []
  /\ exists rep, r = inr rep /\ spec_name rep = VStr "unknown".
Proof.
  unfold run_review_file, load_spec. intros Hyaml Hrun.
  rewrite Hyaml in *.
  split; [reflexivity|].
  exact (@named_or_error s [("content", VStr content)] r eq_refl Hrun).
Qed.

Lemma text_file_review_witness :
  exists rep,
    run_review_file round_robin "notes.md" [] "The system should be fast"
    = Some (inr rep)
    /\ spec_name rep = VStr "unknown".
Proof.
  destruct (run_review_file round_robin "notes.md" []
                            "The system should be fast")
    as [r|] eqn:E; [|vm_compute in E; discriminate E].
  destruct (@text_file_review round_robin "notes.md" []
                              "The system should be fast" r eq_refl E)
    as [_ [rep [-> Hname]]].
  exists rep. split; [reflexivity | exact Hname].
Defined.

End Reports.

(* ================================================================== *)
(** * Keywords, conflicts and the requirement scan *)
(* ================================================================== *)

Section Helpers.

Import Py Re Loop Gates.








End Helpers.

Section ScanBounds.

Import Py Re Loop Review.

Lemma length_take (n : nat) (s : string) : String.length (take n s) <= n.
Proof.
  revert s. induction n as [|n IH]; intros [|c s]; simpl; try lia.
  specialize (IH s). lia.
Qed.

Lemma flat_map_short {A B : Type} (f : A -> list B) (l : list A) :
  (forall x, List.length (f x) <= 1) ->
  List.length (flat_map f l) <= List.length l.
Proof.
  intro H. induction l as [|x l IH]; simpl; [lia|].
  rewrite length_app. specialize (H x). lia.
Qed.

Lemma flat_map_bounded {A B : Type} (f : A -> list B) (l : list A)
      (n : nat) :
  (forall x, List.length (f x) <= n) ->
  List.length (flat_map f l) <= n * List.length l.
Proof.
  intro H. induction l as [|x l IH]; simpl; [lia|].
  rewrite length_app. specialize (H x). lia.
Qed.

Lemma scan_requirement_short (req : value) :
  List.length (scan_requirement req) <= 14.
Proof.
  unfold scan_requirement.
  change 14 with (List.length Ambiguity.vague_terms).
  apply flat_map_short. intros ts.
  destruct (contains (fst ts) (lower (text_of req))); simpl; lia.
Qed.

(** X20.  The requirement scan gives at most one finding for each vague
    term and requirement, so at most 14 for each item of the two sections,
    and none for a document without them; the [location] of such a finding
    keeps at most the first 50 characters of the requirement. *)
Theorem requirement_scan_bounds (d : dict) (frs nfrs : list value)
        (fs : Findings) :
  section_items "functional_requirements" d = inr frs ->
  section_items "non_functional_requirements" d = inr nfrs ->
  Ambiguity._check_requirements d [] = inr fs ->
  List.length fs <= 14 * (List.length frs + List.length nfrs)
  /\ forall f, In f fs ->
               exists where_,
                 location f = Some where_ /\ String.length where_ <= 63.
Proof.
  intros Hfr Hnfr H.
  rewrite check_requirements_eq, Hfr, Hnfr in H. cbn [bind] in H.
  apply ret_inj in H. subst fs. simpl app.
  split.
  - rewrite <- length_app.
    apply flat_map_bounded. apply scan_requirement_short.
  - intros f Hf. apply in_flat_map in Hf. destruct Hf as (req & _ & Hf).
    unfold scan_requirement in Hf. apply in_flat_map in Hf.
    destruct Hf as (ts & _ & Hf).
    destruct (contains (fst ts) (lower (text_of req))); [|destruct Hf].
    destruct Hf as [<-|[]]. eexists. split; [reflexivity|].
    change (String.length ("requirement: " ++ take 50 (text_of req)))
      with (13 + String.length (take 50 (text_of req))).
    pose proof (length_take 50 (text_of req)). lia.
Qed.

Lemma requirement_scan_bounds_witness :
  exists fs,
    Ambiguity._check_requirements vague_doc [] = inr fs
    /\ List.length fs <= 14.
Proof.
  destruct (Ambiguity._check_requirements vague_doc []) as [e|fs] eqn:E;
    [vm_compute in E; discriminate E|].
  exists fs. split; [reflexivity|].
  exact (proj1 (@requirement_scan_bounds vague_doc [VStr fr1] [] fs
                                         eq_refl eq_refl E)).
Defined.

End ScanBounds.
